(** * Destination Intelligence MCP server: scoring, tiered content resolution
      and comparison, embedded from the TypeScript sources.

    Conventions of the embedding.
    - A JavaScript [number] is an exact rational ([Q]); integers that the tool
      schema declares as [integer] ([duration_days], [recommendation_count],
      [word_count]) are [Z]; a SQL [COUNT] is an [N].
    - A nullable column or an optional property is an [option]; the [||] and
      [?.] operators are written out on it.
    - Rows have the columns that src/database/db.ts declares for them.  The
      driver (pg, with no type parser installed) delivers a [DECIMAL] column as
      the text of its value, not as a [number]: such a column is a [Numeric],
      with its text ([numericText]) and the number the text denotes
      ([numericValue]).  [column || fallback] is an [Amount]: the text, which is
      truthy whatever number it denotes, or the fallback number.  The one
      [DECIMAL] column that the code reaches through arithmetic and numeric
      comparison only, [tourist_infrastructure_rating], is given by the number
      its text denotes; so is the [COUNT] behind [popularity_score].
    - Strings are [string], holding the UTF-8 bytes of the text; [.length]
      counts UTF-16 code units ([jsLength]).  [toUpperCase]/[toLowerCase] (and
      SQL [LOWER]) convert the ASCII letters and leave every other byte as it
      is: they are the library functions on text whose cased letters are all
      ASCII ([asciiText] where a statement depends on it).
    - An [async] function that may throw returns an [Outcome]; [try]/[catch] is
      [tryCatch].  Each [query] call and each completion of the enrichment
      client is answered by the environment record of the tool.
    - A template literal that prints a non-integer number is kept as a [Text],
      a list of literal pieces and numbers. *)

From Stdlib Require Import String Ascii List ZArith NArith QArith Qminmax Qround.
From Stdlib Require Import Lia Lqa Bool Permutation Sorted DecimalString.
Import ListNotations.
Open Scope string_scope.
Open Scope Q_scope.

(* ------------------------------------------------------------------ *)
(** ** Outcomes of asynchronous calls                                  *)
(* ------------------------------------------------------------------ *)

Inductive Outcome (A : Type) : Type :=
| Returned (a : A)
| Threw (message : string).
Arguments Returned {A} a.
Arguments Threw {A} message.

Definition bind {A B : Type} (m : Outcome A) (k : A -> Outcome B) : Outcome B :=
  match m with
  | Returned a => k a
  | Threw e => Threw e
  end.

Notation "x <- m ;; k" := (bind m (fun x => k))
  (at level 61, m at next level, right associativity).

(** [try { body } catch (error) { handler }] *)
Definition tryCatch {A : Type} (body : Outcome A) (handler : string -> Outcome A)
  : Outcome A :=
  match body with
  | Returned a => Returned a
  | Threw e => handler e
  end.

Definition isReturned {A : Type} (o : Outcome A) : bool :=
  match o with Returned _ => true | Threw _ => false end.

(* ------------------------------------------------------------------ *)
(** ** JavaScript helpers                                              *)
(* ------------------------------------------------------------------ *)

Definition upperAscii (c : ascii) : ascii :=
  let n := nat_of_ascii c in
  if ((97 <=? n) && (n <=? 122))%nat then ascii_of_nat (n - 32) else c.

Definition lowerAscii (c : ascii) : ascii :=
  let n := nat_of_ascii c in
  if ((65 <=? n) && (n <=? 90))%nat then ascii_of_nat (n + 32) else c.

Fixpoint mapString (f : ascii -> ascii) (s : string) : string :=
  match s with
  | EmptyString => EmptyString
  | String c r => String (f c) (mapString f r)
  end.

Definition toUpperCase : string -> string := mapString upperAscii.
Definition toLowerCase : string -> string := mapString lowerAscii.

(** [s.length]: the number of UTF-16 code units of the text whose UTF-8 bytes
    are [s].  A byte below 128 and the first byte of a two- or three-byte
    sequence each start a character of one code unit, the first byte of a
    four-byte sequence starts a character of two (a surrogate pair), and a
    continuation byte adds nothing. *)
Fixpoint jsLength (s : string) : nat :=
  match s with
  | EmptyString => 0
  | String c r =>
      let n := nat_of_ascii c in
      ((if n <? 128 then 1 else if n <? 192 then 0 else if n <? 240 then 1
        else 2) + jsLength r)%nat
  end.

(** The text is written in ASCII: every byte is below 128. *)
Fixpoint asciiText (s : string) : bool :=
  match s with
  | EmptyString => true
  | String c r => (nat_of_ascii c <? 128)%nat && asciiText r
  end.

(** [s.includes(sub)] on strings *)
Fixpoint strIncludes (s sub : string) : bool :=
  if prefix sub s then true
  else match s with
       | EmptyString => false
       | String _ r => strIncludes r sub
       end.

(** [arr.includes(x)] on arrays of strings *)
Definition includes (arr : list string) (x : string) : bool :=
  existsb (String.eqb x) arr.

(** [arr.join(sep)] *)
Definition join (sep : string) (arr : list string) : string :=
  String.concat sep arr.

Definition dquote : string := String "034"%char EmptyString.

Definition stringOfZ (z : Z) : string := NilZero.string_of_int (Z.to_int z).

(** truthiness of a string, of a number, and the [||] default ([orNum] is
    for values that are JavaScript numbers) *)
Definition truthyStr (o : option string) : bool :=
  match o with
  | Some s => negb (String.eqb s "")
  | None => false
  end.

Definition orStr (o : option string) (d : string) : string :=
  match o with
  | Some s => if String.eqb s "" then d else s
  | None => d
  end.

Definition orNum (o : option Q) (d : Q) : Q :=
  match o with
  | Some q => if Qeq_bool q 0 then d else q
  | None => d
  end.

Definition orList {A : Type} (o : option (list A)) (d : list A) : list A :=
  match o with
  | Some l => l
  | None => d
  end.

(** [Math.round]: the nearest integer, halves upwards *)
Definition mathRound (q : Q) : Z := Qfloor (q + (1 # 2)).

(** [arr.push(x)] *)
Definition push {A : Type} (arr : list A) (x : A) : list A := app arr [x].

(** [arr.slice(0, n)] *)
Definition slice0 {A : Type} (n : Z) (arr : list A) : list A :=
  if (n <? 0)%Z then firstn (length arr - Z.to_nat (- n)) arr
  else firstn (Z.to_nat n) arr.

(** [arr.sort(cmp)] for a comparator [(a, b) => key(b) - key(a)]: the stable
    sort by descending key. *)
Section StableSort.
Context {A : Type} (key : A -> Q).

Fixpoint insertDesc (x : A) (l : list A) : list A :=
  match l with
  | [] => [x]
  | y :: r =>
      if Qlt_le_dec (key x) (key y) then y :: insertDesc x r
      else x :: y :: r
  end.

Fixpoint sortDesc (l : list A) : list A :=
  match l with
  | [] => []
  | x :: r => insertDesc x (sortDesc r)
  end.

(** [a] may precede [b] in a list sorted by descending key. *)
Definition keyDesc (a b : A) : Prop := key b <= key a.

(** Entries of equal key stand in relation [R]. *)
Definition tieKeeps (R : A -> A -> Prop) (a b : A) : Prop :=
  key a == key b -> R a b.
End StableSort.

(** Template literals that print numbers. *)
Inductive Piece : Type :=
| Lit (s : string)
| Num (q : Q).

Definition Text : Type := list Piece.

(* ------------------------------------------------------------------ *)
(** ** DECIMAL columns as the driver delivers them                     *)
(* ------------------------------------------------------------------ *)

(** A value of a [DECIMAL(p,s)] column: [unscaled / 10^scale], with [scale]
    the [s] of the column. *)
Record Numeric : Type := {
  unscaled : Z;
  scale : nat
}.

(** The last [n] decimal digits of [v]. *)
Fixpoint fractionDigits (n : nat) (v : Z) : string :=
  match n with
  | O => ""
  | S k => fractionDigits k (v / 10) ++ stringOfZ (v mod 10)
  end.

(** The string the code receives for the value: [120.00], [4.8], [-0.50]. *)
Definition numericText (x : Numeric) : string :=
  let p := (10 ^ Z.of_nat (scale x))%Z in
  let m := Z.abs (unscaled x) in
  (if (unscaled x <? 0)%Z then "-" else "") ++
  stringOfZ (m / p) ++
  match scale x with
  | O => ""
  | S _ => "." ++ fractionDigits (scale x) (m mod p)
  end.

(** [Number(text)]: what arithmetic, [Math.round] and a comparison with a
    number make of the string. *)
Definition numericValue (x : Numeric) : Q :=
  inject_Z (unscaled x) / inject_Z (10 ^ Z.of_nat (scale x)).

(** The value [q] in a column of scale [s]. *)
Definition numeric (s : nat) (q : Q) : Numeric :=
  {| unscaled := Qfloor (q * inject_Z (10 ^ Z.of_nat s)); scale := s |}.

(** What [row.column || fallback] evaluates to for a [DECIMAL] column: the
    column's string, or the fallback number when the column is [NULL]. *)
Inductive Amount : Type :=
| AsText (x : Numeric)
| AsNumber (q : Q).

Definition orAmount (o : option Numeric) (d : Q) : Amount :=
  match o with
  | Some x => AsText x
  | None => AsNumber d
  end.

Definition toNumber (a : Amount) : Q :=
  match a with
  | AsText x => numericValue x
  | AsNumber q => q
  end.

Definition Qltb (a b : Q) : bool := negb (Qle_bool b a).

(** [a < b]: two strings are compared as strings, code unit by code unit;
    in every other case both sides are converted to numbers. *)
Definition lessThan (a b : Amount) : bool :=
  match a, b with
  | AsText x, AsText y => String.ltb (numericText x) (numericText y)
  | _, _ => Qltb (toNumber a) (toNumber b)
  end.

(** [`${a}`] *)
Definition printAmount (a : Amount) : Piece :=
  match a with
  | AsText x => Lit (numericText x)
  | AsNumber q => Num q
  end.

(** [x && x >= bound] for a [DECIMAL] column [x] *)
Definition atLeast (o : option Numeric) (bound : Q) : bool :=
  match o with
  | Some x => Qle_bool bound (numericValue x)
  | None => false
  end.

(** [`${x}`] for a nullable [DECIMAL] column *)
Definition printNumeric (o : option Numeric) : string :=
  match o with
  | Some x => numericText x
  | None => "null"
  end.

(** A plain object used as a string-keyed map, in insertion order. *)
Fixpoint objSet {V : Type} (o : list (string * V)) (k : string) (v : V)
  : list (string * V) :=
  match o with
  | [] => [(k, v)]
  | (k', v') :: r =>
      if String.eqb k k' then (k, v) :: r else (k', v') :: objSet r k v
  end.

Fixpoint objGet {V : Type} (o : list (string * V)) (k : string) : option V :=
  match o with
  | [] => None
  | (k', v') :: r => if String.eqb k k' then Some v' else objGet r k
  end.

(* ------------------------------------------------------------------ *)
(** ** Database rows (src/database/db.ts)                              *)
(* ------------------------------------------------------------------ *)

Record BestTimeToVisit : Type := {
  months : option (list string);
  weather : option string
}.

Record Destination : Type := {
  destination_id : string;
  city : string;
  country : string;
  continent : option string;
  destination_type : option (list string);
  best_time_to_visit : option BestTimeToVisit;
  average_temp_celsius : option (list (string * Q));
  languages_spoken : option (list string);
  currency : option string;
  timezone : option string;
  safety_rating : option Numeric;
  tourist_infrastructure_rating : option Q;
  budget_level : option string;
  average_daily_cost_usd : option Numeric;
  popular_activities : option (list string);
  famous_attractions : option (list string);
  local_cuisine_highlights : option (list string);
  cultural_considerations : option string;
  hero_image_url : option string;
  gallery_images : option (list string);
  short_description : option string;
  long_description : option string;
  is_active : option bool
}.

Record UserTravelPreferences : Type := {
  preference_id : string;
  pref_passenger_id : string;
  travel_style : option string;
  bucket_list_destinations : option (list string);
  budget_preference : option string;
  interests : option (list string);
  pace_preference : option string
}.

(** [dest.best_time_to_visit?.months] *)
Definition bestMonths (d : Destination) : option (list string) :=
  match best_time_to_visit d with
  | Some b => months b
  | None => None
  end.

Definition optStrEq (a b : option string) : bool :=
  match a, b with
  | Some x, Some y => String.eqb x y
  | None, None => true
  | _, _ => false
  end.

(** [is_active = true] *)
Definition activeRow (d : Destination) : bool :=
  match is_active d with Some true => true | _ => false end.

(** [a && b] on SQL arrays: the two have an element in common. *)
Definition overlaps (a b : list string) : bool :=
  existsb (fun x => includes b x) a.

(* ------------------------------------------------------------------ *)
(** ** The enrichment client (services/openai.ts)                      *)
(* ------------------------------------------------------------------ *)

(** What one [client.chat.completions.create] call yields: the provider call
    throws, the message has no content, or it has content [c].  For the tools
    that [JSON.parse] the content, [c] is [None] when parsing throws. *)
Inductive Completion (C : Type) : Type :=
| ProviderError
| NoContent
| Content (c : C).
Arguments ProviderError {C}.
Arguments NoContent {C}.
Arguments Content {C} c.

(** [apiKeyConfigured = false] is [initOpenAI()] returning no client. *)
Record OpenAI (C : Type) : Type := {
  apiKeyConfigured : bool;
  completion : Completion C
}.
Arguments apiKeyConfigured {C} o.
Arguments completion {C} o.

(** The capability is degraded: it is unconfigured, or the call fails, or it
    answers with nothing that parses. *)
Definition degraded {A : Type} (ai : OpenAI (option A)) : Prop :=
  apiKeyConfigured ai = false \/
  completion ai = ProviderError \/ completion ai = NoContent \/
  completion ai = Content None.

(** No API key is set. *)
Definition unconfigured {C : Type} : OpenAI C :=
  {| apiKeyConfigured := false; completion := ProviderError |}.

(* ------------------------------------------------------------------ *)
(** ** recommend-destinations                                          *)
(* ------------------------------------------------------------------ *)

Record RecommendContext : Type := {
  travel_month : option string;
  budget_range : option (Q * Q);
  ctx_interests : option (list string);
  previous_destinations : option (list string)
}.

Definition emptyContext : RecommendContext :=
  {| travel_month := None; budget_range := None;
     ctx_interests := None; previous_destinations := None |}.

Record RecommendDestinationsInput : Type := {
  passenger_id : option string;
  context : option RecommendContext;
  recommendation_count : option Z
}.

(** A row of the candidate query: [Destination & { popularity_score }]. *)
Record Candidate : Type := {
  dest : Destination;
  popularity_score : N
}.

(** [{ ...dest, match_score }] *)
Record Scored : Type := {
  row : Candidate;
  match_score : Q
}.

Record DestinationRecommendation : Type := {
  rank : Z;
  rec_destination : string;
  rec_country : string;
  rec_match_score : Q;
  match_reasons : list string;
  destination_highlights : list string;
  estimated_budget : Amount;
  rec_best_time_to_visit : string;
  why_now : string;
  hero_image : string;
  call_to_action : string
}.

Record InspirationTheme : Type := {
  theme : string;
  theme_destinations : list string
}.

Record RecommendationsResponse : Type := {
  recommendations : list DestinationRecommendation;
  inspiration_themes : list InspirationTheme
}.

Definition numOfN (n : N) : Q := inject_Z (Z.of_N n).
Definition numOfNat (n : nat) : Q := inject_Z (Z.of_nat n).

(** [destTypes.filter(type => userInterests.some(i => i.toUpperCase().includes(type))).length] *)
Definition interestMatch (destTypes userInterests : list string) : nat :=
  length (filter (fun type =>
            existsb (fun interest => strIncludes (toUpperCase interest) type)
                    userInterests) destTypes).

(** [destTypes.filter(type => context.interests.some(i => i.toUpperCase() === type)).length] *)
Definition contextMatch (destTypes interests : list string) : nat :=
  length (filter (fun type =>
            existsb (fun interest => String.eqb (toUpperCase interest) type)
                    interests) destTypes).

(** The body of the scoring callback up to, and without, the final
    [Math.min(matchScore, 100)]. *)
Definition rawMatchScore (userPreferences : option UserTravelPreferences)
    (context : RecommendContext) (c : Candidate) : Q :=
  let d := dest c in
  let matchScore := 50 in
  let matchScore :=
    match userPreferences with
    | Some up =>
        let destTypes := orList (destination_type d) [] in
        let userInterests := orList (interests up) [] in
        let matchScore :=
          matchScore + numOfNat (interestMatch destTypes userInterests) * 10 in
        let matchScore :=
          if optStrEq (budget_level d) (budget_preference up)
          then matchScore + 15 else matchScore in
        match bucket_list_destinations up with
        | Some bl => if includes bl (city d) then matchScore + 25 else matchScore
        | None => matchScore
        end
    | None => matchScore
    end in
  let matchScore :=
    match ctx_interests context with
    | Some ints =>
        let destTypes := orList (destination_type d) [] in
        matchScore + numOfNat (contextMatch destTypes ints) * 15
    | None => matchScore
    end in
  let matchScore :=
    match travel_month context with
    | Some m =>
        if negb (String.eqb m "") && includes (orList (bestMonths d) []) m
        then matchScore + 20 else matchScore
    | None => matchScore
    end in
  let matchScore := matchScore + Qmin (numOfN (popularity_score c) * 2) 10 in
  match tourist_infrastructure_rating d with
  | Some r => if Qeq_bool r 0 then matchScore else matchScore + r * 2
  | None => matchScore
  end.

Definition scoreCandidate (userPreferences : option UserTravelPreferences)
    (context : RecommendContext) (c : Candidate) : Scored :=
  {| row := c;
     match_score := Qmin (rawMatchScore userPreferences context c) 100 |}.

(** The value the formatting step maps over.  The candidates the tool scored
    are an array of candidate objects.  What the enrichment client hands back
    is whatever its JSON holds under [recommendations]: a value that is not an
    array, or an array whose entries are [null] ([None]) or candidate
    objects. *)
Inductive Answered : Type :=
| NotAnArray
| Entries (entries : list (option Scored)).

Definition asArray (candidates : list Scored) : Answered :=
  Entries (map Some candidates).

(** services/openai.ts, [personalizeRecommendations]: every failure is caught
    inside and answered with the candidates as they are;
    [result.recommendations || params.candidateDestinations] otherwise.  The
    content of the completion is [None] when [JSON.parse] or the read of
    [result.recommendations] throws, [Some None] when [result.recommendations]
    is absent or falsy, and [Some (Some a)] when it is the truthy value
    [a]. *)
Definition personalizeRecommendations (ai : OpenAI (option (option Answered)))
    (candidateDestinations : list Scored) : Answered :=
  if negb (apiKeyConfigured ai) then asArray candidateDestinations
  else match completion ai with
       | ProviderError => asArray candidateDestinations
       | NoContent => asArray candidateDestinations
       | Content None => asArray candidateDestinations
       | Content (Some result) =>
           match result with
           | Some recs => recs
           | None => asArray candidateDestinations
           end
       end.

(** [x && x >= bound] for a number [x] *)
Definition geNum (o : option Q) (bound : Q) : bool :=
  match o with
  | Some q => negb (Qeq_bool q 0) && Qle_bool bound q
  | None => false
  end.

Definition matchReasonsOf (context : RecommendContext) (d : Destination)
  : list string :=
  let matchReasons := [] in
  let matchReasons :=
    match travel_month context with
    | Some m =>
        if negb (String.eqb m "") &&
           match bestMonths d with Some ms => includes ms m | None => false end
        then push matchReasons ("Perfect weather in " ++ m)
        else matchReasons
    | None => matchReasons
    end in
  let matchReasons :=
    match ctx_interests context, destination_type d with
    | Some ints, Some types =>
        match filter (fun type => includes ints (toLowerCase type)) types with
        | first :: _ =>
            push matchReasons ("Matches your interest in " ++ toLowerCase first)
        | [] => matchReasons
        end
    | _, _ => matchReasons
    end in
  let matchReasons :=
    if atLeast (safety_rating d) 4
    then push matchReasons "High safety rating" else matchReasons in
  let matchReasons :=
    if geNum (tourist_infrastructure_rating d) 4.5
    then push matchReasons "Excellent tourist infrastructure"
    else matchReasons in
  match matchReasons with
  | [] => ["Popular destination"; "Great for first-time visitors"]
  | _ => matchReasons
  end.

Definition formatRecommendation (context : RecommendContext)
    (index : nat) (s : Scored) : DestinationRecommendation :=
  let d := dest (row s) in
  {| rank := Z.of_nat index + 1;
     rec_destination := city d;
     rec_country := country d;
     rec_match_score := match_score s;
     match_reasons := slice0 3 (matchReasonsOf context d);
     destination_highlights :=
       match famous_attractions d with
       | Some fa => slice0 4 fa
       | None => []
       end;
     estimated_budget := orAmount (average_daily_cost_usd d) 100;
     rec_best_time_to_visit :=
       orStr (option_map (join ", ") (bestMonths d)) "Year-round";
     why_now :=
       orStr (match best_time_to_visit d with
              | Some b => weather b
              | None => None
              end) "Great time to visit";
     hero_image := orStr (hero_image_url d) "";
     call_to_action :=
       "Explore " ++ city d ++ " packages from $" ++
       stringOfZ
         (mathRound (toNumber (orAmount (average_daily_cost_usd d) 100) * 3)) |}.

(** [arr.map((x, index) => f(index, x))] *)
Fixpoint mapi {A B : Type} (f : nat -> A -> B) (i : nat) (l : list A) : list B :=
  match l with
  | [] => []
  | x :: r => f i x :: mapi f (S i) r
  end.

(** The formatting callback on a [null] entry: the first property it reads
    throws a [TypeError]. *)
Definition nullEntryMessage (context : RecommendContext) : string :=
  "Cannot read properties of null (reading '" ++
  (if truthyStr (travel_month context) then "best_time_to_visit"
   else match ctx_interests context with
        | Some _ => "destination_type"
        | None => "safety_rating"
        end) ++ "')".

Fixpoint formatEntries (context : RecommendContext) (index : nat)
    (entries : list (option Scored)) : Outcome (list DestinationRecommendation) :=
  match entries with
  | [] => Returned []
  | None :: _ => Threw (nullEntryMessage context)
  | Some s :: r =>
      rest <- formatEntries context (S index) r ;;
      Returned (formatRecommendation context index s :: rest)
  end.

(** [personalizedDestinations.map((dest, index) => ...)], which runs outside
    any [try]. *)
Definition formatAnswered (context : RecommendContext) (a : Answered)
  : Outcome (list DestinationRecommendation) :=
  match a with
  | NotAnArray => Threw "personalizedDestinations.map is not a function"
  | Entries entries => formatEntries context 0 entries
  end.

(** The [themes] map: per type the first five cities, types in first-seen
    order. *)
Definition addCity (themes : list (string * list string)) (type cityName : string)
  : list (string * list string) :=
  match objGet themes type with
  | None => objSet themes type [cityName]
  | Some cities =>
      if (length cities <? 5)%nat then objSet themes type (push cities cityName)
      else themes
  end.

Definition buildThemes (rows : list Candidate) : list (string * list string) :=
  fold_left (fun themes c =>
               fold_left (fun themes type => addCity themes type (city (dest c)))
                         (orList (destination_type (dest c)) []) themes)
            rows [].

Definition capitalizeTheme (t : string) : string :=
  match t with
  | EmptyString => EmptyString
  | String c r => String c (toLowerCase r)
  end.

Record RecommendEnv : Type := {
  (** rows of [SELECT * FROM user_travel_preferences WHERE passenger_id = $1] *)
  prefRows : Outcome (list UserTravelPreferences);
  (** the rows of [destinations], each with the number of log rows that show
      its city, in the order of
      [ORDER BY popularity_score DESC, d.tourist_infrastructure_rating DESC] *)
  candidateRows : Outcome (list Candidate);
  personalizer : OpenAI (option (option Answered));
  (** the [INSERT INTO travel_recommendations_log] *)
  logInsert : Outcome unit
}.

(** The [WHERE] clause of the candidate query: the row is active; its daily
    cost lies in the budget range, if one is given; its tags overlap the
    interests as they were sent, letter for letter, if any are given; its city
    is none of the previous destinations, if any are given.  A [NULL] cost or
    tag list satisfies neither of the two conditions on it. *)
Definition isCandidate (context : RecommendContext) (c : Candidate) : bool :=
  let d := dest c in
  activeRow d &&
  match budget_range context with
  | Some (lo, hi) =>
      match average_daily_cost_usd d with
      | Some cost =>
          Qle_bool lo (numericValue cost) && Qle_bool (numericValue cost) hi
      | None => false
      end
  | None => true
  end &&
  match ctx_interests context with
  | Some (interest :: others) =>
      match destination_type d with
      | Some types => overlaps types (interest :: others)
      | None => false
      end
  | _ => true
  end &&
  match previous_destinations context with
  | Some (previous :: others) => negb (includes (previous :: others) (city d))
  | _ => true
  end.

(** The candidate query: its [WHERE] clause and its
    [LIMIT ${recommendation_count * 2}]. *)
Definition candidateQuery (env : RecommendEnv) (context : RecommendContext)
    (count : Z) : Outcome (list Candidate) :=
  rows <- candidateRows env ;;
  if (count * 2 <? 0)%Z then Threw "LIMIT must not be negative"
  else Returned (firstn (Z.to_nat (count * 2)) (filter (isCandidate context) rows)).

Definition recommendDestinations (env : RecommendEnv)
    (input : RecommendDestinationsInput) : Outcome RecommendationsResponse :=
  let context :=
    match context input with Some c => c | None => emptyContext end in
  let count :=
    match recommendation_count input with Some n => n | None => 5%Z end in
  userPreferences <-
    (if truthyStr (passenger_id input)
     then prefResult <- prefRows env ;; Returned (hd_error prefResult)
     else Returned None) ;;
  rows <- candidateQuery env context count ;;
  match rows with
  | [] => Returned {| recommendations := []; inspiration_themes := [] |}
  | _ =>
      let candidateDestinations :=
        map (scoreCandidate userPreferences context) rows in
      let sorted := sortDesc match_score candidateDestinations in
      let topDestinations := slice0 count sorted in
      let personalizedDestinations :=
        match userPreferences, ctx_interests context with
        | None, None => asArray topDestinations
        | _, _ => personalizeRecommendations (personalizer env) topDestinations
        end in
      recommendations <- formatAnswered context personalizedDestinations ;;
      let inspiration_themes :=
        map (fun e => {| theme := capitalizeTheme (fst e);
                         theme_destinations := snd e |})
            (buildThemes rows) in
      _ <- (if truthyStr (passenger_id input)
            then tryCatch (logInsert env) (fun _ => Returned tt)
            else Returned tt) ;;
      Returned {| recommendations := recommendations;
                  inspiration_themes := slice0 3 inspiration_themes |}
  end.

(* ------------------------------------------------------------------ *)
(** ** generate-personalized-itinerary                                 *)
(* ------------------------------------------------------------------ *)

Record TravelerProfile : Type := {
  traveler_type : option string;
  profile_interests : option (list string);
  profile_pace_preference : option string;
  profile_budget_level : option string;
  must_see_attractions : option (list string)
}.

Record GenerateItineraryInput : Type := {
  itinerary_destination : string;
  duration_days : Z;
  traveler_profile : option TravelerProfile
}.

Record Slot : Type := {
  activity : string;
  location : string;
  duration : string;
  why_this : string;
  tips : list string
}.

Record Meals : Type := {
  breakfast : string;
  lunch : string;
  dinner : string
}.

Record DaySchedule : Type := {
  day : Z;
  date : option string;
  day_theme : string;
  morning : Slot;
  afternoon : Slot;
  evening : Slot;
  meals : Meals;
  estimated_cost : Amount;
  walking_distance_km : Q
}.

Record AlternativeOption : Type := {
  alternative_day : Z;
  original_activity : string;
  alternative : string;
  reason : string
}.

Record BudgetBreakdown : Type := {
  budget_meals : Q;
  budget_activities : Q;
  budget_transportation : Q;
  total_per_day : Amount
}.

Record ItineraryHeader : Type := {
  header_destination : string;
  total_days : Z;
  header_travel_style : string;
  overview_text : string
}.

Record ItineraryResponse : Type := {
  itinerary : ItineraryHeader;
  daily_schedule : list DaySchedule;
  alternative_options : list AlternativeOption;
  packing_list : list string;
  budget_breakdown : BudgetBreakdown
}.

Record ItineraryTemplate : Type := {
  template_id : string;
  trip_style : string;
  template_daily_schedule : option (list DaySchedule);
  template_packing_list : option (list string);
  template_budget_breakdown : option BudgetBreakdown;
  usage_count : option Z
}.

(** The parsed JSON of the itinerary completion. *)
Record AiItinerary : Type := {
  ai_itinerary : ItineraryHeader;
  ai_daily_schedule : list DaySchedule;
  ai_alternative_options : option (list AlternativeOption);
  ai_packing_list : option (list string);
  ai_budget_breakdown : option BudgetBreakdown
}.

Record ItineraryEnv : Type := {
  (** rows of the destination lookup ([LOWER(city) = LOWER($1)], active,
      [LIMIT 1]) *)
  itineraryDestRows : Outcome (list Destination);
  (** rows of the featured-template lookup for this destination and duration *)
  templateRows : Outcome (list ItineraryTemplate);
  (** the [UPDATE itinerary_templates SET usage_count = usage_count + 1] *)
  usageUpdate : Outcome unit;
  itineraryAI : OpenAI (option AiItinerary);
  (** the [INSERT INTO itinerary_templates] of a generated itinerary *)
  templateInsert : Outcome unit
}.

(** services/openai.ts, [generateItinerary] *)
Definition generateItinerary (ai : OpenAI (option AiItinerary))
  : Outcome AiItinerary :=
  if negb (apiKeyConfigured ai) then Threw "OpenAI not configured"
  else
    tryCatch
      (match completion ai with
       | ProviderError => Threw "provider error"
       | NoContent => Threw "No content generated"
       | Content None => Threw "Unexpected token in JSON"
       | Content (Some parsed) => Returned parsed
       end)
      (fun _ => Threw "Failed to generate itinerary").

Definition notFoundMessage (destination : string) : string :=
  "Destination " ++ dquote ++ destination ++ dquote ++ " not found".

(** The [budget_breakdown] default built from the destination's daily cost. *)
Definition defaultBudget (d : Destination) : BudgetBreakdown :=
  let cost := orAmount (average_daily_cost_usd d) 100 in
  {| budget_meals := inject_Z (mathRound (toNumber cost * 0.4));
     budget_activities := inject_Z (mathRound (toNumber cost * 0.4));
     budget_transportation := inject_Z (mathRound (toNumber cost * 0.2));
     total_per_day := cost |}.

(** [dest.famous_attractions?.[i]] *)
Definition attractionAt (d : Destination) (i : nat) : option string :=
  match famous_attractions d with
  | Some fa => nth_error fa i
  | None => None
  end.

Definition fallbackDay (d : Destination) (i : nat) : DaySchedule :=
  {| day := Z.of_nat i + 1;
     date := None;
     day_theme :=
       if Nat.eqb i 0 then "Arrival & City Introduction"
       else "Day " ++ stringOfZ (Z.of_nat i + 1) ++ " Exploration";
     morning :=
       {| activity := orStr (attractionAt d (i * 2)) "Explore local area";
          location := city d;
          duration := "2-3 hours";
          why_this := "Popular attraction";
          tips := ["Arrive early"; "Book tickets in advance"] |};
     afternoon :=
       {| activity :=
            orStr (attractionAt d (i * 2 + 1)) "Local cuisine exploration";
          location := city d;
          duration := "3-4 hours";
          why_this := "Must-see experience";
          tips := ["Take your time"; "Enjoy the experience"] |};
     evening :=
       {| activity := "Dinner and local nightlife";
          location := city d;
          duration := "2-3 hours";
          why_this := "Experience local culture";
          tips := ["Try local specialties"; "Ask locals for recommendations"] |};
     meals :=
       {| breakfast := "Hotel or local café";
          lunch := "Local restaurant";
          dinner := "Traditional cuisine" |};
     estimated_cost := orAmount (average_daily_cost_usd d) 100;
     walking_distance_km := 5 |}.

(** The [catch] branch: the deterministic itinerary. *)
Definition fallbackItinerary (d : Destination) (duration_days : Z)
  : ItineraryResponse :=
  {| itinerary :=
       {| header_destination := city d;
          total_days := duration_days;
          header_travel_style := "BALANCED";
          overview_text :=
            "Explore " ++ city d ++ " at your own pace. This " ++
            stringOfZ duration_days ++ "-day itinerary covers the highlights." |};
     daily_schedule := map (fallbackDay d) (seq 0 (Z.to_nat duration_days));
     alternative_options := [];
     packing_list :=
       ["Comfortable walking shoes"; "Weather-appropriate clothing"; "Camera";
        "Travel documents"];
     budget_breakdown := defaultBudget d |}.

Definition templateItinerary (d : Destination) (duration_days : Z)
    (template : ItineraryTemplate) : ItineraryResponse :=
  {| itinerary :=
       {| header_destination := city d;
          total_days := duration_days;
          header_travel_style := trip_style template;
          overview_text :=
            "Experience the best of " ++ city d ++ " in " ++
            stringOfZ duration_days ++ " days with this " ++
            toLowerCase (trip_style template) ++ " itinerary." |};
     daily_schedule := orList (template_daily_schedule template) [];
     alternative_options := [];
     packing_list := orList (template_packing_list template) [];
     budget_breakdown :=
       match template_budget_breakdown template with
       | Some b => b
       | None => defaultBudget d
       end |}.

Definition enhancedItinerary (d : Destination) (aiItinerary : AiItinerary)
  : ItineraryResponse :=
  {| itinerary :=
       {| header_destination := city d;
          total_days := total_days (ai_itinerary aiItinerary);
          header_travel_style := header_travel_style (ai_itinerary aiItinerary);
          overview_text := overview_text (ai_itinerary aiItinerary) |};
     daily_schedule := ai_daily_schedule aiItinerary;
     alternative_options := orList (ai_alternative_options aiItinerary) [];
     packing_list :=
       orList (ai_packing_list aiItinerary)
         ["Comfortable walking shoes"; "Weather-appropriate clothing"; "Camera";
          "Power adapter"; "Reusable water bottle"];
     budget_breakdown :=
       match ai_budget_breakdown aiItinerary with
       | Some b => b
       | None => defaultBudget d
       end |}.

Definition generatePersonalizedItinerary (env : ItineraryEnv)
    (input : GenerateItineraryInput) : Outcome ItineraryResponse :=
  let duration_days := duration_days input in
  if ((duration_days <? 1) || (duration_days >? 30))%Z
  then Threw "Duration must be between 1 and 30 days"
  else
    destResult <- itineraryDestRows env ;;
    match destResult with
    | [] => Threw (notFoundMessage (itinerary_destination input))
    | d :: _ =>
        templateResult <- templateRows env ;;
        match templateResult with
        | template :: _ =>
            _ <- usageUpdate env ;;
            Returned (templateItinerary d duration_days template)
        | [] =>
            tryCatch
              (aiItinerary <- generateItinerary (itineraryAI env) ;;
               let response := enhancedItinerary d aiItinerary in
               _ <- tryCatch (templateInsert env) (fun _ => Returned tt) ;;
               Returned response)
              (fun _ => Returned (fallbackItinerary d duration_days))
        end
    end.

(* ------------------------------------------------------------------ *)
(** ** generate-travel-inspiration                                     *)
(* ------------------------------------------------------------------ *)

Record GenerateInspirationInput : Type := {
  content_type : string;
  inspiration_theme : string;
  target_destination : option string;
  target_audience : option string;
  tone : option string;
  word_count : option Z
}.

(** The parsed JSON of the inspiration completion. *)
Record AiInspiration : Type := {
  title : string;
  subtitle : string;
  body : string;
  callToAction : option string
}.

Record InspirationContent : Type := {
  content_title : string;
  content_subtitle : string;
  content_body : string;
  content_call_to_action : option string;
  related_packages : list string;
  images : list string;
  estimated_read_time : Z
}.

Record SeoMetadata : Type := {
  meta_title : string;
  meta_description : string;
  keywords : list string
}.

Record InspirationResponse : Type := {
  content : InspirationContent;
  seo_metadata : SeoMetadata
}.

Record InspirationEnv : Type := {
  inspirationAI : OpenAI (option AiInspiration);
  (** rows of [SELECT gallery_images, hero_image_url FROM destinations ...] *)
  imageRows : Outcome (list Destination);
  (** the [INSERT INTO inspiration_content] *)
  contentInsert : Outcome unit
}.

(** services/openai.ts, [generateInspirationContent] *)
Definition generateInspirationContent (ai : OpenAI (option AiInspiration))
  : Outcome AiInspiration :=
  if negb (apiKeyConfigured ai) then Threw "OpenAI not configured"
  else
    tryCatch
      (match completion ai with
       | ProviderError => Threw "provider error"
       | NoContent => Threw "No content generated"
       | Content None => Threw "Unexpected token in JSON"
       | Content (Some parsed) => Returned parsed
       end)
      (fun _ => Threw "Failed to generate inspiration content").

(** [Math.ceil(word_count / 200)] *)
Definition readTime (word_count : Z) : Z := (- ((- word_count) / 200))%Z.

Definition generateTravelInspiration (env : InspirationEnv)
    (input : GenerateInspirationInput) : Outcome InspirationResponse :=
  let target_audience :=
    match target_audience input with Some a => a | None => "travelers" end in
  let word_count :=
    match word_count input with Some w => w | None => 500%Z end in
  aiContent <- generateInspirationContent (inspirationAI env) ;;
  images <-
    (if truthyStr (target_destination input)
     then
       destResult <- imageRows env ;;
       match destResult with
       | d :: _ =>
           Returned
             (filter (fun s => negb (String.eqb s ""))
                     (app (orList (gallery_images d) [])
                          (match hero_image_url d with
                           | Some h => [h]
                           | None => []
                           end)))
       | [] => Returned []
       end
     else Returned []) ;;
  let estimatedReadTime := readTime word_count in
  let seoMetadata :=
    {| meta_title := title aiContent;
       meta_description := subtitle aiContent;
       keywords :=
         [toLowerCase (inspiration_theme input);
          orStr (option_map toLowerCase (target_destination input)) "travel";
          target_audience; "vacation"; "travel guide"] |} in
  _ <- tryCatch (contentInsert env) (fun _ => Returned tt) ;;
  Returned
    {| content :=
         {| content_title := title aiContent;
            content_subtitle := subtitle aiContent;
            content_body := body aiContent;
            content_call_to_action := callToAction aiContent;
            related_packages := [];
            images := slice0 5 images;
            estimated_read_time := estimatedReadTime |};
       seo_metadata := seoMetadata |}.

(* ------------------------------------------------------------------ *)
(** ** get-destination-guide                                           *)
(* ------------------------------------------------------------------ *)

Record GetDestinationGuideInput : Type := {
  guide_destination : string;
  guide_sections : option (list string);
  guide_traveler_type : option string;
  guide_duration_days : option Z
}.

Record DestinationGuide : Type := {
  guide_type : string;
  guide_content : string;
  guide_tips : option (list string)
}.

Record POI : Type := {
  poi_name : string;
  poi_category : option (list string);
  poi_description : option string;
  poi_price_level : option string;
  poi_images : option (list string);
  visit_duration_minutes : option Z;
  poi_best_time_to_visit : option string;
  poi_tags : option (list string);
  is_must_see : option bool
}.

Record GuideDestination : Type := {
  guide_name : string;
  guide_country : string;
  guide_description : string;
  best_known_for : list string;
  guide_best_time_to_visit : string;
  average_trip_duration : string
}.

Record QuickFacts : Type := {
  fact_language : string;
  fact_currency : string;
  fact_timezone : string;
  fact_safety_rating : string;
  fact_budget_level : string;
  fact_average_daily_cost : string
}.

Record Overview : Type := {
  introduction : string;
  why_visit : list string;
  quick_facts : QuickFacts;
  local_culture : string
}.

Record Attraction : Type := {
  attraction_name : string;
  attraction_description : string;
  why_special : string;
  estimated_time : string;
  attraction_best_time : string;
  insider_tip : string;
  attraction_images : list string
}.

Record ThingsToDo : Type := {
  must_see : list Attraction;
  recommended_activities : list string;
  hidden_gems : list string;
  day_trips : list string
}.

Record Restaurant : Type := {
  restaurant_name : string;
  cuisine : string;
  restaurant_price_level : string;
  signature_dish : string;
  atmosphere : string
}.

Record Dining : Type := {
  must_try_dishes : list string;
  recommended_restaurants : list Restaurant;
  food_neighborhoods : list string;
  dining_tips : list string
}.

Record PracticalInfo : Type := {
  getting_around : string;
  language_tips : list string;
  safety_tips : list string;
  money_matters : string;
  what_to_pack : list string
}.

Record DestinationGuideResponse : Type := {
  guide_header : GuideDestination;
  overview : option Overview;
  things_to_do : option ThingsToDo;
  dining : option Dining;
  practical_info : option PracticalInfo;
  insider_tips : list string;
  seasonal_highlights : option BestTimeToVisit
}.

Record GuideEnv : Type := {
  guideDestRows : Outcome (list Destination);
  (** published guides of the destination, newest first *)
  guideRows : Outcome (list DestinationGuide);
  (** up to 10 attractions, must-see first, then by rating *)
  attractionRows : Outcome (list POI);
  (** up to 8 restaurants by rating *)
  restaurantRows : Outcome (list POI);
  guideAI : OpenAI string
}.

(** services/openai.ts, [generateDestinationGuide] *)
Definition generateDestinationGuide (ai : OpenAI string) : Outcome string :=
  if negb (apiKeyConfigured ai)
  then Returned
         "AI content generation is not available. Please configure OpenAI API key."
  else
    tryCatch
      (match completion ai with
       | ProviderError => Threw "provider error"
       | NoContent => Returned "Unable to generate content"
       | Content c => Returned (orStr (Some c) "Unable to generate content")
       end)
      (fun _ => Threw "Failed to generate AI content").

Definition findGuide (guides : list DestinationGuide) (type : string)
  : option DestinationGuide :=
  find (fun g => String.eqb (guide_type g) type) guides.

(** [`${x}`] for a nullable string *)
Definition printNullable (o : option string) : string :=
  match o with Some s => s | None => "null" end.

Definition attractionOf (poi : POI) : Attraction :=
  {| attraction_name := poi_name poi;
     attraction_description := orStr (poi_description poi) "";
     why_special :=
       orStr (option_map (join ", ") (poi_tags poi)) "Popular attraction";
     estimated_time :=
       match visit_duration_minutes poi with
       | Some m => if (m =? 0)%Z then "1-2 hours" else stringOfZ m ++ " minutes"
       | None => "1-2 hours"
       end;
     attraction_best_time :=
       orStr (poi_best_time_to_visit poi) "Morning to avoid crowds";
     insider_tip :=
       match is_must_see poi with
       | Some true => "Book tickets online in advance"
       | _ => "Worth visiting if you have time"
       end;
     attraction_images := orList (poi_images poi) [] |}.

Definition restaurantOf (poi : POI) : Restaurant :=
  {| restaurant_name := poi_name poi;
     cuisine := orStr (option_map (join ", ") (poi_category poi)) "Local cuisine";
     restaurant_price_level := orStr (poi_price_level poi) "$$";
     signature_dish := orStr (poi_description poi) "";
     atmosphere :=
       match poi_tags poi with
       | Some tags => if includes tags "FINE_DINING" then "Upscale" else "Casual"
       | None => "Casual"
       end |}.

Definition overviewOf (d : Destination) (overviewGuide : option DestinationGuide)
  : Overview :=
  {| introduction := orStr (long_description d) (orStr (short_description d) "");
     why_visit := orList (destination_type d) [];
     quick_facts :=
       {| fact_language :=
            orStr (option_map (join ", ") (languages_spoken d)) "";
          fact_currency := orStr (currency d) "";
          fact_timezone := orStr (timezone d) "";
          fact_safety_rating :=
            match safety_rating d with
            | Some r => numericText r ++ "/5"
            | None => "N/A"
            end;
          fact_budget_level := orStr (budget_level d) "Moderate";
          fact_average_daily_cost :=
            match average_daily_cost_usd d with
            | Some c => "$" ++ numericText c
            | None => "N/A"
            end |};
     local_culture :=
       orStr (cultural_considerations d)
             (orStr (option_map guide_content overviewGuide) "") |}.

Definition getDestinationGuide (env : GuideEnv) (input : GetDestinationGuideInput)
  : Outcome DestinationGuideResponse :=
  let guide_sections :=
    orList (guide_sections input) ["OVERVIEW"; "THINGS_TO_DO"; "DINING"] in
  let days :=
    match guide_duration_days input with
    | Some n => if (n =? 0)%Z then 3%Z else n
    | None => 3%Z
    end in
  destResult <- guideDestRows env ;;
  match destResult with
  | [] => Threw (notFoundMessage (guide_destination input))
  | d :: _ =>
      let header :=
        {| guide_name := city d;
           guide_country := country d;
           guide_description := orStr (short_description d) "";
           best_known_for := orList (famous_attractions d) [];
           guide_best_time_to_visit :=
             orStr (option_map (join ", ") (bestMonths d)) "Year-round";
           average_trip_duration :=
             stringOfZ days ++ "-" ++ stringOfZ (days + 2) ++ " days" |} in
      existingGuides <- guideRows env ;;
      let overviewGuide := findGuide existingGuides "OVERVIEW" in
      let overview0 :=
        if includes guide_sections "OVERVIEW"
        then Some (overviewOf d overviewGuide) else None in
      let insider_tips0 :=
        if includes guide_sections "OVERVIEW"
        then match overviewGuide with
             | Some g => orList (guide_tips g) []
             | None => []
             end
        else [] in
      things <-
        (if includes guide_sections "THINGS_TO_DO"
         then
           pois <- attractionRows env ;;
           let attractions := map attractionOf pois in
           Returned
             (Some {| must_see := firstn 5 attractions;
                      recommended_activities := orList (popular_activities d) [];
                      hidden_gems := map attraction_name (skipn 5 attractions);
                      day_trips := [] |})
         else Returned None) ;;
      dining0 <-
        (if includes guide_sections "DINING"
         then
           pois <- restaurantRows env ;;
           let diningGuide := findGuide existingGuides "WHERE_TO_EAT" in
           Returned
             (Some {| must_try_dishes := orList (local_cuisine_highlights d) [];
                      recommended_restaurants := map restaurantOf pois;
                      food_neighborhoods := [];
                      dining_tips :=
                        match diningGuide with
                        | Some {| guide_tips := Some t |} => t
                        | _ =>
                            ["Try local specialties at traditional restaurants";
                             "Ask locals for recommendations";
                             "Check restaurant hours - many close between lunch and dinner"]
                        end |})
         else Returned None) ;;
      let practical :=
        if includes guide_sections "PRACTICAL_INFO"
        then
          let practicalGuide := findGuide existingGuides "PRACTICAL_INFO" in
          Some {| getting_around :=
                    orStr (option_map guide_content practicalGuide)
                          "Public transportation and taxis available";
                  language_tips :=
                    map (fun lang => lang ++ " is spoken here")
                        (orList (languages_spoken d) []);
                  safety_tips :=
                    ["Safety rating: " ++ printNumeric (safety_rating d) ++ "/5";
                     "Keep valuables secure";
                     "Stay aware of surroundings"];
                  money_matters :=
                    "Local currency: " ++ printNullable (currency d) ++
                    ". Credit cards widely accepted.";
                  what_to_pack :=
                    ["Comfortable walking shoes"; "Weather-appropriate clothing";
                     "Power adapter"] |}
        else None in
      overview1 <-
        match overview0 with
        | Some o =>
            if (String.eqb (introduction o) "" ||
                (jsLength (introduction o) <? 100)%nat)
            then
              tryCatch
                (aiContent <- generateDestinationGuide (guideAI env) ;;
                 Returned
                   (Some {| introduction := aiContent;
                            why_visit := why_visit o;
                            quick_facts := quick_facts o;
                            local_culture := local_culture o |}))
                (fun _ => Returned (Some o))
            else Returned (Some o)
        | None => Returned None
        end ;;
      Returned
        {| guide_header := header;
           overview := overview1;
           things_to_do := things;
           dining := dining0;
           practical_info := practical;
           insider_tips := insider_tips0;
           seasonal_highlights := best_time_to_visit d |}
  end.

(* ------------------------------------------------------------------ *)
(** ** compare-destinations                                            *)
(* ------------------------------------------------------------------ *)

Record CompareDestinationsInput : Type := {
  destinations : list string;
  comparison_criteria : option (list string)
}.

Record Criterion : Type := {
  criterion : string;
  values : list (string * Text);
  winner : option string
}.

Record ComparisonMatrix : Type := {
  matrix_destinations : list string;
  criteria : list Criterion
}.

Record CompareRecommendation : Type := {
  best_for_budget : string;
  best_for_weather : string;
  best_for_culture : string;
  overall_recommendation : string
}.

Record CompareDestinationsResponse : Type := {
  comparison_matrix : ComparisonMatrix;
  recommendation : CompareRecommendation
}.

Record CompareEnv : Type := {
  (** the rows of table [destinations], in the order the scan delivers them *)
  destinationsTable : Outcome (list Destination);
  (** [new Date().toLocaleString('en-US', { month: 'short' }).toLowerCase()] *)
  currentMonth : string
}.

(** [WHERE LOWER(city) = ANY($1) AND is_active = true] *)
Definition selectedBy (names : list string) (d : Destination) : bool :=
  includes names (toLowerCase (city d)) && activeRow d.

Definition lookupDestinations (env : CompareEnv) (names : list string)
  : Outcome (list Destination) :=
  table <- destinationsTable env ;;
  Returned (filter (selectedBy names) table).

(** [dest.average_daily_cost_usd || 100] *)
Definition costOf (d : Destination) : Amount :=
  orAmount (average_daily_cost_usd d) 100.

(** [cost < minCost], where [minCost] is [Infinity] ([None]) until the first
    row has been seen: every cost converts to a number below [Infinity]. *)
Definition belowMin (cost : Amount) (minCost : option Amount) : bool :=
  match minCost with
  | None => true
  | Some m => lessThan cost m
  end.

(** The [forEach] of the cost block: [values], [minCost] and
    [budgetWinner]. *)
Definition costStep (st : list (string * Text) * option Amount * string)
    (d : Destination) : list (string * Text) * option Amount * string :=
  let '(values, minCost, budgetWinner) := st in
  let cost := costOf d in
  let values :=
    objSet values (city d) [Lit "$"; printAmount cost; Lit "/day"] in
  if belowMin cost minCost then (values, Some cost, city d)
  else (values, minCost, budgetWinner).

Definition costCriterion (dests : list Destination) : Criterion :=
  let '(values, _, budgetWinner) := fold_left costStep dests ([], None, "") in
  {| criterion := "Average Daily Cost";
     values := values;
     winner := Some budgetWinner |}.

Definition tempOf (currentMonth : string) (d : Destination) : Q :=
  orNum (match average_temp_celsius d with
         | Some temps => objGet temps currentMonth
         | None => None
         end) 20.

Definition weatherCriterion (currentMonth : string) (dests : list Destination)
  : Criterion :=
  {| criterion := "Average Temperature (Current Month)";
     values :=
       fold_left (fun values d =>
                    objSet values (city d)
                           [Num (tempOf currentMonth d); Lit "°C"])
                 dests [];
     winner := None |}.

Definition activityStep (st : list (string * Text) * nat * string)
    (d : Destination) : list (string * Text) * nat * string :=
  let '(values, maxActivities, activityWinner) := st in
  let count := length (orList (popular_activities d) []) in
  let values :=
    objSet values (city d)
           [Lit (stringOfZ (Z.of_nat count) ++ " popular activities")] in
  if (maxActivities <? count)%nat then (values, count, city d)
  else (values, maxActivities, activityWinner).

Definition activitiesCriterion (dests : list Destination) : Criterion :=
  let '(values, _, activityWinner) :=
    fold_left activityStep dests ([], 0%nat, "") in
  {| criterion := "Popular Activities";
     values := values;
     winner := Some activityWinner |}.

Definition cultureCriterion (dests : list Destination) : Criterion :=
  {| criterion := "Destination Type";
     values :=
       fold_left (fun values d =>
                    objSet values (city d)
                      [Lit (orStr (option_map (join ", ") (destination_type d))
                                  "General tourism")])
                 dests [];
     winner := None |}.

Definition familyCriterion (dests : list Destination) : Criterion :=
  {| criterion := "Family-Friendly";
     values :=
       fold_left (fun values d =>
                    objSet values (city d)
                      [Lit (match destination_type d with
                            | Some types =>
                                if includes types "FAMILY" then "Excellent"
                                else "Good"
                            | None => "Good"
                            end)])
                 dests [];
     winner := None |}.

(** [dests.reduce((min, dest) => cost(dest) < cost(min) ? dest : min)] *)
Definition budgetDest (first : Destination) (rest : list Destination)
  : Destination :=
  fold_left (fun min d => if lessThan (costOf d) (costOf min) then d else min)
            rest first.

Definition isCultural (d : Destination) : bool :=
  match destination_type d with
  | Some types => includes types "CULTURAL"
  | None => false
  end.

Definition compareDestinations (env : CompareEnv)
    (input : CompareDestinationsInput) : Outcome CompareDestinationsResponse :=
  let destinations := destinations input in
  let comparison_criteria :=
    orList (comparison_criteria input)
           ["COST"; "WEATHER"; "ACTIVITIES"; "CULTURE"] in
  if ((length destinations <? 2) || (4 <? length destinations))%nat
  then Threw "Please provide 2-4 destinations to compare"
  else
    dests <- lookupDestinations env (map toLowerCase destinations) ;;
    if (length dests <? length destinations)%nat
    then Threw "One or more destinations not found"
    else
      let criteria := [] in
      let criteria :=
        if includes comparison_criteria "COST"
        then push criteria (costCriterion dests) else criteria in
      let criteria :=
        if includes comparison_criteria "WEATHER"
        then push criteria (weatherCriterion (currentMonth env) dests)
        else criteria in
      let criteria :=
        if includes comparison_criteria "ACTIVITIES"
        then push criteria (activitiesCriterion dests) else criteria in
      let criteria :=
        if includes comparison_criteria "CULTURE"
        then push criteria (cultureCriterion dests) else criteria in
      let criteria :=
        if includes comparison_criteria "FAMILY_FRIENDLY"
        then push criteria (familyCriterion dests) else criteria in
      match dests with
      | [] => Threw "Reduce of empty array with no initial value"
      | first :: rest =>
          let cultureDest :=
            match find isCultural dests with
            | Some d => d
            | None => first
            end in
          Returned
            {| comparison_matrix :=
                 {| matrix_destinations := map city dests;
                    criteria := criteria |};
               recommendation :=
                 {| best_for_budget := city (budgetDest first rest);
                    best_for_weather := city first;
                    best_for_culture := city cultureDest;
                    overall_recommendation :=
                      "Based on your comparison, " ++ city first ++
                      " offers a great balance of experiences. However, each destination has unique strengths worth considering." |} |}
      end.

(* ------------------------------------------------------------------ *)
(** ** Seed rows of table [destinations] (database/seed.sql)           *)
(* ------------------------------------------------------------------ *)

Definition seedRow (id cityName countryName continentName : string)
    (types monthsBest : list string) (weatherText : string)
    (temps : list (string * Q)) (languages : list string)
    (currencyCode tz : string) (safety infrastructure : Q) (budget : string)
    (cost : Q) (activities attractions cuisine : list string)
    (short long hero : string) : Destination :=
  {| destination_id := id; city := cityName; country := countryName;
     continent := Some continentName;
     destination_type := Some types;
     best_time_to_visit :=
       Some {| months := Some monthsBest; weather := Some weatherText |};
     average_temp_celsius := Some temps;
     languages_spoken := Some languages;
     currency := Some currencyCode; timezone := Some tz;
     safety_rating := Some (numeric 1 safety);
     tourist_infrastructure_rating := Some infrastructure;
     budget_level := Some budget;
     average_daily_cost_usd := Some (numeric 2 cost);
     popular_activities := Some activities;
     famous_attractions := Some attractions;
     local_cuisine_highlights := Some cuisine;
     cultural_considerations := None;
     hero_image_url := Some hero;
     gallery_images := None;
     short_description := Some short;
     long_description := Some long;
     is_active := Some true |}.

Definition monthlyTemps (jan feb mar apr may jun jul aug sep oct nov dec : Q)
  : list (string * Q) :=
  [("jan", jan); ("feb", feb); ("mar", mar); ("apr", apr); ("may", may);
   ("jun", jun); ("jul", jul); ("aug", aug); ("sep", sep); ("oct", oct);
   ("nov", nov); ("dec", dec)].

Definition barcelona : Destination :=
  seedRow "uuid-barcelona" "Barcelona" "Spain" "Europe"
    ["CULTURAL"; "BEACH"; "FAMILY"]
    ["April"; "May"; "June"; "September"; "October"] "Mild and sunny"
    (monthlyTemps 13 14 16 18 21 25 28 28 25 21 16 14)
    ["Spanish"; "Catalan"; "English"] "EUR" "Europe/Madrid" 4.2 4.8 "MODERATE"
    120
    ["Beach"; "Architecture"; "Museums"; "Food Tours"; "Shopping"]
    ["Sagrada Familia"; "Park Güell"; "Las Ramblas"; "Gothic Quarter";
     "Casa Batlló"]
    ["Paella"; "Tapas"; "Crema Catalana"; "Pan con Tomate"]
    "Vibrant Mediterranean city known for Gaudí architecture, beaches, and incredible food scene"
    "Barcelona combines stunning architecture, Mediterranean beaches, world-class museums, and a thriving culinary scene. From the whimsical designs of Antoni Gaudí to the medieval streets of the Gothic Quarter, Barcelona offers endless discoveries."
    "https://images.unsplash.com/photo-1583422409516-2895a77efded".

Definition tokyo : Destination :=
  seedRow "uuid-tokyo" "Tokyo" "Japan" "Asia"
    ["CULTURAL"; "LUXURY"; "FAMILY"]
    ["March"; "April"; "May"; "October"; "November"] "Pleasant temperatures"
    (monthlyTemps 6 7 11 16 20 23 27 28 24 18 13 8)
    ["Japanese"; "English"] "JPY" "Asia/Tokyo" 4.9 5 "MODERATE" 150
    ["Temples"; "Shopping"; "Food Tours"; "Technology"; "Anime"]
    ["Senso-ji Temple"; "Tokyo Skytree"; "Shibuya Crossing"; "Meiji Shrine";
     "Tsukiji Market"]
    ["Sushi"; "Ramen"; "Tempura"; "Wagyu Beef"; "Matcha Desserts"]
    "Ultra-modern metropolis blending ancient traditions with cutting-edge technology"
    "Tokyo is a fascinating blend of ancient tradition and modern innovation. Explore serene temples alongside neon-lit skyscrapers, savor world-renowned cuisine, and experience the incredible efficiency and politeness of Japanese culture."
    "https://images.unsplash.com/photo-1540959733332-eab4deabeeaf".

Definition dubai : Destination :=
  seedRow "uuid-dubai" "Dubai" "United Arab Emirates" "Asia"
    ["LUXURY"; "SHOPPING"; "BEACH"; "FAMILY"]
    ["November"; "December"; "January"; "February"; "March"] "Warm and dry"
    (monthlyTemps 20 21 24 28 32 35 37 38 35 31 26 22)
    ["Arabic"; "English"; "Hindi"; "Urdu"] "AED" "Asia/Dubai" 4.6 5 "LUXURY" 200
    ["Shopping"; "Desert Safari"; "Beach"; "Skyscrapers"; "Fine Dining"]
    ["Burj Khalifa"; "Dubai Mall"; "Palm Jumeirah"; "Dubai Marina"; "Gold Souk"]
    ["Shawarma"; "Hummus"; "Arabic Coffee"; "Kunafa"; "Mixed Grill"]
    "Futuristic city of superlatives with luxury shopping, modern architecture, and desert adventures"
    "Dubai is a city of world records and architectural marvels. Experience the tallest building, largest mall, and most luxurious hotels. Combine urban luxury with desert safaris and pristine beaches for an unforgettable experience."
    "https://images.unsplash.com/photo-1512453979798-5ea266f8880c".

Definition panamaCity : Destination :=
  seedRow "uuid-panama-city" "Panama City" "Panama" "Central America"
    ["CULTURAL"; "BEACH"; "ADVENTURE"]
    ["December"; "January"; "February"; "March"; "April"] "Dry season"
    (monthlyTemps 27 27 28 28 27 27 27 27 27 26 26 27)
    ["Spanish"; "English"] "USD" "America/Panama" 4 4.3 "MODERATE" 100
    ["Canal Tour"; "Old Town"; "Island Hopping"; "Rainforest"; "Beaches"]
    ["Panama Canal"; "Casco Viejo"; "Biomuseo"; "Miraflores Locks";
     "Metropolitan Natural Park"]
    ["Ceviche"; "Sancocho"; "Ropa Vieja"; "Hojaldras"; "Raspao"]
    "Cosmopolitan hub connecting two oceans with rich history and modern skyline"
    "Panama City offers a unique blend of old and new. Explore the historic Casco Viejo, marvel at the engineering wonder of the Panama Canal, and enjoy a cosmopolitan city with excellent dining and nightlife."
    "https://images.unsplash.com/photo-1582737989364-2eef72a4f88b".

Definition cartagena : Destination :=
  seedRow "uuid-cartagena" "Cartagena" "Colombia" "South America"
    ["CULTURAL"; "BEACH"; "ROMANTIC"]
    ["December"; "January"; "February"; "March"] "Dry and warm"
    (monthlyTemps 27 27 28 28 28 28 28 28 28 27 27 27)
    ["Spanish"; "English"] "COP" "America/Bogota" 3.8 4 "MODERATE" 80
    ["Historic Sites"; "Beach"; "Food Tours"; "Salsa Dancing"; "Island Hopping"]
    ["Walled City"; "Castillo San Felipe"; "Rosario Islands"; "Getsemani";
     "Las Bovedas"]
    ["Arepas"; "Bandeja Paisa"; "Ceviche"; "Empanadas"; "Tropical Fruits"]
    "Colonial gem with colorful streets, Caribbean beaches, and vibrant culture"
    "Cartagena enchants visitors with its perfectly preserved colonial architecture, vibrant street life, and Caribbean charm. Wander colorful streets, relax on nearby beaches, and immerse yourself in Colombian culture and cuisine."
    "https://images.unsplash.com/photo-1568632234157-ce7aecd03d0d".

Definition seedDestinations : list Destination :=
  [barcelona; tokyo; dubai; panamaCity; cartagena].

(** The row [d] under another key and name and with another daily cost. *)
Definition variant (d : Destination) (id cityName : string)
    (cost : option Numeric) : Destination :=
  {| destination_id := id; city := cityName; country := country d;
     continent := continent d;
     destination_type := destination_type d;
     best_time_to_visit := best_time_to_visit d;
     average_temp_celsius := average_temp_celsius d;
     languages_spoken := languages_spoken d;
     currency := currency d; timezone := timezone d;
     safety_rating := safety_rating d;
     tourist_infrastructure_rating := tourist_infrastructure_rating d;
     budget_level := budget_level d;
     average_daily_cost_usd := cost;
     popular_activities := popular_activities d;
     famous_attractions := famous_attractions d;
     local_cuisine_highlights := local_cuisine_highlights d;
     cultural_considerations := cultural_considerations d;
     hero_image_url := hero_image_url d;
     gallery_images := gallery_images d;
     short_description := short_description d;
     long_description := long_description d;
     is_active := is_active d |}.

(* ------------------------------------------------------------------ *)
(** ** Vocabulary of the statements                                    *)
(* ------------------------------------------------------------------ *)

Definition isInteger (q : Q) : Prop := exists z : Z, q == inject_Z z.

Definition destTypesOf (c : Candidate) : list string :=
  orList (destination_type (dest c)) [].

(** Number of the candidate's category tags matched by the profile's
    interests, and by the request's interests. *)
Definition profileMatchCount (up : option UserTravelPreferences) (c : Candidate)
  : nat :=
  match up with
  | Some u => interestMatch (destTypesOf c) (orList (interests u) [])
  | None => 0
  end.

Definition contextMatchCount (ctx : RecommendContext) (c : Candidate) : nat :=
  match ctx_interests ctx with
  | Some ints => contextMatch (destTypesOf c) ints
  | None => 0
  end.

Definition onBucketList (bl : option (list string)) (c : Candidate) : bool :=
  match bl with
  | Some l => includes l (city (dest c))
  | None => false
  end.

Definition budgetBonus (up : option UserTravelPreferences) (c : Candidate) : Q :=
  match up with
  | Some u =>
      if optStrEq (budget_level (dest c)) (budget_preference u) then 15 else 0
  | None => 0
  end.

Definition bucketBonus (up : option UserTravelPreferences) (c : Candidate) : Q :=
  match up with
  | Some u => if onBucketList (bucket_list_destinations u) c then 25 else 0
  | None => 0
  end.

Definition seasonBonus (ctx : RecommendContext) (c : Candidate) : Q :=
  match travel_month ctx with
  | Some m =>
      if negb (String.eqb m "") && includes (orList (bestMonths (dest c)) []) m
      then 20 else 0
  | None => 0
  end.

Definition popularityBonus (c : Candidate) : Q :=
  Qmin (numOfN (popularity_score c) * 2) 10.

Definition infrastructureBonus (c : Candidate) : Q :=
  match tourist_infrastructure_rating (dest c) with
  | Some r => r * 2
  | None => 0
  end.

(** The rating column is [NULL] or, by its [CHECK], not negative. *)
Definition ratingNonNegative (c : Candidate) : Prop :=
  match tourist_infrastructure_rating (dest c) with
  | Some r => 0 <= r
  | None => True
  end.

Definition withBucketList (u : UserTravelPreferences) (bl : option (list string))
  : UserTravelPreferences :=
  {| preference_id := preference_id u;
     pref_passenger_id := pref_passenger_id u;
     travel_style := travel_style u;
     bucket_list_destinations := bl;
     budget_preference := budget_preference u;
     interests := interests u;
     pace_preference := pace_preference u |}.

(** Two profiles (both present or both absent) that differ at most in their
    interest lists, as far as scoring reads them; likewise two contexts. *)
Definition sameButInterests (a b : option UserTravelPreferences) : Prop :=
  match a, b with
  | Some x, Some y =>
      budget_preference x = budget_preference y /\
      bucket_list_destinations x = bucket_list_destinations y
  | None, None => True
  | _, _ => False
  end.

Definition sameMonth (a b : RecommendContext) : Prop :=
  travel_month a = travel_month b.

Definition finalScore (up : option UserTravelPreferences) (ctx : RecommendContext)
    (c : Candidate) : Q :=
  match_score (scoreCandidate up ctx c).

(** The seeded row of [user_travel_preferences]. *)
Definition seedPreferences : UserTravelPreferences :=
  {| preference_id := "uuid-preference";
     pref_passenger_id := "uuid-passenger";
     travel_style := Some "CULTURAL";
     bucket_list_destinations := None;
     budget_preference := Some "MODERATE";
     interests := Some ["HISTORY"; "FOOD"; "ARCHITECTURE"; "PHOTOGRAPHY"];
     pace_preference := Some "BALANCED" |}.

Definition withInterests (u : UserTravelPreferences) (ints : option (list string))
  : UserTravelPreferences :=
  {| preference_id := preference_id u;
     pref_passenger_id := pref_passenger_id u;
     travel_style := travel_style u;
     bucket_list_destinations := bucket_list_destinations u;
     budget_preference := budget_preference u;
     interests := ints;
     pace_preference := pace_preference u |}.

Definition monthContext (m : string) (ints : option (list string))
  : RecommendContext :=
  {| travel_month := Some m; budget_range := None;
     ctx_interests := ints; previous_destinations := None |}.

(** The destructuring default [recommendation_count = 5]; the tool schema in
    index.ts declares [maximum: 10] for it. *)
Definition requestedCount (input : RecommendDestinationsInput) : Z :=
  match recommendation_count input with Some n => n | None => 5%Z end.

Definition recommendationCountMaximum : Z := 10.

Definition requestContext (input : RecommendDestinationsInput)
  : RecommendContext :=
  match context input with Some c => c | None => emptyContext end.

(** The profile the tool scores with, given the rows of the preference
    query. *)
Definition profileOf (input : RecommendDestinationsInput)
    (prefs : list UserTravelPreferences) : option UserTravelPreferences :=
  if truthyStr (passenger_id input) then hd_error prefs else None.

(** The rows the candidate query returns over the table [rows]. *)
Definition candidatesOf (input : RecommendDestinationsInput)
    (rows : list Candidate) : list Candidate :=
  firstn (Z.to_nat (requestedCount input * 2))
         (filter (isCandidate (requestContext input)) rows).

(** The scored, sorted and truncated candidates ([topDestinations]). *)
Definition topDestinationsOf (input : RecommendDestinationsInput)
    (prefs : list UserTravelPreferences) (rows : list Candidate) : list Scored :=
  slice0 (requestedCount input)
    (sortDesc match_score
       (map (scoreCandidate (profileOf input prefs) (requestContext input))
            (candidatesOf input rows))).

(** [ORDER BY popularity_score DESC, d.tourist_infrastructure_rating DESC]
    (a [NULL] rating sorts first in descending order). *)
Definition ratingDesc (a b : option Q) : Prop :=
  match a, b with
  | None, _ => True
  | Some _, None => False
  | Some x, Some y => y <= x
  end.

Definition queryOrder (a b : Candidate) : Prop :=
  (popularity_score b < popularity_score a)%N \/
  (popularity_score a = popularity_score b /\
   ratingDesc (tourist_infrastructure_rating (dest a))
              (tourist_infrastructure_rating (dest b))).

Definition scoreDesc : Scored -> Scored -> Prop := keyDesc match_score.

(** Equal scores: the earlier entry precedes the later one in the order of
    the candidate query. *)
Definition tieInQueryOrder : Scored -> Scored -> Prop :=
  tieKeeps match_score (fun a b => queryOrder (row a) (row b)).

(** The tie-break the ranking is claimed to have: equal scores, rating
    descending. *)
Definition tieByRating (a b : Scored) : Prop :=
  match_score a == match_score b ->
  ratingDesc (tourist_infrastructure_rating (dest (row a)))
             (tourist_infrastructure_rating (dest (row b))).

(** The personaliser hands the candidates back as they are. *)
Definition personalizerIdle (ai : OpenAI (option (option Answered))) : Prop :=
  forall l, personalizeRecommendations ai l = asArray l.

(** The value the response is formatted from ([personalizedDestinations]). *)
Definition personalizedOf (env : RecommendEnv) (input : RecommendDestinationsInput)
    (prefs : list UserTravelPreferences) (rows : list Candidate) : Answered :=
  match profileOf input prefs, ctx_interests (requestContext input) with
  | None, None => asArray (topDestinationsOf input prefs rows)
  | _, _ =>
      personalizeRecommendations (personalizer env)
        (topDestinationsOf input prefs rows)
  end.

(** The response is formatted from an array of candidate objects that is no
    longer than [topDestinations]: the list itself when the personaliser is
    not consulted or hands it back, or the personaliser's answer. *)
Definition answersWithin (env : RecommendEnv) (input : RecommendDestinationsInput)
    (prefs : list UserTravelPreferences) (rows : list Candidate) : Prop :=
  exists shown,
    personalizedOf env input prefs rows = asArray shown /\
    (length shown <= length (topDestinationsOf input prefs rows))%nat.

(** The personaliser is not consulted: there is neither a stored profile nor
    a list of interests in the request. *)
Definition notConsulted (input : RecommendDestinationsInput)
    (prefs : list UserTravelPreferences) : Prop :=
  profileOf input prefs = None /\ ctx_interests (requestContext input) = None.

Definition recommendationDesc
  : DestinationRecommendation -> DestinationRecommendation -> Prop :=
  keyDesc rec_match_score.

(** A request for two BEACH destinations, and the four seeded rows with that
    tag, none recommended before, ordered by rating. *)
Definition beachInput : RecommendDestinationsInput :=
  {| passenger_id := None;
     context := Some {| travel_month := None; budget_range := None;
                        ctx_interests := Some ["BEACH"];
                        previous_destinations := None |};
     recommendation_count := Some 2%Z |}.

Definition beachRows : list Candidate :=
  [ {| dest := dubai; popularity_score := 0 |};
    {| dest := barcelona; popularity_score := 0 |};
    {| dest := panamaCity; popularity_score := 0 |};
    {| dest := cartagena; popularity_score := 0 |} ].

(** A client that answers with the value [a] under [recommendations]. *)
Definition answeringWith (a : Answered) : OpenAI (option (option Answered)) :=
  {| apiKeyConfigured := true; completion := Content (Some (Some a)) |}.

(** The seeded table, no destination recommended before, in the order of
    the candidate query. *)
Definition seedCandidates : list Candidate :=
  [ {| dest := tokyo; popularity_score := 0 |};
    {| dest := dubai; popularity_score := 0 |};
    {| dest := barcelona; popularity_score := 0 |};
    {| dest := panamaCity; popularity_score := 0 |};
    {| dest := cartagena; popularity_score := 0 |} ].

Definition recommendEnv (rows : list Candidate)
    (ai : OpenAI (option (option Answered))) : RecommendEnv :=
  {| prefRows := Returned [];
     candidateRows := Returned rows;
     personalizer := ai;
     logInsert := Returned tt |}.

Definition beachScored (d : Destination) : Scored :=
  scoreCandidate None (requestContext beachInput)
                 {| dest := d; popularity_score := 0 |}.

(** The enrichment client answers with three recommendations. *)
Definition talkativeEnv : RecommendEnv :=
  recommendEnv beachRows
    (answeringWith
       (asArray [beachScored dubai; beachScored barcelona;
                 beachScored cartagena])).

(** The enrichment client answers with the two candidates it was given, the
    other way round. *)
Definition rerankingEnv : RecommendEnv :=
  recommendEnv seedCandidates
    (answeringWith (asArray [beachScored barcelona; beachScored dubai])).

(** The enrichment client answers with a value that is not an array, or
    with an array that holds a [null]. *)
Definition shapelessEnv : RecommendEnv :=
  recommendEnv seedCandidates (answeringWith NotAnArray).

Definition nullEntryEnv : RecommendEnv :=
  recommendEnv seedCandidates
    (answeringWith (Entries [Some (beachScored dubai); None])).

(** Twelve active destinations, and an anonymous request for twelve
    recommendations, two more than the maximum the tool schema declares. *)
Definition twelveRows : list Candidate :=
  map (fun n => {| dest := variant barcelona ("uuid-" ++ n) ("City " ++ n)
                                   (Some (numeric 2 120));
                   popularity_score := 0 |})
      ["01"; "02"; "03"; "04"; "05"; "06"; "07"; "08"; "09"; "10"; "11"; "12"].

Definition twelveInput : RecommendDestinationsInput :=
  {| passenger_id := None; context := None;
     recommendation_count := Some 12%Z |}.

(** Cartagena (rating 4.0) was shown once before, Tokyo (rating 5.0) never:
    the candidate query lists Cartagena first, and both score 60. *)
Definition tieRows : list Candidate :=
  [ {| dest := cartagena; popularity_score := 1 |};
    {| dest := tokyo; popularity_score := 0 |} ].

Definition plainInput : RecommendDestinationsInput :=
  {| passenger_id := None; context := None; recommendation_count := None |}.

Definition tieEnv : RecommendEnv := recommendEnv tieRows unconfigured.

(* ------------------------------------------------------------------ *)
(** ** The tool dispatcher (src/index.ts), for the tools that call the
       enrichment capability                                           *)
(* ------------------------------------------------------------------ *)

Inductive ToolCall : Type :=
| CallGuide (env : GuideEnv) (args : GetDestinationGuideInput)
| CallItinerary (env : ItineraryEnv) (args : GenerateItineraryInput)
| CallRecommend (env : RecommendEnv) (args : RecommendDestinationsInput)
| CallInspiration (env : InspirationEnv) (args : GenerateInspirationInput).

Definition toolName (call : ToolCall) : string :=
  match call with
  | CallGuide _ _ => "get-destination-guide"
  | CallItinerary _ _ => "generate-personalized-itinerary"
  | CallRecommend _ _ => "recommend-destinations"
  | CallInspiration _ _ => "generate-travel-inspiration"
  end.

(** What is serialised into the text content of the result; the timestamp of
    the error envelope is left out. *)
Inductive Payload : Type :=
| GuidePayload (r : DestinationGuideResponse)
| ItineraryPayload (r : ItineraryResponse)
| RecommendPayload (r : RecommendationsResponse)
| InspirationPayload (r : InspirationResponse)
| ErrorEnvelope (error tool : string).

Record CallToolResult : Type := {
  result_content : Payload;
  isError : bool
}.

Definition respond {A : Type} (name : string) (wrap : A -> Payload)
    (o : Outcome A) : CallToolResult :=
  match o with
  | Returned r => {| result_content := wrap r; isError := false |}
  | Threw message =>
      {| result_content :=
           ErrorEnvelope (orStr (Some message) "Unknown error occurred") name;
         isError := true |}
  end.

Definition callTool (call : ToolCall) : CallToolResult :=
  match call with
  | CallGuide env args =>
      respond (toolName call) GuidePayload (getDestinationGuide env args)
  | CallItinerary env args =>
      respond (toolName call) ItineraryPayload
              (generatePersonalizedItinerary env args)
  | CallRecommend env args =>
      respond (toolName call) RecommendPayload (recommendDestinations env args)
  | CallInspiration env args =>
      respond (toolName call) InspirationPayload
              (generateTravelInspiration env args)
  end.

(* ------------------------------------------------------------------ *)
(** ** Vocabulary of the statements: content resolution               *)
(* ------------------------------------------------------------------ *)

Definition populatedSlot (d : Destination) (s : Slot) : Prop :=
  activity s <> "" /\ location s = city d /\ duration s <> "" /\
  why_this s <> "" /\ tips s <> [].

Definition populatedMeals (m : Meals) : Prop :=
  breakfast m <> "" /\ lunch m <> "" /\ dinner m <> "".

(** Entry [i] (from 0) of a schedule for destination [d] is filled in; its
    estimated cost is the destination's daily cost as the repository
    delivers it, and 100 when the repository has none. *)
Definition populatedDay (d : Destination) (i : nat) (e : DaySchedule) : Prop :=
  day e = (Z.of_nat i + 1)%Z /\
  day_theme e <> "" /\
  populatedSlot d (morning e) /\
  populatedSlot d (afternoon e) /\
  populatedSlot d (evening e) /\
  populatedMeals (meals e) /\
  estimated_cost e = costOf d.

Definition withGuideAI (env : GuideEnv) (ai : OpenAI string) : GuideEnv :=
  {| guideDestRows := guideDestRows env;
     guideRows := guideRows env;
     attractionRows := attractionRows env;
     restaurantRows := restaurantRows env;
     guideAI := ai |}.

Definition withIntroduction (o : Overview) (text : string) : Overview :=
  {| introduction := text;
     why_visit := why_visit o;
     quick_facts := quick_facts o;
     local_culture := local_culture o |}.

(** A guide with the introduction of its overview blanked. *)
Definition forgetIntroduction (r : DestinationGuideResponse)
  : DestinationGuideResponse :=
  {| guide_header := guide_header r;
     overview := option_map (fun o => withIntroduction o "") (overview r);
     things_to_do := things_to_do r;
     dining := dining r;
     practical_info := practical_info r;
     insider_tips := insider_tips r;
     seasonal_highlights := seasonal_highlights r |}.

Definition outcomeMap {A B : Type} (f : A -> B) (o : Outcome A) : Outcome B :=
  match o with
  | Returned a => Returned (f a)
  | Threw e => Threw e
  end.

(** A configured client whose provider call fails. *)
Definition providerDown {C : Type} : OpenAI C :=
  {| apiKeyConfigured := true; completion := ProviderError |}.

(** The guide built from the repository alone: what the tool returns when
    the provider call fails, which it catches. *)
Definition repositoryGuide (env : GuideEnv) (input : GetDestinationGuideInput)
  : Outcome DestinationGuideResponse :=
  getDestinationGuide (withGuideAI env providerDown) input.

(** The tool asks the client for an introduction. *)
Definition needsEnrichment (introductionText : string) : bool :=
  String.eqb introductionText "" || (jsLength introductionText <? 100)%nat.

(** What the tool writes into an introduction that needs enrichment: the
    text the client returns, and the repository's text when the client
    throws. *)
Definition enrichedIntroduction (ai : OpenAI string) (fromRepository : string)
  : string :=
  if needsEnrichment fromRepository
  then match generateDestinationGuide ai with
       | Returned text => text
       | Threw _ => fromRepository
       end
  else fromRepository.

(** The same for a client that cannot serve: unconfigured, it returns its
    notice, and an empty completion is replaced by a stock sentence, either of
    which the tool writes into the guide; a failing call leaves the
    repository's text. *)
Definition degradedIntroduction (ai : OpenAI string) (fromRepository : string)
  : string :=
  if needsEnrichment fromRepository
  then if negb (apiKeyConfigured ai)
       then "AI content generation is not available. Please configure OpenAI API key."
       else match completion ai with
            | NoContent => "Unable to generate content"
            | _ => fromRepository
            end
  else fromRepository.

(** The generative tier cannot serve the call. *)
Definition textDegraded (ai : OpenAI string) : Prop :=
  apiKeyConfigured ai = false \/
  completion ai = ProviderError \/ completion ai = NoContent.

Definition enrichmentDegraded (call : ToolCall) : Prop :=
  match call with
  | CallGuide env _ => textDegraded (guideAI env)
  | CallItinerary env _ => degraded (itineraryAI env)
  | CallRecommend env _ => degraded (personalizer env)
  | CallInspiration env _ => degraded (inspirationAI env)
  end.

(** The request is well-formed and every read the tool makes before and
    around the enrichment call is answered. *)
Definition lookupsSucceed (call : ToolCall) : Prop :=
  match call with
  | CallGuide env _ =>
      (exists d rest, guideDestRows env = Returned (d :: rest)) /\
      isReturned (guideRows env) = true /\
      isReturned (attractionRows env) = true /\
      isReturned (restaurantRows env) = true
  | CallItinerary env args =>
      (1 <= duration_days args <= 30)%Z /\
      (exists d rest, itineraryDestRows env = Returned (d :: rest)) /\
      templateRows env = Returned []
  | CallRecommend env args =>
      isReturned (prefRows env) = true /\
      isReturned (candidateRows env) = true /\
      (0 <= requestedCount args)%Z
  | CallInspiration env _ => isReturned (imageRows env) = true
  end.

(** The tools that have a deterministic tier below the generative one. *)
Definition hasDeterministicTier (call : ToolCall) : bool :=
  match call with
  | CallInspiration _ _ => false
  | _ => true
  end.

(** An itinerary request for three days in Barcelona, no template on file. *)
Definition barcelonaTrip : GenerateItineraryInput :=
  {| itinerary_destination := "barcelona";
     duration_days := 3;
     traveler_profile := None |}.

Definition noTemplateEnv : ItineraryEnv :=
  {| itineraryDestRows := Returned [barcelona];
     templateRows := Returned [];
     usageUpdate := Returned tt;
     itineraryAI := unconfigured;
     templateInsert := Returned tt |}.

(** A featured three-day template is on file, and the statement that counts
    its use fails. *)
Definition featuredTemplate : ItineraryTemplate :=
  {| template_id := "uuid-template";
     trip_style := "BALANCED";
     template_daily_schedule := Some (map (fallbackDay barcelona) (seq 0 3));
     template_packing_list := Some ["Comfortable walking shoes"];
     template_budget_breakdown := None;
     usage_count := Some 0%Z |}.

Definition updateFailsEnv : ItineraryEnv :=
  {| itineraryDestRows := Returned [barcelona];
     templateRows := Returned [featuredTemplate];
     usageUpdate := Threw "cannot execute UPDATE in a read-only transaction";
     itineraryAI := unconfigured;
     templateInsert := Returned tt |}.

(** An inspiration request while no API key is configured. *)
Definition inspirationRequest : GenerateInspirationInput :=
  {| content_type := "BLOG_POST";
     inspiration_theme := "Beach escapes";
     target_destination := Some "Barcelona";
     target_audience := None;
     tone := None;
     word_count := None |}.

Definition inspirationEnv : InspirationEnv :=
  {| inspirationAI := unconfigured;
     imageRows := Returned [barcelona];
     contentInsert := Returned tt |}.

(** A destination that is described in a few words, and a request for its
    overview while no API key is configured. *)
Definition colon : Destination :=
  seedRow "uuid-colon" "Colón" "Panama" "Central America"
    ["CULTURAL"] ["January"; "February"] "Dry season"
    (monthlyTemps 27 27 28 28 27 27 27 27 27 26 26 27)
    ["Spanish"] "USD" "America/Panama" 3.5 3.2 "BUDGET" 60
    ["Canal Tour"] ["Gatún Locks"] ["Sancocho"]
    "Caribbean port at the mouth of the canal"
    "Colón is the Caribbean gateway to the Panama Canal."
    "".

Definition terseGuideEnv : GuideEnv :=
  {| guideDestRows := Returned [colon];
     guideRows := Returned [];
     attractionRows := Returned [];
     restaurantRows := Returned [];
     guideAI := unconfigured |}.

Definition overviewRequest : GetDestinationGuideInput :=
  {| guide_destination := "colón";
     guide_sections := Some ["OVERVIEW"];
     guide_traveler_type := None;
     guide_duration_days := None |}.

(** What the deterministic tier serves for a call: the repository's guide, in
    which an introduction that needs enrichment is the client's notice; the
    fallback itinerary; the unpersonalised ranking. *)
Definition servedDeterministically (call : ToolCall) (result : CallToolResult)
  : Prop :=
  match call with
  | CallGuide env args =>
      exists resp base,
        result_content result = GuidePayload resp /\
        repositoryGuide env args = Returned base /\
        forgetIntroduction resp = forgetIntroduction base /\
        option_map introduction (overview resp)
        = option_map (fun o => degradedIntroduction (guideAI env)
                                                    (introduction o))
                     (overview base)
  | CallItinerary env args =>
      forall d rest,
        itineraryDestRows env = Returned (d :: rest) ->
        result_content result
        = ItineraryPayload (fallbackItinerary d (duration_days args))
  | CallRecommend env args =>
      forall prefs rows,
        prefRows env = Returned prefs ->
        candidateRows env = Returned rows ->
        exists resp,
          result_content result = RecommendPayload resp /\
          recommendations resp =
            mapi (formatRecommendation (requestContext args)) 0
                 (topDestinationsOf args prefs rows)
  | CallInspiration _ _ => True
  end.

Definition withLogInsert (env : RecommendEnv) (o : Outcome unit) : RecommendEnv :=
  {| prefRows := prefRows env;
     candidateRows := candidateRows env;
     personalizer := personalizer env;
     logInsert := o |}.

Definition withTemplateInsert (env : ItineraryEnv) (o : Outcome unit)
  : ItineraryEnv :=
  {| itineraryDestRows := itineraryDestRows env;
     templateRows := templateRows env;
     usageUpdate := usageUpdate env;
     itineraryAI := itineraryAI env;
     templateInsert := o |}.

(* ------------------------------------------------------------------ *)
(** ** Vocabulary of the statements: comparison                       *)
(* ------------------------------------------------------------------ *)



Definition costRequest : CompareDestinationsInput :=
  {| destinations := ["Barcelona"; "Tokyo"];
     comparison_criteria := Some ["COST"] |}.

Definition tableEnv (table : list Destination) : CompareEnv :=
  {| destinationsTable := Returned table; currentMonth := "nov" |}.

Definition seedEnv : CompareEnv := tableEnv seedDestinations.



(* ------------------------------------------------------------------ *)
(** ** Rows of [poi_database] with all the columns the activity and dining
       tools read                                                      *)
(* ------------------------------------------------------------------ *)

Record PoiRow : Type := {
  poi : POI;
  poi_id : string;
  poi_destination_id : string;
  poi_type : string;
  rating : option Numeric;
  review_count : option Z;
  address : option string
}.

Definition orInt (o : option Z) (d : Z) : Z :=
  match o with
  | Some z => if (z =? 0)%Z then d else z
  | None => d
  end.

(* ------------------------------------------------------------------ *)
(** ** get-things-to-do                                                *)
(* ------------------------------------------------------------------ *)

Record GetThingsToDoInput : Type := {
  things_destination : string;
  activity_types : option (list string);
  things_traveler_type : option string;
  budget_per_person : option Q
}.

Record Availability : Type := {
  next_available : string;
  slots_remaining : Z
}.

Record Activity : Type := {
  activity_id : string;
  activity_name : string;
  activity_category : string;
  activity_description : string;
  activity_duration : string;
  price_per_person : Q;
  activity_rating : Amount;
  activity_review_count : Z;
  highlights : list string;
  what_to_expect : string;
  included : list string;
  meeting_point : string;
  cancellation_policy : string;
  availability : Availability;
  activity_images : list string;
  why_recommended : string
}.

Record Collection : Type := {
  collection_name : string;
  activities : list string
}.

Record ThingsToDoResponse : Type := {
  things_recommendations : list Activity;
  curated_collections : list Collection
}.

Record ThingsEnv : Type := {
  thingsDestRows : Outcome (list Destination);
  (** the rows of [poi_database], in the order of
      [ORDER BY is_must_see DESC, rating DESC NULLS LAST] *)
  poiTable : Outcome (list PoiRow);
  (** [new Date(Date.now() + 86400000).toISOString().split('T')[0]] *)
  tomorrow : string;
  (** the successive values of [Math.random()] *)
  random : nat -> Q
}.

(** The price levels a budget admits. *)
Definition priceLevelsFor (budget : Q) : list string :=
  app (if Qle_bool 100 budget then ["$$$$"] else [])
  (app (if Qle_bool 50 budget then ["$$$"] else [])
  (app (if Qle_bool 20 budget then ["$$"] else [])
       (if Qle_bool 0 budget then ["$"; "FREE"] else []))).

(** The parameter of [AND price_level = ANY($n)], when the clause is added. *)
Definition priceFilter (budget_per_person : option Q) : option (list string) :=
  match budget_per_person with
  | Some b =>
      if Qeq_bool b 0 then None
      else match priceLevelsFor b with
           | [] => None
           | levels => Some levels
           end
  | None => None
  end.

(** The [WHERE] clause of the POI query. *)
Definition selectedPoi (d : Destination) (activity_types : list string)
    (levels : option (list string)) (r : PoiRow) : bool :=
  String.eqb (poi_destination_id r) (destination_id d) &&
  match activity_types with
  | [] => true
  | _ => includes (map toUpperCase activity_types) (poi_type r)
  end &&
  match levels with
  | None => true
  | Some ls =>
      match poi_price_level (poi r) with
      | Some p => includes ls p
      | None => false
      end
  end.

Definition priceMap : list (string * Q) :=
  [("FREE", 0); ("$", 15); ("$$", 35); ("$$$", 75); ("$$$$", 150)].

(** [priceMap[poi.price_level || '$$'] || 35] *)
Definition priceOf (price_level : option string) : Q :=
  orNum (objGet priceMap (orStr price_level "$$")) 35.

Definition isMustSee (r : PoiRow) : bool :=
  match is_must_see (poi r) with Some true => true | _ => false end.

Definition activityOf (env : ThingsEnv) (destination : string) (index : nat)
    (r : PoiRow) : Activity :=
  {| activity_id := poi_id r;
     activity_name := poi_name (poi r);
     activity_category := poi_type r;
     activity_description :=
       orStr (poi_description (poi r))
             ("Experience " ++ poi_name (poi r) ++ " in " ++ destination);
     activity_duration :=
       match visit_duration_minutes (poi r) with
       | Some m => if (m =? 0)%Z then "2-3 hours" else stringOfZ m ++ " minutes"
       | None => "2-3 hours"
       end;
     price_per_person := priceOf (poi_price_level (poi r));
     activity_rating := orAmount (rating r) 4;
     activity_review_count := orInt (review_count r) 100;
     highlights := orList (poi_tags (poi r)) [];
     what_to_expect := orStr (poi_description (poi r)) "A memorable experience";
     included := orList (poi_category (poi r)) [];
     meeting_point :=
       orStr (address r) "Location details provided after booking";
     cancellation_policy := "Free cancellation up to 24 hours before";
     availability :=
       {| next_available := tomorrow env;
          slots_remaining := (Qfloor (random env index * 20) + 5)%Z |};
     activity_images := orList (poi_images (poi r)) [];
     why_recommended :=
       if isMustSee r then "Must-see attraction - highly recommended"
       else "Popular with visitors" |}.

(** [/romantic|sunset|dinner|wine/i.test(h)] *)
Definition romanticHighlight (h : string) : bool :=
  let l := toLowerCase h in
  strIncludes l "romantic" || strIncludes l "sunset" ||
  strIncludes l "dinner" || strIncludes l "wine".

Definition isOneOf (o : option string) (a b : string) : bool :=
  match o with
  | Some t => String.eqb t a || String.eqb t b
  | None => false
  end.

(** [collections.push({ collection_name, activities })], under the guard
    [picked.length > 0] when [always] is false. *)
Definition pushCollection (collections : list Collection) (always : bool)
    (name : string) (picked : list Activity) : list Collection :=
  match picked with
  | [] =>
      if always
      then push collections {| collection_name := name; activities := [] |}
      else collections
  | _ =>
      push collections
           {| collection_name := name;
              activities := map activity_name picked |}
  end.

Definition curate (traveler_type : option string)
    (recommendations : list Activity) : list Collection :=
  let collections := [] in
  let mustDo :=
    slice0 10 (filter (fun a => strIncludes (why_recommended a) "Must-see")
                      recommendations) in
  let collections :=
    pushCollection collections false "Top 10 Must-Do Experiences" mustDo in
  let budgetFriendly :=
    slice0 8 (filter (fun a => Qle_bool (price_per_person a) 20)
                     recommendations) in
  let collections :=
    pushCollection collections false "Budget-Friendly Activities"
                   budgetFriendly in
  let collections :=
    if isOneOf traveler_type "FAMILY" "FAMILIES"
    then
      pushCollection collections true "Perfect for Families"
        (slice0 8 (filter (fun a =>
                             negb (String.eqb (activity_category a) "NIGHTLIFE"))
                          recommendations))
    else collections in
  let collections :=
    if isOneOf traveler_type "COUPLE" "COUPLES"
    then
      pushCollection collections false "Romantic Experiences"
        (slice0 6 (filter (fun a => existsb romanticHighlight (highlights a))
                          recommendations))
    else collections in
  let foodActivities :=
    slice0 8 (filter (fun a => String.eqb (activity_category a) "RESTAURANT")
                     recommendations) in
  pushCollection collections false "Food & Culinary Experiences" foodActivities.

Definition getThingsToDo (env : ThingsEnv) (input : GetThingsToDoInput)
  : Outcome ThingsToDoResponse :=
  let activity_types := orList (activity_types input) [] in
  destResult <- thingsDestRows env ;;
  match destResult with
  | [] => Threw (notFoundMessage (things_destination input))
  | d :: _ =>
      table <- poiTable env ;;
      let rows :=
        firstn 20
          (filter (selectedPoi d activity_types
                     (priceFilter (budget_per_person input))) table) in
      let recommendations :=
        mapi (activityOf env (things_destination input)) 0 rows in
      Returned
        {| things_recommendations := recommendations;
           curated_collections :=
             curate (things_traveler_type input) recommendations |}
  end.

(* ------------------------------------------------------------------ *)
(** ** get-dining-recommendations                                      *)
(* ------------------------------------------------------------------ *)

Record GetDiningRecommendationsInput : Type := {
  dining_destination : string;
  cuisine_preferences : option (list string);
  dietary_restrictions : option (list string);
  requested_price_level : option string;
  occasion : option string;
  meal_type : option string
}.

Record RestaurantRecommendation : Type := {
  dining_name : string;
  dining_cuisine : string;
  dining_description : string;
  dining_price_level : string;
  dining_rating : Amount;
  signature_dishes : list string;
  dining_atmosphere : string;
  best_for : string;
  reservation_required : bool;
  dress_code : string;
  dining_location : string;
  dining_insider_tip : string;
  dining_images : list string
}.

Record FoodExperience : Type := {
  experience_name : string;
  experience_description : string;
  experience_price : Q
}.

Record DiningRecommendationsResponse : Type := {
  dining_recommendations : list RestaurantRecommendation;
  food_experiences : list FoodExperience;
  local_specialties : list string
}.

Record DiningEnv : Type := {
  diningDestRows : Outcome (list Destination);
  (** the rows of [poi_database], in the order of
      [ORDER BY rating DESC NULLS LAST, review_count DESC] *)
  restaurantTable : Outcome (list PoiRow)
}.

(** The [WHERE] clause of the restaurant query. *)
Definition selectedRestaurant (d : Destination) (price_level : option string)
    (cuisine_preferences : list string) (r : PoiRow) : bool :=
  String.eqb (poi_destination_id r) (destination_id d) &&
  String.eqb (poi_type r) "RESTAURANT" &&
  (if truthyStr price_level
   then optStrEq (poi_price_level (poi r)) price_level
   else true) &&
  match cuisine_preferences with
  | [] => true
  | _ =>
      match poi_category (poi r) with
      | Some cats => overlaps cats (map toUpperCase cuisine_preferences)
      | None => false
      end
  end.

Definition priceIs (r : PoiRow) (level : string) : bool :=
  optStrEq (poi_price_level (poi r)) (Some level).

Definition bestForOf (occasion : option string) (r : PoiRow) : string :=
  if optStrEq occasion (Some "ROMANTIC") then "Romantic dinners"
  else if optStrEq occasion (Some "FAMILY") then "Family gatherings"
  else if optStrEq occasion (Some "BUSINESS") then "Business lunches"
  else if optStrEq occasion (Some "CELEBRATION") then "Special celebrations"
  else if priceIs r "$$$$" then "Fine dining experiences"
  else "Casual dining".

Definition atmosphereOf (r : PoiRow) : string :=
  if priceIs r "$$$$" then "Upscale and elegant"
  else if priceIs r "$$$" then "Modern and stylish"
  else if match poi_tags (poi r) with
          | Some tags => includes tags "TRADITIONAL"
          | None => false
          end
       then "Traditional and authentic"
       else "Casual and relaxed".

Definition dressCodeOf (r : PoiRow) : string :=
  if priceIs r "$$$$" then "Smart casual or formal"
  else if priceIs r "$$$" then "Smart casual"
  else "Casual".

Definition restaurantRecommendationOf (d : Destination) (destination : string)
    (occasion : option string) (r : PoiRow) : RestaurantRecommendation :=
  let cuisineType :=
    orStr (match poi_category (poi r) with
           | Some cats => hd_error cats
           | None => None
           end) "International" in
  {| dining_name := poi_name (poi r);
     dining_cuisine := cuisineType;
     dining_description :=
       orStr (poi_description (poi r))
             ("Excellent " ++ toLowerCase cuisineType ++ " restaurant");
     dining_price_level := orStr (poi_price_level (poi r)) "$$";
     dining_rating := orAmount (rating r) 4;
     signature_dishes :=
       match local_cuisine_highlights d with
       | Some dishes => slice0 3 dishes
       | None => []
       end;
     dining_atmosphere := atmosphereOf r;
     best_for := bestForOf occasion r;
     reservation_required := priceIs r "$$$$" || priceIs r "$$$";
     dress_code := dressCodeOf r;
     dining_location := orStr (address r) (destination ++ " city center");
     dining_insider_tip :=
       if atLeast (rating r) 4.5 then "Book well in advance - very popular!"
       else "Ask for the chef's special";
     dining_images := orList (poi_images (poi r)) [] |}.

Definition getDiningRecommendations (env : DiningEnv)
    (input : GetDiningRecommendationsInput)
  : Outcome DiningRecommendationsResponse :=
  let destination := dining_destination input in
  let cuisine_preferences := orList (cuisine_preferences input) [] in
  destResult <- diningDestRows env ;;
  match destResult with
  | [] => Threw (notFoundMessage destination)
  | d :: _ =>
      table <- restaurantTable env ;;
      let rows :=
        firstn 15
          (filter (selectedRestaurant d (requested_price_level input)
                     cuisine_preferences) table) in
      Returned
        {| dining_recommendations :=
             map (restaurantRecommendationOf d destination (occasion input))
                 rows;
           food_experiences :=
             [ {| experience_name := destination ++ " Food Tour";
                  experience_description :=
                    "Explore the culinary delights of " ++ destination ++
                    " with a guided food tour featuring local specialties";
                  experience_price := 75 |};
               {| experience_name := "Cooking Class";
                  experience_description :=
                    "Learn to cook traditional " ++ country d ++
                    " dishes with a local chef";
                  experience_price := 85 |};
               {| experience_name := "Market Visit & Tasting";
                  experience_description :=
                    "Visit local markets and sample fresh produce and street food";
                  experience_price := 45 |} ];
           local_specialties := orList (local_cuisine_highlights d) [] |}
  end.

(* ------------------------------------------------------------------ *)
(** ** Vocabulary of the statements: further properties               *)
(* ------------------------------------------------------------------ *)

(** The criteria a comparison request asks for, with the default. *)
Definition requestedCriteria (input : CompareDestinationsInput) : list string :=
  orList (comparison_criteria input)
         ["COST"; "WEATHER"; "ACTIVITIES"; "CULTURE"].

(** The criterion keys the tool knows, in the order it handles them, with the
    title of the row each one produces. *)
Definition criterionTitles : list (string * string) :=
  [("COST", "Average Daily Cost");
   ("WEATHER", "Average Temperature (Current Month)");
   ("ACTIVITIES", "Popular Activities");
   ("CULTURE", "Destination Type");
   ("FAMILY_FRIENDLY", "Family-Friendly")].

Definition expectedTitles (requested : list string) : list string :=
  map snd (filter (fun e => includes requested (fst e)) criterionTitles).

(** The rows the criteria blocks push, one after the other. *)
Definition criteriaFor (requested : list string) (month : string)
    (dests : list Destination) : list Criterion :=
  app (if includes requested "COST" then [costCriterion dests] else [])
  (app (if includes requested "WEATHER"
        then [weatherCriterion month dests] else [])
  (app (if includes requested "ACTIVITIES"
        then [activitiesCriterion dests] else [])
  (app (if includes requested "CULTURE" then [cultureCriterion dests] else [])
       (if includes requested "FAMILY_FRIENDLY"
        then [familyCriterion dests] else [])))).

(** The rows compare-destinations works on. *)
Definition comparedRows (input : CompareDestinationsInput)
    (table : list Destination) : list Destination :=
  filter (selectedBy (map toLowerCase (destinations input))) table.

Definition activityCount (d : Destination) : nat :=
  length (orList (popular_activities d) []).

(** The step of the [reduce] behind [best_for_budget]. *)
Definition cheaper (min d : Destination) : Destination :=
  if lessThan (costOf d) (costOf min) then d else min.

Definition downEnv : CompareEnv :=
  {| destinationsTable := Threw "connection refused"; currentMonth := "nov" |}.

Definition fiveCities : CompareDestinationsInput :=
  {| destinations := ["Barcelona"; "Tokyo"; "Dubai"; "Panama City"; "Cartagena"];
     comparison_criteria := None |}.

Definition threeCities : CompareDestinationsInput :=
  {| destinations := ["Tokyo"; "Dubai"; "Cartagena"];
     comparison_criteria := Some ["FAMILY_FRIENDLY"; "FOOD"; "COST"; "COST"] |}.

(** What the activities block knows after the rows [processed]: no row had
    an activity yet, or [w] is the city of a row holding the maximum [mx]. *)
Definition activityInvariant (processed : list Destination) (mx : nat)
    (w : string) : Prop :=
  (mx = 0%nat /\ w = "" /\
   Forall (fun d => activityCount d = 0%nat) processed) \/
  ((0 < mx)%nat /\
   exists d, In d processed /\ w = city d /\ activityCount d = mx /\
             Forall (fun d' => (activityCount d' <= mx)%nat) processed).

Definition fiveActivities : CompareDestinationsInput :=
  {| destinations := ["dubai"; "TOKYO"];
     comparison_criteria := Some ["ACTIVITIES"] |}.

(** Barcelona at a daily cost of 90.00, below Tokyo's 150.00. *)
Definition discountedBarcelona : Destination :=
  variant barcelona "uuid-barcelona" "Barcelona" (Some (numeric 2 90)).

(** What [`${dest.average_daily_cost_usd}`] prints: the string the cost block
    compares for a row that has a cost. *)
Definition costText (d : Destination) : string :=
  printNumeric (average_daily_cost_usd d).

Definition priced (d : Destination) : Prop := average_daily_cost_usd d <> None.

(** The cost comparison of Barcelona and Tokyo over the table [table] is one
    row, which names [name] as its winner. *)
Definition costWinnerOver (table : list Destination) (name : string) : Prop :=
  exists resp row,
    compareDestinations (tableEnv table)
      {| destinations := ["Barcelona"; "Tokyo"];
         comparison_criteria := Some ["COST"] |} = Returned resp /\
    criteria (comparison_matrix resp) = [row] /\
    criterion row = "Average Daily Cost" /\
    winner row = Some name.

(** Every statement fails: the database is unreachable. *)
Definition unreachableItineraryEnv : ItineraryEnv :=
  {| itineraryDestRows := Threw "connection refused";
     templateRows := Threw "connection refused";
     usageUpdate := Threw "connection refused";
     itineraryAI := unconfigured;
     templateInsert := Threw "connection refused" |}.

Definition zeroDayTrip : GenerateItineraryInput :=
  {| itinerary_destination := "Barcelona";
     duration_days := 0;
     traveler_profile := None |}.

Definition atlantisTrip : GenerateItineraryInput :=
  {| itinerary_destination := "Atlantis";
     duration_days := 7;
     traveler_profile := None |}.

Definition noRowItineraryEnv : ItineraryEnv :=
  {| itineraryDestRows := Returned [];
     templateRows := Threw "connection refused";
     usageUpdate := Threw "connection refused";
     itineraryAI := unconfigured;
     templateInsert := Threw "connection refused" |}.

(** A featured template is on file and its use is counted. *)
Definition templateEnv : ItineraryEnv :=
  {| itineraryDestRows := Returned [barcelona];
     templateRows := Returned [featuredTemplate];
     usageUpdate := Returned tt;
     itineraryAI := unconfigured;
     templateInsert := Threw "connection refused" |}.


(** The sections a guide request asks for, with the default. *)
Definition guideSectionsOf (input : GetDestinationGuideInput) : list string :=
  orList (guide_sections input) ["OVERVIEW"; "THINGS_TO_DO"; "DINING"].

Definition isSome {A : Type} (o : option A) : bool :=
  match o with Some _ => true | None => false end.

Definition withAttractionRows (env : GuideEnv) (o : Outcome (list POI))
  : GuideEnv :=
  {| guideDestRows := guideDestRows env;
     guideRows := guideRows env;
     attractionRows := o;
     restaurantRows := restaurantRows env;
     guideAI := guideAI env |}.

Definition withRestaurantRows (env : GuideEnv) (o : Outcome (list POI))
  : GuideEnv :=
  {| guideDestRows := guideDestRows env;
     guideRows := guideRows env;
     attractionRows := attractionRows env;
     restaurantRows := o;
     guideAI := guideAI env |}.

(** A client that answers with a text of its own. *)
Definition answering (text : string) : OpenAI string :=
  {| apiKeyConfigured := true; completion := Content text |}.

Definition sevenAttractions : list POI :=
  map (fun name =>
         {| poi_name := name; poi_category := None; poi_description := None;
            poi_price_level := None; poi_images := None;
            visit_duration_minutes := None; poi_best_time_to_visit := None;
            poi_tags := None; is_must_see := Some true |})
      ["Sagrada Familia"; "Park Güell"; "Casa Batlló"; "La Pedrera";
       "Gothic Quarter"; "Montjuïc"; "Barceloneta"].

Definition barcelonaGuideEnv : GuideEnv :=
  {| guideDestRows := Returned [barcelona];
     guideRows := Returned [];
     attractionRows := Returned sevenAttractions;
     restaurantRows := Threw "connection refused";
     guideAI := answering "Barcelona, reimagined." |}.

Definition thingsOnly : GetDestinationGuideInput :=
  {| guide_destination := "Barcelona";
     guide_sections := Some ["THINGS_TO_DO"; "PRACTICAL_INFO"];
     guide_traveler_type := None;
     guide_duration_days := None |}.

(** The theme entries of a response, from the [themes] map. *)
Definition themesOf (rows : list Candidate) : list InspirationTheme :=
  map (fun e => {| theme := capitalizeTheme (fst e);
                   theme_destinations := snd e |})
      (buildThemes rows).

(** The rating column within its [CHECK], or [NULL]. *)
Definition ratingInRange (c : Candidate) : Prop :=
  match tourist_infrastructure_rating (dest c) with
  | Some r => 0 <= r /\ r <= 5
  | None => True
  end.

(** An interest written in ASCII capitals, as the seeded tags are: it has no
    small letter and at least one capital. *)
Definition inCapitals (s : string) : Prop :=
  asciiText s = true /\ toUpperCase s = s /\ toLowerCase s <> s.

(** The reason the formatting step gives for a tag that matches an
    interest. *)
Definition isInterestReason (r : string) : bool :=
  prefix "Matches your interest in " r.


(** A client that answers an inspiration request. *)
Definition writingEnv : InspirationEnv :=
  {| inspirationAI :=
       {| apiKeyConfigured := true;
          completion :=
            Content (Some {| title := "Barcelona by the sea";
                             subtitle := "Seven days of sun";
                             body := "Start at the beach.";
                             callToAction := None |}) |};
     imageRows := Returned [barcelona];
     contentInsert := Threw "connection refused" |}.

(** The price levels the [CHECK] of [poi_database] admits, or [NULL]. *)
Definition checkedPriceLevel (o : option string) : Prop :=
  match o with
  | Some p => In p ["FREE"; "$"; "$$"; "$$$"; "$$$$"]
  | None => True
  end.

(** The rows the POI query of get-things-to-do returns. *)
Definition poiRowsFor (d : Destination) (input : GetThingsToDoInput)
    (table : list PoiRow) : list PoiRow :=
  firstn 20
    (filter (selectedPoi d (orList (activity_types input) [])
               (priceFilter (budget_per_person input))) table).

(** The rows the restaurant query of get-dining-recommendations returns. *)
Definition restaurantRowsFor (d : Destination)
    (input : GetDiningRecommendationsInput) (table : list PoiRow)
  : list PoiRow :=
  firstn 15
    (filter (selectedRestaurant d (requested_price_level input)
               (orList (cuisine_preferences input) [])) table).

(** A collection is drawn from the activities named [names], holds at most
    10 of them, and is empty only if it is the family collection. *)
Definition goodCollection (names : list string) (c : Collection) : Prop :=
  (length (activities c) <= 10)%nat /\
  incl (activities c) names /\
  (activities c = [] -> collection_name c = "Perfect for Families").

Definition poiNamed (id name type : string) (level : option string)
    (mustSee : bool) (tags : list string) : PoiRow :=
  {| poi := {| poi_name := name; poi_category := Some ["SEAFOOD"];
               poi_description := None; poi_price_level := level;
               poi_images := None; visit_duration_minutes := Some 90%Z;
               poi_best_time_to_visit := None; poi_tags := Some tags;
               is_must_see := Some mustSee |};
     poi_id := id;
     poi_destination_id := "uuid-barcelona";
     poi_type := type;
     rating := Some (numeric 1 4.6);
     review_count := Some 1200%Z;
     address := None |}.

Definition barcelonaPois : list PoiRow :=
  [ poiNamed "poi-1" "Sagrada Familia" "ATTRACTION" (Some "$$") true
             ["ARCHITECTURE"];
    poiNamed "poi-2" "Barceloneta Beach" "ATTRACTION" (Some "FREE") true
             ["Sunset views"];
    poiNamed "poi-3" "Can Culleretes" "RESTAURANT" (Some "$$$") false
             ["TRADITIONAL"];
    poiNamed "poi-4" "La Boqueria" "SHOPPING" (Some "$") false ["MARKET"];
    poiNamed "poi-5" "Old harbour walk" "ACTIVITY" None false [] ].

Definition thingsEnv : ThingsEnv :=
  {| thingsDestRows := Returned [barcelona];
     poiTable := Returned barcelonaPois;
     tomorrow := "2026-01-02";
     random := fun i => inject_Z (Z.of_nat i) / 7 |}.

Definition coupleOnBudget : GetThingsToDoInput :=
  {| things_destination := "Barcelona";
     activity_types := None;
     things_traveler_type := Some "COUPLE";
     budget_per_person := Some 30 |}.

Definition diningEnv : DiningEnv :=
  {| diningDestRows := Returned [barcelona];
     restaurantTable := Returned barcelonaPois |}.

Definition upscaleDinner : GetDiningRecommendationsInput :=
  {| dining_destination := "Barcelona";
     cuisine_preferences := Some ["seafood"];
     dietary_restrictions := None;
     requested_price_level := Some "$$$";
     occasion := Some "ANNIVERSARY";
     meal_type := None |}.

(* ================================================================== *)
(** * Properties                                                       *)
(* ================================================================== *)

(** ** The embedding on concrete inputs *)

Example interestMatch_is_substring :
  interestMatch ["CULTURAL"; "BEACH"] ["agricultural fairs"; "beaches"] = 2%nat.
Proof. reflexivity. Qed.

Example contextMatch_is_exact :
  contextMatch ["CULTURAL"; "BEACH"] ["agricultural"; "beach"] = 1%nat.
Proof. reflexivity. Qed.

Example tokyo_in_april_reasons :
  matchReasonsOf (monthContext "April" (Some ["cultural"])) tokyo
  = ["Perfect weather in April"; "Matches your interest in cultural";
     "High safety rating"; "Excellent tourist infrastructure"] /\
  match_reasons
    (formatRecommendation (monthContext "April" (Some ["cultural"])) 0
       (scoreCandidate None (monthContext "April" (Some ["cultural"]))
          {| dest := tokyo; popularity_score := 0 |}))
  = ["Perfect weather in April"; "Matches your interest in cultural";
     "High safety rating"].
Proof. split; reflexivity. Qed.

Example barcelona_call_to_action :
  call_to_action
    (formatRecommendation emptyContext 0
       (scoreCandidate None emptyContext
          {| dest := barcelona; popularity_score := 0 |}))
  = "Explore Barcelona packages from $360".
Proof. reflexivity. Qed.

Example barcelona_day_three :
  day_theme (fallbackDay barcelona 2) = "Day 3 Exploration" /\
  activity (morning (fallbackDay barcelona 2)) = "Casa Batlló" /\
  activity (afternoon (fallbackDay barcelona 2)) = "Local cuisine exploration".
Proof. repeat split; reflexivity. Qed.

Example numeric_as_delivered :
  numericText (numeric 2 120) = "120.00" /\
  numericText (numeric 1 4.8) = "4.8" /\
  numericText (numeric 2 0) = "0.00" /\
  numericText {| unscaled := -50; scale := 2 |} = "-0.50" /\
  numericText {| unscaled := 7; scale := 0 |} = "7" /\
  numericValue (numeric 2 120) == 120 /\
  numericValue (numeric 1 4.8) == 4.8.
Proof. repeat split; reflexivity. Qed.

(** A comparison of two strings is not the comparison of their numbers; a
    string and a number are compared as numbers. *)
Example lessThan_on_strings :
  lessThan (AsText (numeric 2 150)) (AsText (numeric 2 90)) = true /\
  lessThan (AsText (numeric 2 90)) (AsText (numeric 2 150)) = false /\
  lessThan (AsText (numeric 2 90)) (AsNumber 100) = true /\
  lessThan (AsNumber 100) (AsText (numeric 2 150)) = true.
Proof. repeat split; reflexivity. Qed.

(** A daily cost of 0.00 is a truthy string: the default of 100 is not
    taken. *)
Example zero_cost_is_kept :
  let free := variant barcelona "uuid-barcelona" "Barcelona"
                      (Some (numeric 2 0)) in
  estimated_cost (fallbackDay free 0) = AsText (numeric 2 0) /\
  fact_average_daily_cost (quick_facts (overviewOf free None)) = "$0.00" /\
  estimated_cost
    (fallbackDay (variant barcelona "uuid-barcelona" "Barcelona" None) 0)
  = AsNumber 100.
Proof. repeat split; reflexivity. Qed.

Example barcelona_quick_facts :
  fact_safety_rating (quick_facts (overviewOf barcelona None)) = "4.2/5" /\
  fact_average_daily_cost (quick_facts (overviewOf barcelona None))
  = "$120.00".
Proof. split; reflexivity. Qed.

(** [length] counts code units, not bytes. *)
Example jsLength_counts_code_units :
  jsLength "Gaudí" = 5%nat /\ String.length "Gaudí" = 6%nat /\
  jsLength "café 🍷" = 7%nat /\ String.length "café 🍷" = 10%nat.
Proof. repeat split; reflexivity. Qed.

Example readTime_rounds_up : readTime 500 = 3%Z /\ readTime 400 = 2%Z.
Proof. split; reflexivity. Qed.

Example duration_out_of_range :
  generatePersonalizedItinerary noTemplateEnv
    {| itinerary_destination := "barcelona"; duration_days := 31;
       traveler_profile := None |}
  = Threw "Duration must be between 1 and 30 days".
Proof. reflexivity. Qed.

Example compare_needs_two :
  compareDestinations seedEnv
    {| destinations := ["Tokyo"]; comparison_criteria := None |}
  = Threw "Please provide 2-4 destinations to compare".
Proof. reflexivity. Qed.

(** ** Scoring *)

Lemma numOfNat_nonneg (n : nat) : 0 <= numOfNat n.
Proof.
  unfold numOfNat. change 0 with (inject_Z 0). rewrite <- Zle_Qle. lia.
Qed.

Lemma numOfNat_le (a b : nat) : (a <= b)%nat -> numOfNat a <= numOfNat b.
Proof.
  intros H. unfold numOfNat. rewrite <- Zle_Qle. lia.
Qed.

Lemma numOfN_nonneg (n : N) : 0 <= numOfN n.
Proof.
  unfold numOfN. change 0 with (inject_Z 0). rewrite <- Zle_Qle. lia.
Qed.

Lemma Qeq_bool_zero_mul2 (r : Q) : Qeq_bool r 0 = true -> r * 2 == 0.
Proof.
  intros H. apply Qeq_bool_eq in H. rewrite H. reflexivity.
Qed.

(** The imperative accumulation is the sum of its six terms. *)
Lemma rawMatchScore_sum (up : option UserTravelPreferences)
    (ctx : RecommendContext) (c : Candidate) :
  rawMatchScore up ctx c ==
    50 + numOfNat (profileMatchCount up c) * 10 + budgetBonus up c
       + bucketBonus up c + numOfNat (contextMatchCount ctx c) * 15
       + seasonBonus ctx c + popularityBonus c + infrastructureBonus c.
Proof.
  unfold rawMatchScore, profileMatchCount, budgetBonus, bucketBonus,
    contextMatchCount, seasonBonus, popularityBonus, infrastructureBonus,
    onBucketList, destTypesOf.
  cbv zeta.
  destruct (tourist_infrastructure_rating (dest c)) as [r|];
    [destruct (Qeq_bool r 0) eqn:Hr;
       [apply Qeq_bool_zero_mul2 in Hr; rewrite Hr|]|];
    (destruct up as [u|];
     [destruct (optStrEq (budget_level (dest c)) (budget_preference u));
      (destruct (bucket_list_destinations u) as [bl|];
       [destruct (includes bl (city (dest c)))|])|]);
    destruct (ctx_interests ctx) as [ints|];
    (destruct (travel_month ctx) as [m|];
     [destruct (negb (m =? "")%string
                && includes (orList (bestMonths (dest c)) []) m)|]);
    unfold numOfNat; simpl; ring.
Qed.

Lemma popularityBonus_bounds (c : Candidate) :
  0 <= popularityBonus c /\ popularityBonus c <= 10.
Proof.
  unfold popularityBonus.
  pose proof (numOfN_nonneg (popularity_score c)) as Hn.
  destruct (Q.min_spec (numOfN (popularity_score c) * 2) 10) as [[L E]|[L E]];
    rewrite E; split; lra.
Qed.

Lemma budgetBonus_nonneg up c : 0 <= budgetBonus up c.
Proof.
  unfold budgetBonus. destruct up as [u|]; [|lra].
  destruct (optStrEq _ _); lra.
Qed.

Lemma bucketBonus_nonneg up c : 0 <= bucketBonus up c.
Proof.
  unfold bucketBonus. destruct up as [u|]; [|lra].
  destruct (onBucketList _ _); lra.
Qed.

Lemma seasonBonus_nonneg ctx c : 0 <= seasonBonus ctx c.
Proof.
  unfold seasonBonus. destruct (travel_month ctx) as [m|]; [|lra].
  destruct (_ && _); lra.
Qed.

Lemma infrastructureBonus_nonneg c :
  ratingNonNegative c -> 0 <= infrastructureBonus c.
Proof.
  unfold ratingNonNegative, infrastructureBonus.
  destruct (tourist_infrastructure_rating (dest c)); intros; lra.
Qed.

Lemma rawMatchScore_ge_50 up ctx c :
  ratingNonNegative c -> 50 <= rawMatchScore up ctx c.
Proof.
  intros Hr. rewrite rawMatchScore_sum.
  pose proof (numOfNat_nonneg (profileMatchCount up c)).
  pose proof (numOfNat_nonneg (contextMatchCount ctx c)).
  pose proof (budgetBonus_nonneg up c).
  pose proof (bucketBonus_nonneg up c).
  pose proof (seasonBonus_nonneg ctx c).
  pose proof (popularityBonus_bounds c) as [? _].
  pose proof (infrastructureBonus_nonneg c Hr).
  lra.
Qed.

Lemma isInteger_inject (z : Z) : isInteger (inject_Z z).
Proof. exists z. reflexivity. Qed.

Lemma isInteger_plus (a b : Q) : isInteger a -> isInteger b -> isInteger (a + b).
Proof.
  intros [x Hx] [y Hy]. exists (x + y)%Z.
  rewrite Hx, Hy, inject_Z_plus. reflexivity.
Qed.

Lemma isInteger_mult (a b : Q) : isInteger a -> isInteger b -> isInteger (a * b).
Proof.
  intros [x Hx] [y Hy]. exists (x * y)%Z.
  rewrite Hx, Hy, inject_Z_mult. reflexivity.
Qed.

Lemma isInteger_min (a b : Q) : isInteger a -> isInteger b -> isInteger (Qmin a b).
Proof.
  intros [x Hx] [y Hy].
  destruct (Q.min_spec a b) as [[_ E]|[_ E]]; [exists x | exists y];
    rewrite E; assumption.
Qed.

Lemma isInteger_proper (a b : Q) : a == b -> isInteger b -> isInteger a.
Proof. intros E [z Hz]. exists z. rewrite E. exact Hz. Qed.

(** C1 (as amended): for every candidate whose infrastructure rating is absent
    or non-negative, every profile (present or absent) and every context, the
    computed match score lies in [50,100], hence in [0,100]; it is an integer
    whenever twice the rating is one, and need not be otherwise. *)
Theorem match_score_in_range (up : option UserTravelPreferences)
    (ctx : RecommendContext) (c : Candidate) :
  ratingNonNegative c ->
  50 <= finalScore up ctx c /\ finalScore up ctx c <= 100 /\
  (isInteger (infrastructureBonus c) -> isInteger (finalScore up ctx c)).
Proof.
  intros Hr. unfold finalScore, scoreCandidate. simpl.
  pose proof (rawMatchScore_ge_50 up ctx c Hr) as Hge.
  repeat split.
  - destruct (Q.min_spec (rawMatchScore up ctx c) 100) as [[_ E]|[_ E]];
      rewrite E; lra.
  - apply Q.le_min_r.
  - intros Hi. apply isInteger_min; [|apply (isInteger_inject 100)].
    eapply isInteger_proper; [apply rawMatchScore_sum|].
    assert (Hc : forall q, q = 0 \/ q = 15 \/ q = 20 \/ q = 25 -> isInteger q).
    { intros q [->|[->|[->| ->]]];
        [apply (isInteger_inject 0) | apply (isInteger_inject 15)
        | apply (isInteger_inject 20) | apply (isInteger_inject 25)]. }
    repeat apply isInteger_plus; auto.
    + apply (isInteger_inject 50).
    + apply isInteger_mult; [apply isInteger_inject|apply (isInteger_inject 10)].
    + apply Hc. unfold budgetBonus. destruct up; auto.
      destruct (optStrEq _ _); auto.
    + apply Hc. unfold bucketBonus. destruct up; auto.
      destruct (onBucketList _ _); auto.
    + apply isInteger_mult; [apply isInteger_inject|apply (isInteger_inject 15)].
    + apply Hc. unfold seasonBonus. destruct (travel_month ctx); auto.
      destruct (_ && _); auto.
    + unfold popularityBonus. apply isInteger_min.
      * apply isInteger_mult; [apply isInteger_inject|apply (isInteger_inject 2)].
      * apply (isInteger_inject 10).
Qed.

Lemma match_score_in_range_witness :
  let c := {| dest := tokyo; popularity_score := 3 |} in
  ratingNonNegative c /\
  50 <= finalScore None emptyContext c /\ finalScore None emptyContext c <= 100 /\
  (isInteger (infrastructureBonus c) -> isInteger (finalScore None emptyContext c)).
Proof.
  assert (H : ratingNonNegative {| dest := tokyo; popularity_score := 3 |})
    by (vm_compute; discriminate).
  split; [exact H|].
  apply (match_score_in_range None emptyContext
           {| dest := tokyo; popularity_score := 3 |} H).
Defined.

(** C1 (as stated) fails: the seeded row Barcelona, rating 4.8, never
    recommended before, scores 50 + 9.6 = 59.6 without a profile or context. *)
Lemma match_score_not_integer :
  let c := {| dest := barcelona; popularity_score := 0 |} in
  finalScore None emptyContext c == 59.6 /\
  ~ isInteger (finalScore None emptyContext c).
Proof.
  assert (E : finalScore None emptyContext
                {| dest := barcelona; popularity_score := 0 |} == 59.6)
    by (vm_compute; reflexivity).
  split; [exact E|].
  intros [z Hz]. rewrite E in Hz.
  unfold Qeq in Hz. simpl in Hz. lia.
Qed.

Lemma rawMatchScore_bucket (u : UserTravelPreferences)
    (bl : option (list string)) (ctx : RecommendContext) (c : Candidate) :
  rawMatchScore (Some (withBucketList u bl)) ctx c ==
    rawMatchScore (Some (withBucketList u None)) ctx c
    + (if onBucketList bl c then 25 else 0).
Proof.
  rewrite !rawMatchScore_sum. unfold bucketBonus, budgetBonus, profileMatchCount.
  simpl. destruct (onBucketList bl c); ring.
Qed.

(** C2 (as amended): with everything else fixed, a bucket list that contains
    the candidate's city makes the score before the final [Math.min] exactly 25
    higher; the final score is that sum capped at 100, so it is exactly 25
    higher whenever the score without the match is at most 75. *)
Theorem bucket_list_adds_25 (u : UserTravelPreferences)
    (blWith blWithout : option (list string)) (ctx : RecommendContext)
    (c : Candidate) :
  onBucketList blWith c = true ->
  onBucketList blWithout c = false ->
  let without := rawMatchScore (Some (withBucketList u blWithout)) ctx c in
  rawMatchScore (Some (withBucketList u blWith)) ctx c == without + 25 /\
  finalScore (Some (withBucketList u blWith)) ctx c == Qmin (without + 25) 100 /\
  (without <= 75 ->
   finalScore (Some (withBucketList u blWith)) ctx c ==
   finalScore (Some (withBucketList u blWithout)) ctx c + 25).
Proof.
  intros Hw Hwo without.
  assert (E : rawMatchScore (Some (withBucketList u blWith)) ctx c
              == without + 25).
  { unfold without.
    rewrite (rawMatchScore_bucket u blWith), (rawMatchScore_bucket u blWithout).
    rewrite Hw, Hwo. ring. }
  split; [exact E|].
  unfold finalScore, scoreCandidate. simpl. fold without.
  split.
  - destruct (Q.min_spec (rawMatchScore (Some (withBucketList u blWith)) ctx c)
                100) as [[L1 E1]|[L1 E1]];
      destruct (Q.min_spec (without + 25) 100) as [[L2 E2]|[L2 E2]];
      rewrite E1, E2; lra.
  - intros Hle.
    destruct (Q.min_spec (rawMatchScore (Some (withBucketList u blWith)) ctx c)
                100) as [[L1 E1]|[L1 E1]];
      destruct (Q.min_spec without 100) as [[L2 E2]|[L2 E2]];
      rewrite E1, E2; lra.
Qed.

Lemma bucket_list_adds_25_witness :
  let c := {| dest := cartagena; popularity_score := 0 |} in
  let without :=
    rawMatchScore (Some (withBucketList seedPreferences None)) emptyContext c in
  rawMatchScore (Some (withBucketList seedPreferences (Some ["Cartagena"])))
                emptyContext c == without + 25 /\
  finalScore (Some (withBucketList seedPreferences (Some ["Cartagena"])))
             emptyContext c == Qmin (without + 25) 100 /\
  (without <= 75 ->
   finalScore (Some (withBucketList seedPreferences (Some ["Cartagena"])))
              emptyContext c ==
   finalScore (Some (withBucketList seedPreferences None)) emptyContext c + 25).
Proof.
  apply (bucket_list_adds_25 seedPreferences (Some ["Cartagena"]) None
           emptyContext {| dest := cartagena; popularity_score := 0 |});
    reflexivity.
Defined.

(** C2 (as stated) fails once the cap is reached: for the seeded traveller
    (budget MODERATE), Tokyo (MODERATE, rating 5.0, shown in five earlier logs)
    scores 50 + 15 + 10 + 10 = 85 without the bucket-list match and 100, not
    110, with it. *)
Lemma bucket_list_bonus_capped :
  let c := {| dest := tokyo; popularity_score := 5 |} in
  let without := withBucketList seedPreferences (Some []) in
  let with_ := withBucketList seedPreferences (Some ["Tokyo"]) in
  onBucketList (bucket_list_destinations with_) c = true /\
  onBucketList (bucket_list_destinations without) c = false /\
  finalScore (Some without) emptyContext c == 85 /\
  finalScore (Some with_) emptyContext c == 100 /\
  ~ finalScore (Some with_) emptyContext c
    == finalScore (Some without) emptyContext c + 25.
Proof.
  cbv zeta.
  assert (E1 : finalScore (Some (withBucketList seedPreferences (Some [])))
                 emptyContext
                 {| dest := tokyo; popularity_score := 5 |} == 85)
    by (vm_compute; reflexivity).
  assert (E2 : finalScore (Some (withBucketList seedPreferences (Some ["Tokyo"])))
                 emptyContext
                 {| dest := tokyo; popularity_score := 5 |} == 100)
    by (vm_compute; reflexivity).
  split; [reflexivity|]. split; [reflexivity|].
  split; [exact E1|]. split; [exact E2|].
  rewrite E1, E2. intros H. unfold Qeq in H. simpl in H. lia.
Qed.

Lemma budgetBonus_same up1 up2 c :
  sameButInterests up1 up2 ->
  budgetBonus up1 c = budgetBonus up2 c /\ bucketBonus up1 c = bucketBonus up2 c.
Proof.
  unfold sameButInterests, budgetBonus, bucketBonus.
  destruct up1 as [x|], up2 as [y|]; try tauto.
  intros [-> ->]. split; reflexivity.
Qed.

(** C8: with the candidate and every other input fixed, the match score is
    monotonically non-decreasing in the number of category tags matched by the
    profile's interests and in the number matched by the request's interests. *)
Theorem score_monotone_in_matches (up1 up2 : option UserTravelPreferences)
    (ctx1 ctx2 : RecommendContext) (c : Candidate) :
  sameButInterests up1 up2 ->
  sameMonth ctx1 ctx2 ->
  (profileMatchCount up1 c <= profileMatchCount up2 c)%nat ->
  (contextMatchCount ctx1 c <= contextMatchCount ctx2 c)%nat ->
  finalScore up1 ctx1 c <= finalScore up2 ctx2 c.
Proof.
  intros Hup Hctx Hp Hc.
  unfold finalScore, scoreCandidate. simpl.
  apply Q.min_le_compat_r.
  rewrite !rawMatchScore_sum.
  destruct (budgetBonus_same up1 up2 c Hup) as [-> ->].
  assert (Hs : seasonBonus ctx1 c = seasonBonus ctx2 c)
    by (unfold seasonBonus; rewrite Hctx; reflexivity).
  rewrite Hs.
  apply numOfNat_le in Hp. apply numOfNat_le in Hc.
  lra.
Qed.

Lemma score_monotone_in_matches_witness :
  let c := {| dest := barcelona; popularity_score := 1 |} in
  let up1 := Some seedPreferences in
  let up2 := Some (withInterests seedPreferences
                     (Some ["cultural tours"; "Beach"])) in
  let ctx1 := monthContext "May" (Some ["nightlife"]) in
  let ctx2 := monthContext "May" (Some ["family"; "beach"]) in
  (profileMatchCount up1 c = 0 /\ profileMatchCount up2 c = 2 /\
   contextMatchCount ctx1 c = 0 /\ contextMatchCount ctx2 c = 2)%nat /\
  finalScore up1 ctx1 c <= finalScore up2 ctx2 c.
Proof.
  split; [repeat split; reflexivity|].
  apply (score_monotone_in_matches
           (Some seedPreferences)
           (Some (withInterests seedPreferences
                    (Some ["cultural tours"; "Beach"])))
           (monthContext "May" (Some ["nightlife"]))
           (monthContext "May" (Some ["family"; "beach"]))
           {| dest := barcelona; popularity_score := 1 |}).
  - split; reflexivity.
  - reflexivity.
  - vm_compute. lia.
  - vm_compute. lia.
Defined.

(** ** The stable descending sort *)

Section SortFacts.
Context {A : Type} (key : A -> Q).

Lemma Forall_insertDesc (P : A -> Prop) (x : A) (l : list A) :
  P x -> Forall P l -> Forall P (insertDesc key x l).
Proof.
  intros Hx Hl. induction Hl as [|y r Hy Hr IH]; simpl.
  - constructor; [exact Hx|constructor].
  - destruct (Qlt_le_dec (key x) (key y)).
    + constructor; assumption.
    + constructor; [exact Hx|]. constructor; assumption.
Qed.

Lemma Forall_sortDesc (P : A -> Prop) (l : list A) :
  Forall P l -> Forall P (sortDesc key l).
Proof.
  induction 1 as [|x r Hx Hr IH]; simpl.
  - constructor.
  - apply Forall_insertDesc; assumption.
Qed.

Lemma length_insertDesc (x : A) (l : list A) :
  length (insertDesc key x l) = S (length l).
Proof.
  induction l as [|y r IH]; simpl; [reflexivity|].
  destruct (Qlt_le_dec (key x) (key y)); simpl; [rewrite IH|]; reflexivity.
Qed.

Lemma length_sortDesc (l : list A) : length (sortDesc key l) = length l.
Proof.
  induction l as [|x r IH]; simpl; [reflexivity|].
  rewrite length_insertDesc, IH. reflexivity.
Qed.

Lemma insertDesc_perm (x : A) (l : list A) :
  Permutation (x :: l) (insertDesc key x l).
Proof.
  induction l as [|y r IH]; simpl; [reflexivity|].
  destruct (Qlt_le_dec (key x) (key y)); [|reflexivity].
  rewrite perm_swap. apply perm_skip. exact IH.
Qed.

Lemma sortDesc_perm (l : list A) : Permutation l (sortDesc key l).
Proof.
  induction l as [|x r IH]; simpl; [reflexivity|].
  rewrite <- insertDesc_perm. apply perm_skip. exact IH.
Qed.

Lemma insertDesc_sorted (x : A) (l : list A) :
  StronglySorted (keyDesc key) l -> StronglySorted (keyDesc key) (insertDesc key x l).
Proof.
  induction 1 as [|y r Hr IH Hy]; simpl.
  - constructor; constructor.
  - destruct (Qlt_le_dec (key x) (key y)) as [Hlt|Hle].
    + constructor; [exact IH|].
      apply Forall_insertDesc; [|exact Hy].
      unfold keyDesc. apply Qlt_le_weak. exact Hlt.
    + constructor; [constructor; assumption|].
      constructor; [exact Hle|].
      eapply Forall_impl; [|exact Hy].
      intros z Hz. unfold keyDesc in *. eapply Qle_trans; eassumption.
Qed.

Lemma sortDesc_sorted (l : list A) : StronglySorted (keyDesc key) (sortDesc key l).
Proof.
  induction l as [|x r IH]; simpl; [constructor|].
  apply insertDesc_sorted. exact IH.
Qed.

(** Stability: entries of equal key keep the order they had. *)
Variable R : A -> A -> Prop.

Lemma insertDesc_stable (x : A) (l : list A) :
  Forall (R x) l -> StronglySorted (tieKeeps key R) l ->
  StronglySorted (tieKeeps key R) (insertDesc key x l).
Proof.
  intros Hx Hl. induction Hl as [|y r Hr IH Hy]; simpl.
  - constructor; constructor.
  - inversion Hx as [|? ? Hxy Hxr]; subst.
    destruct (Qlt_le_dec (key x) (key y)) as [Hlt|Hle].
    + constructor; [apply IH; exact Hxr|].
      apply Forall_insertDesc; [|exact Hy].
      intros E. rewrite E in Hlt. exfalso. exact (Qlt_irrefl _ Hlt).
    + constructor; [constructor; assumption|].
      eapply Forall_impl; [|exact Hx].
      intros z Hz _. exact Hz.
Qed.

Lemma sortDesc_stable (l : list A) :
  StronglySorted R l -> StronglySorted (tieKeeps key R) (sortDesc key l).
Proof.
  induction 1 as [|x r Hr IH Hx]; simpl; [constructor|].
  apply insertDesc_stable; [|exact IH].
  apply Forall_sortDesc. exact Hx.
Qed.
End SortFacts.

Lemma StronglySorted_firstn {A : Type} (R : A -> A -> Prop) (n : nat)
    (l : list A) :
  StronglySorted R l -> StronglySorted R (firstn n l).
Proof.
  intros H. revert n. induction H as [|x r Hr IH Hx]; intros [|n]; simpl;
    try constructor.
  - apply IH.
  - clear -Hx. revert n.
    induction Hx as [|y s Hy Hs IHs]; intros [|n]; simpl; constructor; auto.
Qed.

Lemma StronglySorted_filter {A : Type} (R : A -> A -> Prop) (f : A -> bool)
    (l : list A) :
  StronglySorted R l -> StronglySorted R (filter f l).
Proof.
  induction 1 as [|x r Hr IH Hx]; simpl; [constructor|].
  destruct (f x); [|exact IH].
  constructor; [exact IH|].
  apply Forall_forall. intros y Hy. apply filter_In in Hy.
  rewrite Forall_forall in Hx. apply Hx. tauto.
Qed.

Lemma StronglySorted_map {A B : Type} (f : A -> B) (R : B -> B -> Prop)
    (l : list A) :
  StronglySorted (fun a b => R (f a) (f b)) l -> StronglySorted R (map f l).
Proof.
  induction 1 as [|x r Hr IH Hx]; simpl; constructor.
  - exact IH.
  - apply Forall_map. exact Hx.
Qed.

Lemma slice0_firstn {A : Type} (n : Z) (l : list A) :
  (0 <= n)%Z -> slice0 n l = firstn (Z.to_nat n) l.
Proof.
  intros H. unfold slice0.
  destruct (n <? 0)%Z eqn:E; [apply Z.ltb_lt in E; lia|reflexivity].
Qed.

Lemma length_slice0 {A : Type} (n : Z) (l : list A) :
  (0 <= n)%Z -> (length (slice0 n l) <= Z.to_nat n)%nat.
Proof.
  intros H. rewrite slice0_firstn by exact H. apply firstn_le_length.
Qed.

Lemma length_mapi {A B : Type} (f : nat -> A -> B) (i : nat) (l : list A) :
  length (mapi f i l) = length l.
Proof.
  revert i. induction l as [|x r IH]; intros i; simpl; [|rewrite IH];
    reflexivity.
Qed.

Lemma Forall_mapi {A B : Type} (P : B -> Prop) (f : nat -> A -> B) (i : nat)
    (l : list A) :
  (forall j x, P (f j x)) -> Forall P (mapi f i l).
Proof.
  intros H. revert i. induction l as [|x r IH]; intros i; simpl; constructor;
    auto.
Qed.

Lemma map_score_mapi (ctx : RecommendContext) (i : nat) (l : list Scored) :
  map rec_match_score (mapi (formatRecommendation ctx) i l) = map match_score l.
Proof.
  revert i. induction l as [|x r IH]; intros i; simpl; [|rewrite IH];
    reflexivity.
Qed.

(** ** recommend-destinations: the returned list *)

Lemma formatEntries_array (ctx : RecommendContext) (i : nat) (l : list Scored) :
  formatEntries ctx i (map Some l)
  = Returned (mapi (formatRecommendation ctx) i l).
Proof.
  revert i. induction l as [|x r IH]; intros i; simpl; [reflexivity|].
  rewrite IH. reflexivity.
Qed.

Lemma formatAnswered_array (ctx : RecommendContext) (l : list Scored) :
  formatAnswered ctx (asArray l)
  = Returned (mapi (formatRecommendation ctx) 0 l).
Proof. apply formatEntries_array. Qed.

(** The formatting step ends only on an array of candidate objects. *)
Lemma formatEntries_returned (ctx : RecommendContext) (i : nat)
    (entries : list (option Scored)) (recs : list DestinationRecommendation) :
  formatEntries ctx i entries = Returned recs ->
  exists shown,
    entries = map Some shown /\ recs = mapi (formatRecommendation ctx) i shown.
Proof.
  revert i recs. induction entries as [|[x|] r IH]; intros i recs; simpl.
  - intros H. injection H as <-. exists []. split; reflexivity.
  - destruct (formatEntries ctx (S i) r) as [rest|] eqn:E; cbn [bind];
      [|discriminate].
    intros H. injection H as <-.
    destruct (IH (S i) rest E) as [shown [-> ->]].
    exists (x :: shown). split; reflexivity.
  - discriminate.
Qed.

Lemma formatAnswered_returned (ctx : RecommendContext) (a : Answered)
    (recs : list DestinationRecommendation) :
  formatAnswered ctx a = Returned recs ->
  exists shown,
    a = asArray shown /\ recs = mapi (formatRecommendation ctx) 0 shown.
Proof.
  destruct a as [|entries]; simpl; [discriminate|].
  intros H. destruct (formatEntries_returned ctx 0 entries recs H)
    as [shown [-> ->]].
  exists shown. split; reflexivity.
Qed.

(** The tool, once its two reads are answered: the log insert is absorbed,
    and what remains is the formatting of the personalised value. *)
Lemma recommendDestinations_unfolds (env : RecommendEnv)
    (input : RecommendDestinationsInput) (prefs : list UserTravelPreferences)
    (rows : list Candidate) :
  prefRows env = Returned prefs ->
  candidateRows env = Returned rows ->
  (0 <= requestedCount input)%Z ->
  recommendDestinations env input
  = match candidatesOf input rows with
    | [] => Returned {| recommendations := []; inspiration_themes := [] |}
    | _ =>
        recommendations <-
          formatAnswered (requestContext input)
                         (personalizedOf env input prefs rows) ;;
        Returned {| recommendations := recommendations;
                    inspiration_themes :=
                      slice0 3 (themesOf (candidatesOf input rows)) |}
    end.
Proof.
  intros Hp Hc Hn.
  unfold recommendDestinations, candidateQuery, personalizedOf,
    topDestinationsOf, candidatesOf, profileOf, requestContext, requestedCount,
    themesOf in *.
  rewrite Hp, Hc. cbv zeta.
  set (count := match recommendation_count input with
                | Some n => n
                | None => 5%Z
                end) in *.
  set (ctx := match context input with
              | Some c => c
              | None => emptyContext
              end) in *.
  assert (E : (count * 2 <? 0)%Z = false) by (apply Z.ltb_ge; lia).
  destruct (truthyStr (passenger_id input)); cbn [bind]; rewrite E;
    cbn [bind];
    destruct (firstn (Z.to_nat (count * 2)) (filter (isCandidate ctx) rows))
      as [|c0 rest];
    try reflexivity;
    match goal with
    | |- context [formatAnswered ?c ?a] => destruct (formatAnswered c a)
    end; cbn [bind]; try reflexivity;
    destruct (logInsert env); reflexivity.
Qed.

Lemma recommendDestinations_returns (env : RecommendEnv)
    (input : RecommendDestinationsInput) (prefs : list UserTravelPreferences)
    (rows : list Candidate) (shown : list Scored) :
  prefRows env = Returned prefs ->
  candidateRows env = Returned rows ->
  (0 <= requestedCount input)%Z ->
  personalizedOf env input prefs rows = asArray shown ->
  exists resp,
    recommendDestinations env input = Returned resp /\
    recommendations resp =
      match candidatesOf input rows with
      | [] => []
      | _ => mapi (formatRecommendation (requestContext input)) 0 shown
      end.
Proof.
  intros Hp Hc Hn Hs.
  rewrite (recommendDestinations_unfolds env input prefs rows Hp Hc Hn).
  rewrite Hs, formatAnswered_array.
  destruct (candidatesOf input rows); eexists; split; reflexivity.
Qed.

Lemma match_reasons_at_most_3 (ctx : RecommendContext) (i : nat) (s : Scored) :
  (length (match_reasons (formatRecommendation ctx i s)) <= 3)%nat.
Proof.
  unfold formatRecommendation. simpl.
  apply (length_slice0 3). lia.
Qed.

Lemma degraded_personalizerIdle ai : degraded ai -> personalizerIdle ai.
Proof.
  intros [H|[H|[H|H]]] l; unfold personalizeRecommendations; rewrite H;
    try reflexivity; destruct (apiKeyConfigured ai); reflexivity.
Qed.

Lemma idle_personalizedOf (env : RecommendEnv)
    (input : RecommendDestinationsInput) (prefs : list UserTravelPreferences)
    (rows : list Candidate) :
  personalizerIdle (personalizer env) ->
  personalizedOf env input prefs rows
  = asArray (topDestinationsOf input prefs rows).
Proof.
  intros Hai. unfold personalizedOf.
  destruct (profileOf input prefs);
    [|destruct (ctx_interests (requestContext input))];
    rewrite ?Hai; reflexivity.
Qed.

Lemma length_topDestinationsOf input prefs rows :
  (0 <= requestedCount input)%Z ->
  (length (topDestinationsOf input prefs rows)
   <= Z.to_nat (requestedCount input))%nat.
Proof. intros H. unfold topDestinationsOf. apply length_slice0. exact H. Qed.

Lemma topDestinationsOf_nil input prefs rows :
  (0 <= requestedCount input)%Z ->
  candidatesOf input rows = [] -> topDestinationsOf input prefs rows = [].
Proof.
  intros Hn E. unfold topDestinationsOf. rewrite E. simpl.
  rewrite slice0_firstn by exact Hn. apply firstn_nil.
Qed.

(** C5 (as amended): when its queries succeed and the requested count (5 when
    absent) is not negative, every response of recommend-destinations carries
    at most 3 match reasons per entry, and the tool returns at most the
    requested number of entries whenever the value it formats is an array of
    candidate objects no longer than [topDestinations]: that is so when the
    personaliser is not consulted and when it is degraded.  Nothing else
    bounds the list: neither the schema's maximum of 10 nor the length of the
    personaliser's answer. *)
Theorem recommendations_bounded (env : RecommendEnv)
    (input : RecommendDestinationsInput) (prefs : list UserTravelPreferences)
    (rows : list Candidate) :
  prefRows env = Returned prefs ->
  candidateRows env = Returned rows ->
  (0 <= requestedCount input)%Z ->
  (recommendation_count input = None -> requestedCount input = 5%Z) /\
  (forall resp,
      recommendDestinations env input = Returned resp ->
      Forall (fun r => (length (match_reasons r) <= 3)%nat)
             (recommendations resp)) /\
  (answersWithin env input prefs rows ->
   exists resp,
     recommendDestinations env input = Returned resp /\
     (length (recommendations resp) <= Z.to_nat (requestedCount input))%nat) /\
  (notConsulted input prefs \/ degraded (personalizer env) ->
   answersWithin env input prefs rows).
Proof.
  intros Hp Hc Hn.
  split; [unfold requestedCount; intros ->; reflexivity|].
  split; [|split].
  - intros resp Hr.
    rewrite (recommendDestinations_unfolds env input prefs rows Hp Hc Hn) in Hr.
    destruct (candidatesOf input rows).
    + injection Hr as <-. constructor.
    + destruct (formatAnswered (requestContext input)
                  (personalizedOf env input prefs rows)) as [recs|] eqn:E;
        cbn [bind] in Hr; [|discriminate].
      injection Hr as <-. cbn [recommendations].
      destruct (formatAnswered_returned _ _ _ E) as [shown [_ ->]].
      apply Forall_mapi. intros j x. apply match_reasons_at_most_3.
  - intros [shown [Hs Hlen]].
    destruct (recommendDestinations_returns env input prefs rows shown
                Hp Hc Hn Hs) as [resp [Hr Hl]].
    exists resp. split; [exact Hr|]. rewrite Hl.
    destruct (candidatesOf input rows); [simpl; lia|].
    rewrite length_mapi.
    pose proof (length_topDestinationsOf input prefs rows Hn). lia.
  - intros H. exists (topDestinationsOf input prefs rows).
    split; [|apply Nat.le_refl].
    destruct H as [[Hprofile Hints]|Hai].
    + unfold personalizedOf. rewrite Hprofile, Hints. reflexivity.
    + apply idle_personalizedOf, degraded_personalizerIdle, Hai.
Qed.

Lemma recommendations_bounded_witness :
  personalizedOf rerankingEnv beachInput [] seedCandidates
  = asArray [beachScored barcelona; beachScored dubai] /\
  map (fun s => city (dest (row s)))
      (topDestinationsOf beachInput [] seedCandidates) = ["Dubai"; "Barcelona"] /\
  (exists resp,
      recommendDestinations rerankingEnv beachInput = Returned resp /\
      map rec_destination (recommendations resp) = ["Barcelona"; "Dubai"]) /\
  (recommendation_count beachInput = None -> requestedCount beachInput = 5%Z) /\
  (forall resp,
      recommendDestinations rerankingEnv beachInput = Returned resp ->
      Forall (fun r => (length (match_reasons r) <= 3)%nat)
             (recommendations resp)) /\
  (answersWithin rerankingEnv beachInput [] seedCandidates ->
   exists resp,
     recommendDestinations rerankingEnv beachInput = Returned resp /\
     (length (recommendations resp)
      <= Z.to_nat (requestedCount beachInput))%nat) /\
  (notConsulted beachInput [] \/ degraded (personalizer rerankingEnv) ->
   answersWithin rerankingEnv beachInput [] seedCandidates).
Proof.
  split; [reflexivity|]. split; [reflexivity|].
  split; [eexists; split; [vm_compute; reflexivity|reflexivity]|].
  apply (recommendations_bounded rerankingEnv beachInput [] seedCandidates).
  - reflexivity.
  - reflexivity.
  - vm_compute. discriminate.
Defined.

(** C5 (as stated) fails twice.  Asked for 2 recommendations, with the
    enrichment client answering with 3, the tool returns all 3; asked for 12,
    two more than the maximum of 10 that the schema declares, over twelve
    candidates, it returns 12. *)
Lemma recommendations_exceed_request :
  (requestedCount beachInput = 2%Z /\
   length (topDestinationsOf beachInput [] beachRows) = 2%nat /\
   exists resp,
     recommendDestinations talkativeEnv beachInput = Returned resp /\
     map rec_destination (recommendations resp)
       = ["Dubai"; "Barcelona"; "Cartagena"] /\
     ~ (length (recommendations resp)
        <= Z.to_nat (requestedCount beachInput))%nat) /\
  (requestedCount twelveInput = 12%Z /\
   exists resp,
     recommendDestinations (recommendEnv twelveRows unconfigured) twelveInput
     = Returned resp /\
     length (recommendations resp) = 12%nat /\
     ~ (Z.of_nat (length (recommendations resp))
        <= recommendationCountMaximum)%Z).
Proof.
  split.
  - split; [reflexivity|]. split; [reflexivity|].
    eexists. split; [vm_compute; reflexivity|].
    split; [reflexivity|]. simpl. lia.
  - split; [reflexivity|].
    eexists. split; [vm_compute; reflexivity|].
    split; [reflexivity|]. unfold recommendationCountMaximum. simpl. lia.
Qed.

Lemma mapi_recommendationDesc (ctx : RecommendContext) (i : nat)
    (l : list Scored) :
  StronglySorted scoreDesc l ->
  StronglySorted recommendationDesc (mapi (formatRecommendation ctx) i l).
Proof.
  intros H. revert i. induction H as [|x r Hr IH Hx]; intros i; simpl;
    constructor.
  - apply IH.
  - clear -Hx. generalize (S i) as j.
    induction Hx as [|y s Hy Hs IHs]; intros j; simpl; constructor.
    + exact Hy.
    + apply IHs.
Qed.

Lemma topDestinationsOf_sorted input prefs rows :
  (0 <= requestedCount input)%Z ->
  StronglySorted scoreDesc (topDestinationsOf input prefs rows).
Proof.
  intros Hn. unfold topDestinationsOf. rewrite slice0_firstn by exact Hn.
  apply StronglySorted_firstn. apply sortDesc_sorted.
Qed.

Lemma topDestinationsOf_stable input prefs rows :
  (0 <= requestedCount input)%Z ->
  StronglySorted queryOrder rows ->
  StronglySorted tieInQueryOrder (topDestinationsOf input prefs rows).
Proof.
  intros Hn Hq. unfold topDestinationsOf. rewrite slice0_firstn by exact Hn.
  apply StronglySorted_firstn. apply sortDesc_stable.
  unfold candidatesOf.
  induction (StronglySorted_firstn queryOrder
               (Z.to_nat (requestedCount input * 2)) _
               (StronglySorted_filter queryOrder
                  (isCandidate (requestContext input)) rows Hq))
    as [|x r Hr IH Hx]; simpl; constructor.
  - exact IH.
  - apply Forall_map. exact Hx.
Qed.

(** C6 (as amended): when the queries succeed, the count is not negative and
    the personaliser hands the candidates back as they are, the returned list
    is the formatted [topDestinations], sorted by descending match score; two
    entries with equal match scores keep the order of the candidate query,
    which is descending prior-recommendation count and only then descending
    tourist-infrastructure rating. *)
Theorem ranking_sorted_ties_in_query_order (env : RecommendEnv)
    (input : RecommendDestinationsInput) (prefs : list UserTravelPreferences)
    (rows : list Candidate) :
  prefRows env = Returned prefs ->
  candidateRows env = Returned rows ->
  (0 <= requestedCount input)%Z ->
  StronglySorted queryOrder rows ->
  personalizerIdle (personalizer env) ->
  exists resp,
    recommendDestinations env input = Returned resp /\
    recommendations resp =
      mapi (formatRecommendation (requestContext input)) 0
           (topDestinationsOf input prefs rows) /\
    StronglySorted recommendationDesc (recommendations resp) /\
    StronglySorted tieInQueryOrder (topDestinationsOf input prefs rows).
Proof.
  intros Hp Hc Hn Hq Hai.
  destruct (recommendDestinations_returns env input prefs rows _ Hp Hc Hn
              (idle_personalizedOf env input prefs rows Hai))
    as [resp [Hr Hl]].
  assert (E : recommendations resp =
              mapi (formatRecommendation (requestContext input)) 0
                   (topDestinationsOf input prefs rows)).
  { rewrite Hl. destruct (candidatesOf input rows) eqn:Ef; [|reflexivity].
    rewrite (topDestinationsOf_nil input prefs rows Hn Ef). reflexivity. }
  exists resp. split; [exact Hr|]. split; [exact E|]. split.
  - rewrite E. apply mapi_recommendationDesc.
    apply topDestinationsOf_sorted. exact Hn.
  - apply topDestinationsOf_stable; assumption.
Qed.

Lemma tieRows_in_query_order : StronglySorted queryOrder tieRows.
Proof.
  unfold tieRows. repeat constructor.
Qed.

Lemma unconfigured_idle : personalizerIdle unconfigured.
Proof. intros l. reflexivity. Qed.

Lemma ranking_sorted_ties_in_query_order_witness :
  exists resp,
    recommendDestinations tieEnv plainInput = Returned resp /\
    recommendations resp =
      mapi (formatRecommendation (requestContext plainInput)) 0
           (topDestinationsOf plainInput [] tieRows) /\
    StronglySorted recommendationDesc (recommendations resp) /\
    StronglySorted tieInQueryOrder (topDestinationsOf plainInput [] tieRows).
Proof.
  apply (ranking_sorted_ties_in_query_order tieEnv plainInput [] tieRows).
  - reflexivity.
  - reflexivity.
  - vm_compute. discriminate.
  - unfold tieRows. repeat constructor.
  - intros l. reflexivity.
Defined.

(** C6 (as stated) fails on its tie-break: the candidate query orders by
    prior-recommendation count first, so Cartagena (shown once, rating 4.0)
    precedes Tokyo (never shown, rating 5.0); both score 60 and the stable sort
    leaves the lower-rated one on top. *)
Lemma ranking_tie_not_by_rating :
  StronglySorted queryOrder tieRows /\
  exists resp,
    recommendDestinations tieEnv plainInput = Returned resp /\
    recommendations resp =
      mapi (formatRecommendation (requestContext plainInput)) 0
           (topDestinationsOf plainInput [] tieRows) /\
    map rec_destination (recommendations resp) = ["Cartagena"; "Tokyo"] /\
    Forall (fun r => rec_match_score r == 60) (recommendations resp) /\
    ~ StronglySorted tieByRating (topDestinationsOf plainInput [] tieRows).
Proof.
  split; [exact tieRows_in_query_order|].
  eexists. split; [vm_compute; reflexivity|].
  split; [vm_compute; reflexivity|].
  split; [reflexivity|].
  split.
  - repeat constructor; vm_compute; reflexivity.
  - intros H.
    assert (E : topDestinationsOf plainInput [] tieRows
                = map (scoreCandidate None emptyContext) tieRows)
      by (vm_compute; reflexivity).
    rewrite E in H. simpl in H.
    inversion H as [|? ? _ Hall]; subst.
    inversion Hall as [|? ? Htie _]; subst.
    assert (Hr : ratingDesc (Some 4) (Some 5)).
    { apply Htie. vm_compute. reflexivity. }
    vm_compute in Hr. apply Hr. reflexivity.
Qed.

(** ** Content resolution *)

Lemma orStr_nonempty (o : option string) (d : string) :
  d <> "" -> orStr o d <> "".
Proof.
  intros Hd. unfold orStr. destruct o as [s|]; [|exact Hd].
  destruct (String.eqb s "") eqn:E; [exact Hd|].
  apply String.eqb_neq. exact E.
Qed.

Lemma fallbackDay_populated (d : Destination) (i : nat) :
  populatedDay d i (fallbackDay d i).
Proof.
  unfold populatedDay, populatedSlot, populatedMeals, fallbackDay. simpl.
  repeat split; try discriminate; try (apply orStr_nonempty; discriminate).
  destruct (Nat.eqb i 0); discriminate.
Qed.

Lemma duration_accepted (n : Z) :
  (1 <= n <= 30)%Z -> ((n <? 1) || (n >? 30))%Z = false.
Proof.
  intros H. apply orb_false_iff. split; [apply Z.ltb_ge; lia|].
  rewrite Z.gtb_ltb. apply Z.ltb_ge. lia.
Qed.

Lemma generateItinerary_degraded (ai : OpenAI (option AiItinerary)) :
  degraded ai -> exists message, generateItinerary ai = Threw message.
Proof.
  unfold generateItinerary.
  intros [H|[H|[H|H]]]; rewrite H; simpl; eauto;
    destruct (apiKeyConfigured ai); simpl; eauto.
Qed.

(** With no template and a degraded enrichment capability the tool serves the
    deterministic itinerary. *)
Lemma itinerary_falls_back (env : ItineraryEnv) (input : GenerateItineraryInput)
    (d : Destination) (rest : list Destination) :
  (1 <= duration_days input <= 30)%Z ->
  itineraryDestRows env = Returned (d :: rest) ->
  templateRows env = Returned [] ->
  degraded (itineraryAI env) ->
  generatePersonalizedItinerary env input
  = Returned (fallbackItinerary d (duration_days input)).
Proof.
  intros Hn Hd Ht Hai. unfold generatePersonalizedItinerary. cbv zeta.
  rewrite (duration_accepted _ Hn), Hd. simpl. rewrite Ht. simpl.
  destruct (generateItinerary_degraded _ Hai) as [message ->]. reflexivity.
Qed.

(** C3: for every found destination and every [duration_days] in [1,30], when
    no template matches and the enrichment capability is unconfigured or its
    call fails, generate-personalized-itinerary returns an itinerary whose
    [daily_schedule] has exactly [duration_days] entries, each with its day
    number, a theme, morning, afternoon and evening slots, the three meals and
    an estimated cost filled in. *)
Theorem fallback_itinerary_complete (env : ItineraryEnv)
    (input : GenerateItineraryInput) (d : Destination)
    (rest : list Destination) :
  (1 <= duration_days input <= 30)%Z ->
  itineraryDestRows env = Returned (d :: rest) ->
  templateRows env = Returned [] ->
  degraded (itineraryAI env) ->
  exists resp,
    generatePersonalizedItinerary env input = Returned resp /\
    length (daily_schedule resp) = Z.to_nat (duration_days input) /\
    forall i, (i < Z.to_nat (duration_days input))%nat ->
      exists e, nth_error (daily_schedule resp) i = Some e /\
                populatedDay d i e.
Proof.
  intros Hn Hd Ht Hai.
  exists (fallbackItinerary d (duration_days input)).
  split; [apply (itinerary_falls_back env input d rest); assumption|].
  simpl. split.
  - rewrite length_map, length_seq. reflexivity.
  - intros i Hi. exists (fallbackDay d i). split.
    + rewrite nth_error_map, nth_error_seq.
      apply Nat.ltb_lt in Hi. rewrite Hi. reflexivity.
    + apply fallbackDay_populated.
Qed.

Lemma fallback_itinerary_complete_witness :
  exists resp,
    generatePersonalizedItinerary noTemplateEnv barcelonaTrip = Returned resp /\
    length (daily_schedule resp) = Z.to_nat (duration_days barcelonaTrip) /\
    forall i, (i < Z.to_nat (duration_days barcelonaTrip))%nat ->
      exists e, nth_error (daily_schedule resp) i = Some e /\
                populatedDay barcelona i e.
Proof.
  apply (fallback_itinerary_complete noTemplateEnv barcelonaTrip barcelona []).
  - simpl. lia.
  - reflexivity.
  - reflexivity.
  - left. reflexivity.
Defined.

Lemma generateDestinationGuide_caught (ai : OpenAI string)
    (o : Overview) (k : string -> Overview) :
  exists o',
    tryCatch (aiContent <- generateDestinationGuide ai ;;
              Returned (Some (k aiContent)))
             (fun _ => Returned (Some o))
    = Returned (Some o').
Proof.
  unfold generateDestinationGuide.
  destruct (apiKeyConfigured ai); simpl; [|eauto].
  destruct (completion ai); simpl; eauto.
Qed.

(** get-destination-guide answers whatever state the enrichment client is
    in, once its four reads are answered. *)
Lemma guide_returns (env : GuideEnv) (input : GetDestinationGuideInput) :
  lookupsSucceed (CallGuide env input) ->
  exists resp, getDestinationGuide env input = Returned resp.
Proof.
  intros [[d [rest Hd]] [Hg [Ha Hr]]].
  unfold getDestinationGuide. cbv zeta. rewrite Hd.
  destruct (guideRows env) as [guides|]; [|discriminate].
  destruct (attractionRows env) as [pois|]; [|discriminate].
  destruct (restaurantRows env) as [rs|]; [|discriminate].
  cbn [bind].
  set (sections := orList (guide_sections input)
                          ["OVERVIEW"; "THINGS_TO_DO"; "DINING"]).
  destruct (includes sections "THINGS_TO_DO"); cbn [bind];
    destruct (includes sections "DINING"); cbn [bind];
    destruct (includes sections "OVERVIEW"); cbn [bind];
    try (eexists; reflexivity);
    match goal with
    | |- context [if ?b then _ else _] => destruct b
    end;
    try (eexists; reflexivity);
    match goal with
    | |- context [tryCatch (bind (generateDestinationGuide ?ai) ?f) ?h] =>
        destruct (generateDestinationGuide_caught ai
                    (overviewOf d (findGuide guides "OVERVIEW"))
                    (fun aiContent =>
                       {| introduction := aiContent;
                          why_visit :=
                            why_visit (overviewOf d (findGuide guides "OVERVIEW"));
                          quick_facts :=
                            quick_facts
                              (overviewOf d (findGuide guides "OVERVIEW"));
                          local_culture :=
                            local_culture
                              (overviewOf d (findGuide guides "OVERVIEW")) |}))
          as [o' Ho']
    end;
    rewrite Ho'; cbn [bind]; eexists; reflexivity.
Qed.

(** What the client's answer does to a guide: nothing but the introduction
    of the overview differs from the repository's guide. *)
Lemma guide_against_repository (env : GuideEnv)
    (input : GetDestinationGuideInput) (resp : DestinationGuideResponse) :
  getDestinationGuide env input = Returned resp ->
  exists base,
    repositoryGuide env input = Returned base /\
    forgetIntroduction resp = forgetIntroduction base /\
    option_map introduction (overview resp)
    = option_map (fun o => enrichedIntroduction (guideAI env) (introduction o))
                 (overview base).
Proof.
  unfold repositoryGuide, getDestinationGuide, enrichedIntroduction,
    needsEnrichment. cbv zeta.
  cbn [withGuideAI guideDestRows guideRows attractionRows restaurantRows
       guideAI].
  set (sections := orList (guide_sections input)
                          ["OVERVIEW"; "THINGS_TO_DO"; "DINING"]).
  destruct (guideDestRows env) as [[|d rest]|]; cbn [bind]; try discriminate.
  destruct (guideRows env) as [guides|]; cbn [bind]; [|discriminate].
  set (o := overviewOf d (findGuide guides "OVERVIEW")).
  destruct (includes sections "THINGS_TO_DO");
    [destruct (attractionRows env) as [pois|]; cbn [bind]; [|discriminate]|];
    cbn [bind];
    (destruct (includes sections "DINING");
     [destruct (restaurantRows env) as [rs|]; cbn [bind]; [|discriminate]|];
     cbn [bind]);
    (destruct (includes sections "OVERVIEW");
     [|intros H; injection H as <-; eexists; split; [reflexivity|];
       split; reflexivity]);
    (destruct ((introduction o =? "")%string
               || (jsLength (introduction o) <? 100)%nat) eqn:En;
     [|cbn [bind]; intros H; injection H as <-; eexists;
       split; [reflexivity|]; cbn [overview option_map];
       rewrite En; split; reflexivity]);
    change (generateDestinationGuide providerDown)
      with (@Threw string "Failed to generate AI content");
    cbn [bind tryCatch];
    (destruct (generateDestinationGuide (guideAI env)) as [text|];
     cbn [bind tryCatch]; intros H; injection H as <-; eexists;
     (split; [reflexivity|]); cbn [overview option_map introduction];
     rewrite En; split; reflexivity).
Qed.

Lemma enriched_when_degraded (ai : OpenAI string) (text : string) :
  textDegraded ai -> enrichedIntroduction ai text = degradedIntroduction ai text.
Proof.
  unfold enrichedIntroduction, degradedIntroduction, generateDestinationGuide.
  intros [H|[H|H]]; rewrite H; destruct (needsEnrichment text);
    try reflexivity; destruct (apiKeyConfigured ai); reflexivity.
Qed.

(** C4 (as amended): for the tools that have a deterministic tier
    (get-destination-guide, generate-personalized-itinerary with no template on
    file, recommend-destinations), once the request is well-formed and the
    reads are answered, an enrichment capability that is unconfigured, whose
    call fails, or that returns no content (for the two JSON tools also:
    content that does not parse) never reaches the caller as an error.  The
    dispatcher returns a success payload: the deterministic itinerary for the
    itinerary tool, the unpersonalised ranking for the recommender, and for
    the guide the repository's guide, in which an introduction that needs
    enrichment is replaced by the client's notice. *)
Theorem enrichment_failure_absorbed (call : ToolCall) :
  hasDeterministicTier call = true ->
  lookupsSucceed call ->
  enrichmentDegraded call ->
  isError (callTool call) = false /\
  servedDeterministically call (callTool call).
Proof.
  destruct call as [env args|env args|env args|env args]; simpl;
    intros Htier Hl Hai; try discriminate.
  - destruct (guide_returns env args Hl) as [resp Hr].
    destruct (guide_against_repository env args resp Hr)
      as [base [Hb [Hf Hi]]].
    rewrite Hr. simpl. split; [reflexivity|].
    exists resp, base. repeat split; try assumption.
    rewrite Hi. destruct (overview base) as [o|]; [|reflexivity].
    cbn [option_map]. rewrite (enriched_when_degraded _ _ Hai). reflexivity.
  - destruct Hl as [Hn [[d [rest Hd]] Ht]].
    rewrite (itinerary_falls_back env args d rest Hn Hd Ht Hai). simpl.
    split; [reflexivity|].
    intros d' rest' Hd'. rewrite Hd in Hd'. injection Hd' as <- _.
    reflexivity.
  - destruct Hl as [Hp [Hc Hn]].
    destruct (prefRows env) as [prefs|] eqn:Ep; [|discriminate].
    destruct (candidateRows env) as [rows|] eqn:Ec; [|discriminate].
    assert (Hidle : personalizerIdle (personalizer env))
      by (apply degraded_personalizerIdle; exact Hai).
    destruct (recommendDestinations_returns env args prefs rows _ Ep Ec Hn
                (idle_personalizedOf env args prefs rows Hidle))
      as [resp [Hr Hrec]].
    rewrite Hr. simpl. split; [reflexivity|].
    intros prefs' rows' Hp' Hc'.
    injection Hp' as <-. injection Hc' as <-.
    exists resp. split; [reflexivity|].
    rewrite Hrec. destruct (candidatesOf args rows) eqn:Ef; [|reflexivity].
    rewrite (topDestinationsOf_nil args prefs rows Hn Ef). reflexivity.
Qed.

Lemma enrichment_failure_absorbed_witness :
  (exists resp,
      callTool (CallGuide terseGuideEnv overviewRequest)
      = {| result_content := GuidePayload resp; isError := false |} /\
      option_map introduction (overview resp)
      = Some "AI content generation is not available. Please configure OpenAI API key.") /\
  isError (callTool (CallGuide terseGuideEnv overviewRequest)) = false /\
  servedDeterministically (CallGuide terseGuideEnv overviewRequest)
    (callTool (CallGuide terseGuideEnv overviewRequest)).
Proof.
  split; [eexists; split; reflexivity|].
  apply (enrichment_failure_absorbed (CallGuide terseGuideEnv overviewRequest)).
  - reflexivity.
  - simpl. split; [exists colon, []; reflexivity|].
    repeat split; reflexivity.
  - simpl. left. reflexivity.
Defined.

(** C4 (as stated) fails in two places.  generate-travel-inspiration has no
    tier below the generative one: with no API key configured the dispatcher
    answers with the error envelope.  And recommend-destinations formats the
    client's answer outside its [try]: an answer that parses but is not an
    array, or an array that holds a [null], ends the call with a
    [TypeError]. *)
Lemma enrichment_failure_surfaces :
  (lookupsSucceed (CallInspiration inspirationEnv inspirationRequest) /\
   enrichmentDegraded (CallInspiration inspirationEnv inspirationRequest) /\
   generateTravelInspiration inspirationEnv inspirationRequest
   = Threw "OpenAI not configured" /\
   callTool (CallInspiration inspirationEnv inspirationRequest)
   = {| result_content :=
          ErrorEnvelope "OpenAI not configured" "generate-travel-inspiration";
        isError := true |}) /\
  (lookupsSucceed (CallRecommend shapelessEnv beachInput) /\
   callTool (CallRecommend shapelessEnv beachInput)
   = {| result_content :=
          ErrorEnvelope "personalizedDestinations.map is not a function"
                        "recommend-destinations";
        isError := true |}) /\
  (lookupsSucceed (CallRecommend nullEntryEnv beachInput) /\
   callTool (CallRecommend nullEntryEnv beachInput)
   = {| result_content :=
          ErrorEnvelope
            "Cannot read properties of null (reading 'destination_type')"
            "recommend-destinations";
        isError := true |}).
Proof.
  split; [|split].
  - split; [reflexivity|]. split; [left; reflexivity|].
    split; reflexivity.
  - split; [repeat split; try reflexivity; vm_compute; discriminate|].
    vm_compute. reflexivity.
  - split; [repeat split; try reflexivity; vm_compute; discriminate|].
    vm_compute. reflexivity.
Qed.

(** Every failing state of the enrichment client surfaces there. *)
Lemma inspiration_has_no_fallback (env : InspirationEnv)
    (input : GenerateInspirationInput) :
  degraded (inspirationAI env) ->
  isError (callTool (CallInspiration env input)) = true.
Proof.
  intros Hai. simpl. unfold generateTravelInspiration, generateInspirationContent.
  destruct Hai as [H|[H|[H|H]]]; rewrite H; simpl; try reflexivity;
    destruct (apiKeyConfigured (inspirationAI env)); reflexivity.
Qed.

(** ** Best-effort writes *)

(** The recommendation-log insert is absorbed. *)
Lemma log_insert_failure_absorbed (env : RecommendEnv)
    (input : RecommendDestinationsInput) (message : string) :
  recommendDestinations (withLogInsert env (Threw message)) input
  = recommendDestinations (withLogInsert env (Returned tt)) input.
Proof.
  unfold recommendDestinations, withLogInsert, tryCatch.
  destruct (truthyStr (passenger_id input)); reflexivity.
Qed.

(** The generated-template insert is absorbed. *)
Lemma template_insert_failure_absorbed (env : ItineraryEnv)
    (input : GenerateItineraryInput) (message : string) :
  generatePersonalizedItinerary (withTemplateInsert env (Threw message)) input
  = generatePersonalizedItinerary (withTemplateInsert env (Returned tt)) input.
Proof.
  unfold generatePersonalizedItinerary, withTemplateInsert, tryCatch.
  reflexivity.
Qed.

(** The usage-counter increment is not: its failure is the tool's failure. *)
Lemma usage_update_failure_propagates (env : ItineraryEnv)
    (input : GenerateItineraryInput) (d : Destination)
    (rest : list Destination) (template : ItineraryTemplate)
    (others : list ItineraryTemplate) (message : string) :
  (1 <= duration_days input <= 30)%Z ->
  itineraryDestRows env = Returned (d :: rest) ->
  templateRows env = Returned (template :: others) ->
  usageUpdate env = Threw message ->
  generatePersonalizedItinerary env input = Threw message.
Proof.
  intros Hn Hd Ht Hu. unfold generatePersonalizedItinerary. cbv zeta.
  rewrite (duration_accepted _ Hn), Hd. simpl. rewrite Ht. simpl. rewrite Hu. reflexivity.
Qed.

(** C7 is not met by the code: for Barcelona with a featured three-day
    template on file, when the [UPDATE] that counts the template's use fails,
    generate-personalized-itinerary throws and the dispatcher answers with the
    error envelope, although the same call with a working [UPDATE] returns the
    template's itinerary. *)
Theorem usage_count_failure_surfaces :
  generatePersonalizedItinerary updateFailsEnv barcelonaTrip
  = Threw "cannot execute UPDATE in a read-only transaction" /\
  isError (callTool (CallItinerary updateFailsEnv barcelonaTrip)) = true /\
  generatePersonalizedItinerary
    {| itineraryDestRows := itineraryDestRows updateFailsEnv;
       templateRows := templateRows updateFailsEnv;
       usageUpdate := Returned tt;
       itineraryAI := itineraryAI updateFailsEnv;
       templateInsert := templateInsert updateFailsEnv |} barcelonaTrip
  = Returned (templateItinerary barcelona 3 featuredTemplate).
Proof.
  repeat split; reflexivity.
Qed.

(** ** compare-destinations *)

Lemma includes_In (arr : list string) (x : string) :
  includes arr x = true <-> In x arr.
Proof.
  unfold includes. rewrite existsb_exists. split.
  - intros [y [Hy E]]. apply String.eqb_eq in E. subst. exact Hy.
  - intros H. exists x. split; [exact H|apply String.eqb_refl].
Qed.

Lemma filter_perm {A : Type} (f : A -> bool) (l l' : list A) :
  Permutation l l' -> Permutation (filter f l) (filter f l').
Proof.
  induction 1 as [|x l l' H IH|x y l|l l' l'' H1 IH1 H2 IH2]; simpl.
  - constructor.
  - destruct (f x); [apply perm_skip|]; exact IH.
  - destruct (f x), (f y); try reflexivity. apply perm_swap.
  - etransitivity; eassumption.
Qed.









(** Over two rows that have a cost, the cost block names the row whose cost
    string comes first in string order, and the first row when neither
    does. *)
Lemma costCriterion_two (x y : Destination) (cx cy : Numeric) :
  average_daily_cost_usd x = Some cx ->
  average_daily_cost_usd y = Some cy ->
  criterion (costCriterion [x; y]) = "Average Daily Cost" /\
  winner (costCriterion [x; y])
  = Some (if String.ltb (numericText cy) (numericText cx)
          then city y else city x).
Proof.
  intros Hx Hy. unfold costCriterion. cbn [fold_left].
  unfold costStep, costOf. rewrite Hx, Hy.
  cbn [orAmount belowMin lessThan].
  destruct (String.ltb (numericText cy) (numericText cx)); split; reflexivity.
Qed.

(** On the seeded table, in whatever order it is scanned, the cost row of
    Barcelona against Tokyo names Barcelona: "120.00" precedes "150.00" as a
    string, as 120 precedes 150 as a number. *)
Lemma compare_cost_seeded (env : CompareEnv) (table : list Destination) :
  destinationsTable env = Returned table ->
  Permutation seedDestinations table ->
  exists resp row,
    compareDestinations env costRequest = Returned resp /\
    criteria (comparison_matrix resp) = [row] /\
    criterion row = "Average Daily Cost" /\
    winner row = Some "Barcelona".
Proof.
  intros Ht Hperm.
  assert (Hsel : Permutation [barcelona; tokyo]
                   (filter (selectedBy ["barcelona"; "tokyo"]) table))
    by (apply (filter_perm (selectedBy ["barcelona"; "tokyo"])) in Hperm;
        exact Hperm).
  apply Permutation_length_2_inv in Hsel.
  unfold compareDestinations, lookupDestinations, costRequest. cbv zeta.
  cbn [destinations comparison_criteria orList length Nat.ltb Nat.leb orb].
  rewrite Ht. cbn [bind].
  change (map toLowerCase ["Barcelona"; "Tokyo"]) with ["barcelona"; "tokyo"].
  destruct Hsel as [-> | ->]; cbn [length Nat.ltb Nat.leb];
    change (includes ["COST"] "COST") with true;
    change (includes ["COST"] "WEATHER") with false;
    change (includes ["COST"] "ACTIVITIES") with false;
    change (includes ["COST"] "CULTURE") with false;
    change (includes ["COST"] "FAMILY_FRIENDLY") with false;
    cbv iota; unfold push; cbn [app];
    eexists; eexists; (split; [reflexivity|]); cbn [criteria comparison_matrix];
    (split; [reflexivity|]).
  - destruct (costCriterion_two barcelona tokyo (numeric 2 120) (numeric 2 150)
                eq_refl eq_refl) as [Hc Hw].
    split; [exact Hc|]. rewrite Hw. reflexivity.
  - destruct (costCriterion_two tokyo barcelona (numeric 2 150) (numeric 2 120)
                eq_refl eq_refl) as [Hc Hw].
    split; [exact Hc|]. rewrite Hw. reflexivity.
Qed.

(** C9 is not met by the code: the cost block compares the costs as the
    strings the driver delivers.  With Barcelona at 90.00 and Tokyo at 150.00
    a day, compare-destinations called with ["Barcelona","Tokyo"] and ["COST"]
    returns one criterion row whose winner is "Tokyo", the dearer of the two,
    in either scan order of the table, because "150.00" precedes "90.00" as
    a string; on the seeded costs (120.00 and 150.00), where the two orders
    agree, the winner is "Barcelona". *)
Theorem cost_winner_compares_strings :
  costText discountedBarcelona = "90.00" /\ costText tokyo = "150.00" /\
  toNumber (costOf discountedBarcelona) < toNumber (costOf tokyo) /\
  lessThan (costOf tokyo) (costOf discountedBarcelona) = true /\
  costWinnerOver [discountedBarcelona; tokyo] "Tokyo" /\
  costWinnerOver [tokyo; discountedBarcelona] "Tokyo" /\
  costWinnerOver seedDestinations "Barcelona".
Proof.
  split; [reflexivity|]. split; [reflexivity|].
  split; [vm_compute; reflexivity|]. split; [reflexivity|].
  split; [|split].
  - eexists. eexists. split; [vm_compute; reflexivity|].
    repeat split; reflexivity.
  - eexists. eexists. split; [vm_compute; reflexivity|].
    repeat split; reflexivity.
  - apply (compare_cost_seeded (tableEnv seedDestinations) seedDestinations).
    + reflexivity.
    + apply Permutation_refl.
Qed.

(* ================================================================== *)
(** * Further properties of the tools                                  *)
(* ================================================================== *)

(** ** compare-destinations: validation, rows and recommendation *)

(** X1: a comparison of fewer than 2 or more than 4 names is rejected with
    'Please provide 2-4 destinations to compare' before the table is read,
    whatever state the database is in. *)
Theorem compare_rejects_wrong_cardinality (env : CompareEnv)
    (input : CompareDestinationsInput) :
  (length (destinations input) < 2 \/ 4 < length (destinations input))%nat ->
  compareDestinations env input
  = Threw "Please provide 2-4 destinations to compare".
Proof.
  intros H. unfold compareDestinations. cbv zeta.
  assert (E : ((length (destinations input) <? 2)
               || (4 <? length (destinations input)))%nat = true).
  { apply orb_true_iff. destruct H; [left|right]; apply Nat.ltb_lt; lia. }
  rewrite E. reflexivity.
Qed.

Lemma compare_rejects_wrong_cardinality_witness :
  compareDestinations downEnv fiveCities
  = Threw "Please provide 2-4 destinations to compare".
Proof.
  apply (compare_rejects_wrong_cardinality downEnv fiveCities).
  right. simpl. lia.
Defined.

(** What a successful comparison is made of. *)
Lemma compare_returned (env : CompareEnv) (input : CompareDestinationsInput)
    (resp : CompareDestinationsResponse) :
  compareDestinations env input = Returned resp ->
  exists table first rest,
    destinationsTable env = Returned table /\
    comparedRows input table = first :: rest /\
    (2 <= length (destinations input) <= 4)%nat /\
    (length (destinations input) <= length (first :: rest))%nat /\
    matrix_destinations (comparison_matrix resp) = map city (first :: rest) /\
    criteria (comparison_matrix resp)
    = criteriaFor (requestedCriteria input) (currentMonth env) (first :: rest) /\
    best_for_budget (recommendation resp) = city (budgetDest first rest) /\
    best_for_weather (recommendation resp) = city first /\
    best_for_culture (recommendation resp)
    = city (match find isCultural (first :: rest) with
            | Some d => d
            | None => first
            end).
Proof.
  unfold compareDestinations, lookupDestinations, comparedRows,
    requestedCriteria, criteriaFor. cbv zeta.
  destruct ((length (destinations input) <? 2)
            || (4 <? length (destinations input)))%nat eqn:E1;
    [discriminate|].
  apply orb_false_iff in E1. destruct E1 as [Ea Eb].
  apply Nat.ltb_ge in Ea. apply Nat.ltb_ge in Eb.
  destruct (destinationsTable env) as [table|]; [|discriminate].
  cbn [bind].
  set (dests := filter (selectedBy (map toLowerCase (destinations input)))
                       table).
  destruct (length dests <? length (destinations input))%nat eqn:E2;
    [discriminate|].
  apply Nat.ltb_ge in E2.
  destruct dests as [|first rest] eqn:Ed; [discriminate|].
  intros H. injection H as <-.
  exists table, first, rest. cbn [comparison_matrix recommendation
    matrix_destinations criteria best_for_budget best_for_weather
    best_for_culture].
  repeat split; try assumption; try lia.
  set (requested := orList (comparison_criteria input)
                           ["COST"; "WEATHER"; "ACTIVITIES"; "CULTURE"]).
  destruct (includes requested "COST"), (includes requested "WEATHER"),
    (includes requested "ACTIVITIES"), (includes requested "CULTURE"),
    (includes requested "FAMILY_FRIENDLY"); reflexivity.
Qed.

Lemma budgetDest_in (rest : list Destination) (first : Destination) :
  In (budgetDest first rest) (first :: rest).
Proof.
  unfold budgetDest.
  change (fun min d => if lessThan (costOf d) (costOf min) then d else min)
    with cheaper.
  revert first. induction rest as [|d rest IH]; intros first; simpl.
  - left. reflexivity.
  - destruct (IH (cheaper first d)) as [Hin|Hin]; [|right; right; exact Hin].
    rewrite <- Hin. unfold cheaper.
    destruct (lessThan (costOf d) (costOf first)); [right|]; left; reflexivity.
Qed.

(** String order, as [<] applies it to two strings. *)
Lemma ascii_compare_refl (a : ascii) : Ascii.compare a a = Eq.
Proof. unfold Ascii.compare. apply N.compare_refl. Qed.

Lemma ascii_compare_lt_trans (a b c : ascii) :
  Ascii.compare a b = Lt -> Ascii.compare b c = Lt -> Ascii.compare a c = Lt.
Proof.
  unfold Ascii.compare. rewrite !N.compare_lt_iff. apply N.lt_trans.
Qed.

Lemma string_compare_lt_trans (s1 s2 s3 : string) :
  String.compare s1 s2 = Lt -> String.compare s2 s3 = Lt ->
  String.compare s1 s3 = Lt.
Proof.
  revert s2 s3.
  induction s1 as [|a s1 IH]; intros [|b s2] [|c s3]; simpl;
    try discriminate; try reflexivity.
  destruct (Ascii.compare a b) eqn:Eab; try discriminate;
    destruct (Ascii.compare b c) eqn:Ebc; try discriminate; intros H1 H2.
  - apply Ascii.compare_eq_iff in Eab. apply Ascii.compare_eq_iff in Ebc.
    subst. rewrite ascii_compare_refl. eapply IH; eassumption.
  - apply Ascii.compare_eq_iff in Eab. subst. rewrite Ebc. reflexivity.
  - apply Ascii.compare_eq_iff in Ebc. subst. rewrite Eab. reflexivity.
  - rewrite (ascii_compare_lt_trans a b c Eab Ebc). reflexivity.
Qed.

Lemma string_ltb_trans (s1 s2 s3 : string) :
  String.ltb s1 s2 = true -> String.ltb s2 s3 = true ->
  String.ltb s1 s3 = true.
Proof.
  unfold String.ltb.
  destruct (String.compare s1 s2) eqn:E1; try discriminate.
  destruct (String.compare s2 s3) eqn:E2; try discriminate.
  intros _ _. rewrite (string_compare_lt_trans s1 s2 s3 E1 E2). reflexivity.
Qed.

Lemma string_ltb_irrefl (s : string) : String.ltb s s = false.
Proof.
  unfold String.ltb.
  assert (E : String.compare s s = Eq).
  { induction s as [|a s IH]; simpl; [reflexivity|].
    rewrite ascii_compare_refl. exact IH. }
  rewrite E. reflexivity.
Qed.

Lemma lessThan_priced (a b : Destination) :
  priced a -> priced b ->
  lessThan (costOf a) (costOf b) = String.ltb (costText a) (costText b).
Proof.
  unfold priced, costOf, costText.
  destruct (average_daily_cost_usd a); [|contradiction].
  destruct (average_daily_cost_usd b); [|contradiction].
  reflexivity.
Qed.

(** Over rows that all have a cost, the [reduce] ends on a row whose cost
    string no other row's cost string precedes. *)
Lemma budgetDest_least (rest : list Destination) (first : Destination) :
  Forall priced (first :: rest) ->
  Forall (fun d => String.ltb (costText d) (costText (budgetDest first rest))
                   = false) (first :: rest).
Proof.
  unfold budgetDest.
  change (fun min d => if lessThan (costOf d) (costOf min) then d else min)
    with cheaper.
  assert (G : forall processed m,
             Forall priced rest -> priced m -> Forall priced processed ->
             Forall (fun d => String.ltb (costText d) (costText m) = false)
                    processed ->
             Forall (fun d => String.ltb (costText d)
                                (costText (fold_left cheaper rest m)) = false)
                    (processed ++ rest)%list).
  { induction rest as [|d rest IH]; intros processed m Hrest Hm Hp Hall.
    - simpl. rewrite app_nil_r. exact Hall.
    - inversion Hrest as [|? ? Hd Hrest']; subst.
      replace (processed ++ d :: rest)%list
        with ((processed ++ [d]) ++ rest)%list
        by (rewrite <- app_assoc; reflexivity).
      cbn [fold_left]. unfold cheaper at 2.
      rewrite (lessThan_priced d m Hd Hm).
      destruct (String.ltb (costText d) (costText m)) eqn:E.
      + apply IH; try assumption.
        * apply Forall_app. split; [exact Hp|]. constructor; [exact Hd|].
          constructor.
        * apply Forall_app. split.
          -- eapply Forall_impl; [|exact Hall]. cbv beta. intros p Hpm.
             destruct (String.ltb (costText p) (costText d)) eqn:F;
               [|reflexivity].
             rewrite (string_ltb_trans _ _ _ F E) in Hpm. discriminate.
          -- constructor; [apply string_ltb_irrefl|constructor].
      + apply IH; try assumption.
        * apply Forall_app. split; [exact Hp|]. constructor; [exact Hd|].
          constructor.
        * apply Forall_app. split; [exact Hall|].
          constructor; [exact E|constructor]. }
  intros Hall. inversion Hall as [|? ? Hf Hrest]; subst.
  apply (G [first] first Hrest Hf).
  - constructor; [exact Hf|constructor].
  - constructor; [apply string_ltb_irrefl|constructor].
Qed.

Lemma costStep_fold (rest : list Destination) (vals : list (string * Text))
    (m : Destination) :
  exists vals',
    fold_left costStep rest (vals, Some (costOf m), city m)
    = (vals', Some (costOf (fold_left cheaper rest m)),
       city (fold_left cheaper rest m)).
Proof.
  revert vals m. induction rest as [|d rest IH]; intros vals m; simpl.
  - eauto.
  - unfold cheaper at 2 4.
    destruct (lessThan (costOf d) (costOf m)); apply IH.
Qed.

Lemma costCriterion_winner (first : Destination) (rest : list Destination) :
  criterion (costCriterion (first :: rest)) = "Average Daily Cost" /\
  winner (costCriterion (first :: rest)) = Some (city (budgetDest first rest)).
Proof.
  unfold costCriterion. cbn [fold_left].
  assert (E0 : costStep ([], None, "") first
               = (objSet [] (city first)
                         [Lit "$"; printAmount (costOf first); Lit "/day"],
                  Some (costOf first), city first)) by reflexivity.
  rewrite E0.
  destruct (costStep_fold rest
              (objSet [] (city first)
                      [Lit "$"; printAmount (costOf first); Lit "/day"])
              first) as [vals' E].
  unfold Text in *. rewrite E. split; reflexivity.
Qed.

(** X2: whenever a comparison that includes COST succeeds, its cost row names
    as winner the same destination as [best_for_budget], one of the compared
    rows.  When every compared row has a cost, the costs are compared as the
    strings the driver delivers: no compared row's cost string precedes the
    winner's in string order, which need not make it the cheapest. *)
Theorem cost_winner_is_best_for_budget (env : CompareEnv)
    (input : CompareDestinationsInput) (resp : CompareDestinationsResponse) :
  compareDestinations env input = Returned resp ->
  includes (requestedCriteria input) "COST" = true ->
  exists row table d,
    In row (criteria (comparison_matrix resp)) /\
    criterion row = "Average Daily Cost" /\
    winner row = Some (best_for_budget (recommendation resp)) /\
    destinationsTable env = Returned table /\
    In d (comparedRows input table) /\
    city d = best_for_budget (recommendation resp) /\
    (Forall priced (comparedRows input table) ->
     Forall (fun d' => String.ltb (costText d') (costText d) = false)
            (comparedRows input table)).
Proof.
  intros Hr Hc.
  destruct (compare_returned env input resp Hr)
    as [table [first [rest [Ht [Hrows [_ [_ [_ [Hcrit [Hb _]]]]]]]]]].
  destruct (costCriterion_winner first rest) as [Hn Hw].
  pose proof (budgetDest_in rest first) as Hin.
  exists (costCriterion (first :: rest)), table, (budgetDest first rest).
  rewrite Hcrit, Hb, Hrows. unfold criteriaFor. rewrite Hc.
  repeat split; try assumption; [left; reflexivity|].
  apply budgetDest_least.
Qed.

Lemma cost_winner_is_best_for_budget_witness :
  exists resp,
    compareDestinations seedEnv threeCities = Returned resp /\
    map costText (comparedRows threeCities seedDestinations)
    = ["150.00"; "200.00"; "80.00"] /\
    best_for_budget (recommendation resp) = "Tokyo" /\
    exists row table d,
      In row (criteria (comparison_matrix resp)) /\
      criterion row = "Average Daily Cost" /\
      winner row = Some (best_for_budget (recommendation resp)) /\
      destinationsTable seedEnv = Returned table /\
      In d (comparedRows threeCities table) /\
      city d = best_for_budget (recommendation resp) /\
      (Forall priced (comparedRows threeCities table) ->
       Forall (fun d' => String.ltb (costText d') (costText d) = false)
              (comparedRows threeCities table)).
Proof.
  eexists. split; [reflexivity|]. split; [reflexivity|].
  split; [reflexivity|].
  apply (cost_winner_is_best_for_budget seedEnv threeCities).
  - reflexivity.
  - reflexivity.
Defined.

Lemma costCriterion_title (dests : list Destination) :
  criterion (costCriterion dests) = "Average Daily Cost".
Proof.
  unfold costCriterion.
  destruct (fold_left costStep dests ([], None, "")) as [[v m] w]. reflexivity.
Qed.

Lemma activitiesCriterion_title (dests : list Destination) :
  criterion (activitiesCriterion dests) = "Popular Activities".
Proof.
  unfold activitiesCriterion.
  destruct (fold_left activityStep dests ([], 0%nat, "")) as [[v m] w].
  reflexivity.
Qed.

(** X3: a successful comparison has one row per known criterion that was
    requested, always in the order COST, WEATHER, ACTIVITIES, CULTURE,
    FAMILY_FRIENDLY, whatever the order or repetition in the request; a
    criterion the tool does not know (FOOD, which the schema admits) gives no
    row. *)
Theorem criteria_rows_in_fixed_order (env : CompareEnv)
    (input : CompareDestinationsInput) (resp : CompareDestinationsResponse) :
  compareDestinations env input = Returned resp ->
  map criterion (criteria (comparison_matrix resp))
  = expectedTitles (requestedCriteria input).
Proof.
  intros Hr.
  destruct (compare_returned env input resp Hr)
    as [table [first [rest [_ [_ [_ [_ [_ [Hcrit _]]]]]]]]].
  rewrite Hcrit. unfold criteriaFor, expectedTitles, criterionTitles.
  cbn [filter fst snd].
  destruct (includes (requestedCriteria input) "COST"),
    (includes (requestedCriteria input) "WEATHER"),
    (includes (requestedCriteria input) "ACTIVITIES"),
    (includes (requestedCriteria input) "CULTURE"),
    (includes (requestedCriteria input) "FAMILY_FRIENDLY");
    cbn [map app];
    rewrite ?costCriterion_title, ?activitiesCriterion_title; reflexivity.
Qed.

Lemma criteria_rows_in_fixed_order_witness :
  exists resp,
    compareDestinations seedEnv threeCities = Returned resp /\
    map criterion (criteria (comparison_matrix resp))
    = ["Average Daily Cost"; "Family-Friendly"].
Proof.
  eexists. split; [reflexivity|].
  apply (criteria_rows_in_fixed_order seedEnv threeCities).
  reflexivity.
Defined.

Lemma activityStep_fold (rest processed : list Destination)
    (vals : list (string * Text)) (mx : nat) (w : string) :
  activityInvariant processed mx w ->
  exists vals' mx' w',
    fold_left activityStep rest (vals, mx, w) = (vals', mx', w') /\
    activityInvariant (processed ++ rest)%list mx' w'.
Proof.
  revert processed vals mx w.
  induction rest as [|d rest IH]; intros processed vals mx w Hinv; simpl.
  - rewrite app_nil_r. eauto.
  - fold (activityCount d).
    replace (processed ++ d :: rest)%list with ((processed ++ [d]) ++ rest)%list
      by (rewrite <- app_assoc; reflexivity).
    destruct (mx <? activityCount d)%nat eqn:E; apply IH.
    + apply Nat.ltb_lt in E. right. split; [lia|].
      exists d. split; [apply in_or_app; right; left; reflexivity|].
      split; [reflexivity|]. split; [reflexivity|].
      apply Forall_app. split; [|constructor; [lia|constructor]].
      destruct Hinv as [[-> [_ Hall]]|[_ [d0 [_ [_ [_ Hall]]]]]];
        eapply Forall_impl; try exact Hall; simpl; intros; lia.
    + apply Nat.ltb_ge in E.
      destruct Hinv as [[-> [-> Hall]]|[Hpos [d0 [Hin [Hw [Hc Hall]]]]]].
      * left. split; [reflexivity|]. split; [reflexivity|].
        apply Forall_app. split; [exact Hall|]. constructor; [lia|constructor].
      * right. split; [exact Hpos|]. exists d0.
        split; [apply in_or_app; left; exact Hin|].
        split; [exact Hw|]. split; [exact Hc|].
        apply Forall_app. split; [exact Hall|]. constructor; [lia|constructor].
Qed.

Lemma activitiesCriterion_winner (dests : list Destination) :
  exists w, winner (activitiesCriterion dests) = Some w /\
            exists mx, activityInvariant dests mx w.
Proof.
  unfold activitiesCriterion.
  destruct (activityStep_fold dests [] [] 0%nat "") as [vals' [mx' [w' [E Hinv]]]].
  - left. repeat split. constructor.
  - unfold Text in *. rewrite E. simpl. exists w'. split; [reflexivity|].
    exists mx'. exact Hinv.
Qed.

(** X4: whenever a comparison that includes ACTIVITIES succeeds, its
    activities row names as winner a compared destination with the largest
    number of popular activities; when none of the compared destinations has
    any, the winner is the empty string. *)
Theorem activities_winner_has_most (env : CompareEnv)
    (input : CompareDestinationsInput) (resp : CompareDestinationsResponse) :
  compareDestinations env input = Returned resp ->
  includes (requestedCriteria input) "ACTIVITIES" = true ->
  exists row table,
    In row (criteria (comparison_matrix resp)) /\
    criterion row = "Popular Activities" /\
    destinationsTable env = Returned table /\
    ((winner row = Some "" /\
      Forall (fun d => activityCount d = 0%nat) (comparedRows input table)) \/
     (exists d, In d (comparedRows input table) /\
                winner row = Some (city d) /\
                (0 < activityCount d)%nat /\
                Forall (fun d' => (activityCount d' <= activityCount d)%nat)
                       (comparedRows input table))).
Proof.
  intros Hr Hc.
  destruct (compare_returned env input resp Hr)
    as [table [first [rest [Ht [Hrows [_ [_ [_ [Hcrit _]]]]]]]]].
  destruct (activitiesCriterion_winner (first :: rest)) as [w [Hw [mx Hinv]]].
  exists (activitiesCriterion (first :: rest)), table.
  rewrite Hcrit, Hrows. unfold criteriaFor. rewrite Hc.
  split; [apply in_or_app; right; apply in_or_app; right; apply in_or_app;
          left; left; reflexivity|].
  split; [apply activitiesCriterion_title|]. split; [exact Ht|].
  rewrite Hw.
  destruct Hinv as [[_ [-> Hall]]|[Hpos [d [Hin [-> [<- Hall]]]]]].
  - left. split; [reflexivity|assumption].
  - right. exists d. repeat split; auto.
Qed.

Lemma activities_winner_has_most_witness :
  exists resp',
      compareDestinations seedEnv fiveActivities = Returned resp' /\
      exists row table,
        In row (criteria (comparison_matrix resp')) /\
        criterion row = "Popular Activities" /\
        destinationsTable seedEnv = Returned table /\
        ((winner row = Some "" /\
          Forall (fun d => activityCount d = 0%nat)
                 (comparedRows fiveActivities table)) \/
         (exists d, In d (comparedRows fiveActivities table) /\
                    winner row = Some (city d) /\
                    (0 < activityCount d)%nat /\
                    Forall (fun d' => (activityCount d' <= activityCount d)%nat)
                           (comparedRows fiveActivities table))).
Proof.
  eexists. split; [reflexivity|].
  apply (activities_winner_has_most seedEnv fiveActivities).
  - reflexivity.
  - reflexivity.
Defined.

(** X5: every destination a successful comparison recommends (for budget,
    for weather, for culture) is one of the destinations it lists in its
    matrix, and the matrix lists at least as many destinations as were
    requested. *)
Theorem recommended_among_compared (env : CompareEnv)
    (input : CompareDestinationsInput) (resp : CompareDestinationsResponse) :
  compareDestinations env input = Returned resp ->
  let listed := matrix_destinations (comparison_matrix resp) in
  In (best_for_budget (recommendation resp)) listed /\
  In (best_for_weather (recommendation resp)) listed /\
  In (best_for_culture (recommendation resp)) listed /\
  (length (destinations input) <= length listed)%nat.
Proof.
  intros Hr listed. unfold listed.
  destruct (compare_returned env input resp Hr)
    as [table [first [rest [_ [_ [_ [Hlen [-> [_ [-> [-> ->]]]]]]]]]]].
  pose proof (budgetDest_in rest first) as Hin.
  repeat split.
  - apply in_map. exact Hin.
  - left. reflexivity.
  - apply in_map. destruct (find isCultural (first :: rest)) as [d|] eqn:E.
    + apply find_some in E. tauto.
    + left. reflexivity.
  - rewrite length_map. exact Hlen.
Qed.

Lemma recommended_among_compared_witness :
  exists resp,
    compareDestinations seedEnv threeCities = Returned resp /\
    In (best_for_budget (recommendation resp))
       (matrix_destinations (comparison_matrix resp)) /\
    In (best_for_weather (recommendation resp))
       (matrix_destinations (comparison_matrix resp)) /\
    In (best_for_culture (recommendation resp))
       (matrix_destinations (comparison_matrix resp)) /\
    (length (destinations threeCities)
     <= length (matrix_destinations (comparison_matrix resp)))%nat.
Proof.
  eexists. split; [reflexivity|].
  apply (recommended_among_compared seedEnv threeCities).
  reflexivity.
Defined.

(** ** generate-personalized-itinerary: validation and the three tiers *)

(** X6: a duration below 1 or above 30 days is rejected with 'Duration must
    be between 1 and 30 days' before anything is read or generated, whatever
    state the database and the enrichment client are in. *)
Theorem itinerary_rejects_duration (env : ItineraryEnv)
    (input : GenerateItineraryInput) :
  (duration_days input < 1 \/ 30 < duration_days input)%Z ->
  generatePersonalizedItinerary env input
  = Threw "Duration must be between 1 and 30 days".
Proof.
  intros H. unfold generatePersonalizedItinerary. cbv zeta.
  assert (E : ((duration_days input <? 1) || (duration_days input >? 30))%Z
              = true).
  { apply orb_true_iff. destruct H; [left; apply Z.ltb_lt; lia|right].
    rewrite Z.gtb_ltb. apply Z.ltb_lt. lia. }
  rewrite E. reflexivity.
Qed.

Lemma itinerary_rejects_duration_witness :
  generatePersonalizedItinerary unreachableItineraryEnv zeroDayTrip
  = Threw "Duration must be between 1 and 30 days".
Proof.
  apply (itinerary_rejects_duration unreachableItineraryEnv zeroDayTrip).
  left. simpl. lia.
Defined.

(** X7: with a valid duration, a destination lookup that finds no active row
    ends the call with 'Destination "<name>" not found', naming the
    destination as it was requested; no template is looked up and nothing is
    generated. *)
Theorem itinerary_destination_not_found (env : ItineraryEnv)
    (input : GenerateItineraryInput) :
  (1 <= duration_days input <= 30)%Z ->
  itineraryDestRows env = Returned [] ->
  generatePersonalizedItinerary env input
  = Threw (notFoundMessage (itinerary_destination input)).
Proof.
  intros Hn Hd. unfold generatePersonalizedItinerary. cbv zeta.
  rewrite (duration_accepted _ Hn), Hd. reflexivity.
Qed.

Lemma itinerary_destination_not_found_witness :
  generatePersonalizedItinerary noRowItineraryEnv atlantisTrip
  = Threw (String.append "Destination " (String.append dquote
             (String.append "Atlantis" (String.append dquote " not found")))).
Proof.
  apply (itinerary_destination_not_found noRowItineraryEnv atlantisTrip).
  - simpl. lia.
  - reflexivity.
Defined.

(** X8: when a featured template matches and its use is counted, the tool
    answers with the template: its schedule and packing list as stored, its
    trip style, the requested number of days; the enrichment client is not
    consulted and nothing is inserted, whatever their state. *)
Theorem template_hit_serves_template (env : ItineraryEnv)
    (input : GenerateItineraryInput) (d : Destination)
    (rest : list Destination) (template : ItineraryTemplate)
    (others : list ItineraryTemplate) :
  (1 <= duration_days input <= 30)%Z ->
  itineraryDestRows env = Returned (d :: rest) ->
  templateRows env = Returned (template :: others) ->
  usageUpdate env = Returned tt ->
  exists resp,
    generatePersonalizedItinerary env input = Returned resp /\
    daily_schedule resp = orList (template_daily_schedule template) [] /\
    packing_list resp = orList (template_packing_list template) [] /\
    header_travel_style (itinerary resp) = trip_style template /\
    total_days (itinerary resp) = duration_days input /\
    header_destination (itinerary resp) = city d.
Proof.
  intros Hn Hd Ht Hu.
  exists (templateItinerary d (duration_days input) template).
  split; [|repeat split; reflexivity].
  unfold generatePersonalizedItinerary. cbv zeta.
  rewrite (duration_accepted _ Hn), Hd. cbn [bind]. rewrite Ht. cbn [bind].
  rewrite Hu. reflexivity.
Qed.

Lemma template_hit_serves_template_witness :
  exists resp,
    generatePersonalizedItinerary templateEnv barcelonaTrip = Returned resp /\
    daily_schedule resp = orList (template_daily_schedule featuredTemplate) [] /\
    packing_list resp = orList (template_packing_list featuredTemplate) [] /\
    header_travel_style (itinerary resp) = trip_style featuredTemplate /\
    total_days (itinerary resp) = duration_days barcelonaTrip /\
    header_destination (itinerary resp) = city barcelona.
Proof.
  apply (template_hit_serves_template templateEnv barcelonaTrip barcelona []
           featuredTemplate []).
  - simpl. lia.
  - reflexivity.
  - reflexivity.
  - reflexivity.
Defined.

(** X9: whichever tier serves an itinerary (template, generated, fallback),
    the destination it names is the city of the repository row, never a name
    taken from the template or from the generated content. *)
Theorem itinerary_names_repository_city (env : ItineraryEnv)
    (input : GenerateItineraryInput) (d : Destination)
    (rest : list Destination) (resp : ItineraryResponse) :
  itineraryDestRows env = Returned (d :: rest) ->
  generatePersonalizedItinerary env input = Returned resp ->
  header_destination (itinerary resp) = city d.
Proof.
  intros Hd. unfold generatePersonalizedItinerary. cbv zeta.
  destruct ((duration_days input <? 1) || (duration_days input >? 30))%Z;
    [discriminate|].
  rewrite Hd. cbn [bind].
  destruct (templateRows env) as [[|template others]|]; cbn [bind];
    [| |discriminate].
  - destruct (generateItinerary (itineraryAI env)) as [ai|]; cbn [bind tryCatch].
    + destruct (templateInsert env); cbn [bind tryCatch];
        intros H; injection H as <-; reflexivity.
    + intros H; injection H as <-; reflexivity.
  - destruct (usageUpdate env); cbn [bind]; [|discriminate].
    intros H; injection H as <-; reflexivity.
Qed.

Lemma itinerary_names_repository_city_witness :
  header_destination (itinerary (fallbackItinerary barcelona 3)) = "Barcelona".
Proof.
  apply (itinerary_names_repository_city noTemplateEnv barcelonaTrip
           barcelona []).
  - reflexivity.
  - reflexivity.
Defined.

Lemma fallback_nth (d : Destination) (n : Z) (i : nat) (e : DaySchedule) :
  nth_error (daily_schedule (fallbackItinerary d n)) i = Some e ->
  e = fallbackDay d i /\ (i < Z.to_nat n)%nat.
Proof.
  simpl. rewrite nth_error_map, nth_error_seq.
  destruct (i <? Z.to_nat n)%nat eqn:E; simpl; [|discriminate].
  intros H. injection H as <-. apply Nat.ltb_lt in E. split; [reflexivity|lia].
Qed.

(** X10: the fallback itinerary lays the destination's famous attractions
    out in order, two per day (morning, then afternoon), and does not cycle:
    a day that lies beyond the end of the list gets 'Explore local area' and
    'Local cuisine exploration'. *)
Theorem fallback_attractions_in_order (d : Destination) (n : Z)
    (fa : list string) :
  famous_attractions d = Some fa ->
  (forall k a, nth_error fa k = Some a -> a <> "" -> (k < 2 * Z.to_nat n)%nat ->
     exists e,
       nth_error (daily_schedule (fallbackItinerary d n)) (k / 2) = Some e /\
       (if Nat.even k then activity (morning e) else activity (afternoon e))
       = a) /\
  (forall i e,
     nth_error (daily_schedule (fallbackItinerary d n)) i = Some e ->
     (length fa <= 2 * i)%nat ->
     activity (morning e) = "Explore local area" /\
     activity (afternoon e) = "Local cuisine exploration").
Proof.
  intros Hfa. split.
  - intros k a Hk Ha Hlt.
    exists (fallbackDay d (k / 2)). split.
    + unfold fallbackItinerary. cbn [daily_schedule].
      rewrite nth_error_map, nth_error_seq.
      assert (E : (k / 2 <? Z.to_nat n)%nat = true).
      { apply Nat.ltb_lt. apply Nat.Div0.div_lt_upper_bound. lia. }
      rewrite E. reflexivity.
    + pose proof (Nat.div_mod_eq k 2) as Hdm.
      destruct (Nat.even k) eqn:Ev.
      * apply Nat.even_spec in Ev. destruct Ev as [m ->].
        replace (2 * m / 2)%nat with m
          by (rewrite Nat.mul_comm, Nat.div_mul; lia).
        unfold fallbackDay. cbn [morning activity]. unfold attractionAt.
        rewrite Hfa.
        replace (m * 2)%nat with (2 * m)%nat by lia. rewrite Hk.
        unfold orStr. apply String.eqb_neq in Ha. rewrite Ha. reflexivity.
      * assert (Hodd : Nat.odd k = true)
          by (rewrite <- Nat.negb_even, Ev; reflexivity).
        apply Nat.odd_spec in Hodd. destruct Hodd as [m ->].
        replace ((2 * m + 1) / 2)%nat with m.
        2:{ apply (Nat.div_unique (2 * m + 1) 2 m 1); lia. }
        unfold fallbackDay. cbn [afternoon activity]. unfold attractionAt.
        rewrite Hfa.
        replace (m * 2 + 1)%nat with (2 * m + 1)%nat by lia. rewrite Hk.
        unfold orStr. apply String.eqb_neq in Ha. rewrite Ha. reflexivity.
  - intros i e He Hlen.
    destruct (fallback_nth d n i e He) as [-> _].
    unfold fallbackDay. cbn [morning afternoon activity].
    unfold attractionAt. rewrite Hfa.
    assert (E1 : nth_error fa (i * 2) = None)
      by (apply nth_error_None; lia).
    assert (E2 : nth_error fa (i * 2 + 1) = None)
      by (apply nth_error_None; lia).
    rewrite E1, E2. split; reflexivity.
Qed.

Lemma fallback_attractions_in_order_witness :
  (forall k a,
     nth_error ["Sagrada Familia"; "Park Güell"; "Las Ramblas";
                "Gothic Quarter"; "Casa Batlló"] k = Some a ->
     a <> "" -> (k < 2 * Z.to_nat 4)%nat ->
     exists e,
       nth_error (daily_schedule (fallbackItinerary barcelona 4)) (k / 2)
       = Some e /\
       (if Nat.even k then activity (morning e) else activity (afternoon e))
       = a) /\
  (forall i e,
     nth_error (daily_schedule (fallbackItinerary barcelona 4)) i = Some e ->
     (5 <= 2 * i)%nat ->
     activity (morning e) = "Explore local area" /\
     activity (afternoon e) = "Local cuisine exploration").
Proof.
  apply (fallback_attractions_in_order barcelona 4
           ["Sagrada Familia"; "Park Güell"; "Las Ramblas"; "Gothic Quarter";
            "Casa Batlló"]).
  reflexivity.
Defined.





(** ** get-destination-guide: sections, attractions and the generated text *)

Lemma overview_eta (o : Overview) : withIntroduction o (introduction o) = o.
Proof. destruct o. reflexivity. Qed.

Lemma generateDestinationGuide_intro (ai : OpenAI string) (o : Overview) :
  exists text,
    tryCatch (aiContent <- generateDestinationGuide ai ;;
              Returned (Some {| introduction := aiContent;
                                why_visit := why_visit o;
                                quick_facts := quick_facts o;
                                local_culture := local_culture o |}))
             (fun _ => Returned (Some o))
    = Returned (Some (withIntroduction o text)).
Proof.
  unfold generateDestinationGuide.
  destruct (apiKeyConfigured ai); simpl; [|eexists; reflexivity].
  destruct (completion ai); simpl; try (eexists; reflexivity).
  exists (introduction o). rewrite overview_eta. reflexivity.
Qed.

(** What a returned guide is made of. *)
Lemma guide_returned (env : GuideEnv) (input : GetDestinationGuideInput)
    (resp : DestinationGuideResponse) :
  getDestinationGuide env input = Returned resp ->
  exists d rest guides,
    guideDestRows env = Returned (d :: rest) /\
    guideRows env = Returned guides /\
    (if includes (guideSectionsOf input) "OVERVIEW"
     then exists text,
         overview resp
         = Some (withIntroduction
                   (overviewOf d (findGuide guides "OVERVIEW")) text)
     else overview resp = None) /\
    (if includes (guideSectionsOf input) "THINGS_TO_DO"
     then exists pois,
         attractionRows env = Returned pois /\
         things_to_do resp
         = Some {| must_see := firstn 5 (map attractionOf pois);
                   recommended_activities := orList (popular_activities d) [];
                   hidden_gems :=
                     map attraction_name (skipn 5 (map attractionOf pois));
                   day_trips := [] |}
     else things_to_do resp = None) /\
    (if includes (guideSectionsOf input) "DINING"
     then exists pois,
         restaurantRows env = Returned pois /\
         option_map recommended_restaurants (dining resp)
         = Some (map restaurantOf pois)
     else dining resp = None) /\
    isSome (practical_info resp)
    = includes (guideSectionsOf input) "PRACTICAL_INFO".
Proof.
  unfold getDestinationGuide, guideSectionsOf. cbv zeta.
  set (sections := orList (guide_sections input)
                          ["OVERVIEW"; "THINGS_TO_DO"; "DINING"]).
  destruct (guideDestRows env) as [[|d rest]|]; cbn [bind]; try discriminate.
  destruct (guideRows env) as [guides|]; cbn [bind]; [|discriminate].
  destruct (includes sections "THINGS_TO_DO");
    [destruct (attractionRows env) as [pois|]; cbn [bind]; [|discriminate]|];
    cbn [bind];
    (destruct (includes sections "DINING");
     [destruct (restaurantRows env) as [rs|]; cbn [bind]; [|discriminate]|];
     cbn [bind]);
    (destruct (includes sections "OVERVIEW");
     [match goal with
      | |- context [if ?b then _ else _] => destruct b
      end;
      [destruct (generateDestinationGuide_intro (guideAI env)
                   (overviewOf d (findGuide guides "OVERVIEW")))
         as [text Htext];
       rewrite Htext|]|];
     cbn [bind];
     destruct (includes sections "PRACTICAL_INFO");
     intros H; injection H as <-;
     exists d, rest, guides;
     cbn [overview things_to_do dining practical_info isSome option_map
          recommended_restaurants];
     repeat split;
     try (eexists; split; reflexivity);
     try (exists text; reflexivity);
     try (exists (introduction (overviewOf d (findGuide guides "OVERVIEW")));
          rewrite overview_eta; reflexivity)).
Qed.

(** X12: a returned guide contains exactly the sections that were requested
    (OVERVIEW, THINGS_TO_DO and DINING when none are named): each of overview,
    things_to_do, dining and practical_info is present if and only if its
    section name is in the request. *)
Theorem guide_sections_as_requested (env : GuideEnv)
    (input : GetDestinationGuideInput) (resp : DestinationGuideResponse) :
  getDestinationGuide env input = Returned resp ->
  isSome (overview resp) = includes (guideSectionsOf input) "OVERVIEW" /\
  isSome (things_to_do resp) = includes (guideSectionsOf input) "THINGS_TO_DO" /\
  isSome (dining resp) = includes (guideSectionsOf input) "DINING" /\
  isSome (practical_info resp)
  = includes (guideSectionsOf input) "PRACTICAL_INFO".
Proof.
  intros Hr.
  destruct (guide_returned env input resp Hr)
    as [d [rest [guides [_ [_ [Ho [Ht [Hd Hp]]]]]]]].
  repeat split.
  - destruct (includes (guideSectionsOf input) "OVERVIEW");
      [destruct Ho as [text ->]|rewrite Ho]; reflexivity.
  - destruct (includes (guideSectionsOf input) "THINGS_TO_DO");
      [destruct Ht as [pois [_ ->]]|rewrite Ht]; reflexivity.
  - destruct (includes (guideSectionsOf input) "DINING");
      [destruct Hd as [pois [_ Hd]]; destruct (dining resp);
       [reflexivity|discriminate]
      |rewrite Hd; reflexivity].
  - exact Hp.
Qed.

Lemma guide_sections_as_requested_witness :
  exists resp,
    getDestinationGuide barcelonaGuideEnv thingsOnly = Returned resp /\
    isSome (overview resp) = false /\
    isSome (things_to_do resp) = true /\
    isSome (dining resp) = false /\
    isSome (practical_info resp) = true.
Proof.
  eexists. split; [reflexivity|].
  apply (guide_sections_as_requested barcelonaGuideEnv thingsOnly).
  reflexivity.
Defined.

(** X13: the things-to-do section shows at most 5 must-see attractions, the
    first rows of the attraction query, and names every further row as a
    hidden gem: together, in order, they are exactly the attractions found. *)
Theorem attractions_split_at_five (env : GuideEnv)
    (input : GetDestinationGuideInput) (resp : DestinationGuideResponse)
    (t : ThingsToDo) :
  getDestinationGuide env input = Returned resp ->
  things_to_do resp = Some t ->
  exists pois,
    attractionRows env = Returned pois /\
    (length (must_see t) <= 5)%nat /\
    app (map attraction_name (must_see t)) (hidden_gems t) = map poi_name pois /\
    (length pois <= 5 -> hidden_gems t = [])%nat.
Proof.
  intros Hr Ht.
  destruct (guide_returned env input resp Hr)
    as [d [rest [guides [_ [_ [_ [Hthings _]]]]]]].
  destruct (includes (guideSectionsOf input) "THINGS_TO_DO");
    [|rewrite Hthings in Ht; discriminate].
  destruct Hthings as [pois [Hp Hthings]].
  assert (Et : t = {| must_see := firstn 5 (map attractionOf pois);
                      recommended_activities :=
                        orList (popular_activities d) [];
                      hidden_gems :=
                        map attraction_name (skipn 5 (map attractionOf pois));
                      day_trips := [] |}) by congruence.
  rewrite Et. exists pois. cbn [must_see hidden_gems].
  split; [exact Hp|]. split; [apply firstn_le_length|]. split.
  - rewrite <- map_app, firstn_skipn, map_map. reflexivity.
  - intros Hlen. rewrite skipn_all2; [reflexivity|].
    rewrite length_map. exact Hlen.
Qed.

Lemma attractions_split_at_five_witness :
  exists resp t,
    getDestinationGuide barcelonaGuideEnv thingsOnly = Returned resp /\
    things_to_do resp = Some t /\
    hidden_gems t = ["Montjuïc"; "Barceloneta"] /\
    exists pois,
      attractionRows barcelonaGuideEnv = Returned pois /\
      (length (must_see t) <= 5)%nat /\
      app (map attraction_name (must_see t)) (hidden_gems t)
      = map poi_name pois /\
      (length pois <= 5 -> hidden_gems t = [])%nat.
Proof.
  eexists. eexists. split; [reflexivity|]. split; [reflexivity|].
  split; [reflexivity|].
  eapply (attractions_split_at_five barcelonaGuideEnv thingsOnly);
    reflexivity.
Defined.

(** X14: the enrichment client can change nothing of a guide but the
    introduction of its overview: with any two clients, the tool fails or
    succeeds alike, and the two guides agree on every field except that
    introduction; the quick facts, attractions, dining and practical
    information are the repository's. *)
Theorem guide_ai_touches_only_introduction (env : GuideEnv)
    (ai : OpenAI string) (input : GetDestinationGuideInput) :
  outcomeMap forgetIntroduction (getDestinationGuide (withGuideAI env ai) input)
  = outcomeMap forgetIntroduction (getDestinationGuide env input).
Proof.
  unfold getDestinationGuide. cbv zeta.
  cbn [withGuideAI guideDestRows guideRows attractionRows restaurantRows
       guideAI].
  set (sections := orList (guide_sections input)
                          ["OVERVIEW"; "THINGS_TO_DO"; "DINING"]).
  destruct (guideDestRows env) as [[|d rest]|]; cbn [bind]; try reflexivity.
  destruct (guideRows env) as [guides|]; cbn [bind]; [|reflexivity].
  destruct (includes sections "THINGS_TO_DO");
    [destruct (attractionRows env) as [pois|]; cbn [bind]; [|reflexivity]|];
    cbn [bind];
    (destruct (includes sections "DINING");
     [destruct (restaurantRows env) as [rs|]; cbn [bind]; [|reflexivity]|];
     cbn [bind]);
    (destruct (includes sections "OVERVIEW"); [|reflexivity]);
    match goal with
    | |- context [if ?b then _ else _] => destruct b
    end; try reflexivity;
    destruct (generateDestinationGuide_intro ai
                (overviewOf d (findGuide guides "OVERVIEW"))) as [t1 E1];
    destruct (generateDestinationGuide_intro (guideAI env)
                (overviewOf d (findGuide guides "OVERVIEW"))) as [t2 E2];
    rewrite E1, E2; reflexivity.
Qed.

Lemma long_introduction (d : Destination) (og : option DestinationGuide)
    (s : string) :
  long_description d = Some s ->
  (100 <= jsLength s)%nat ->
  ((introduction (overviewOf d og) =? "")%string
   || (jsLength (introduction (overviewOf d og)) <? 100)%nat) = false.
Proof.
  intros Hl Hlen. unfold overviewOf. cbn [introduction]. rewrite Hl.
  assert (E : (s =? "")%string = false).
  { destruct s; [simpl in Hlen; lia|reflexivity]. }
  assert (Eo : forall x, orStr (Some s) x = s)
    by (intros x; unfold orStr; rewrite E; reflexivity).
  rewrite !Eo, E.
  apply Nat.ltb_ge in Hlen. rewrite Hlen. reflexivity.
Qed.

(** X15: when the destination's long description has a [length] of at least
    100 (UTF-16 code units, as JavaScript counts them), the guide is built
    from the repository alone: the enrichment client is not consulted, so the
    answer is the same for every client. *)
Theorem long_description_skips_enrichment (env : GuideEnv)
    (ai : OpenAI string) (input : GetDestinationGuideInput) (d : Destination)
    (rest : list Destination) (s : string) :
  guideDestRows env = Returned (d :: rest) ->
  long_description d = Some s ->
  (100 <= jsLength s)%nat ->
  getDestinationGuide (withGuideAI env ai) input
  = getDestinationGuide env input.
Proof.
  intros Hd Hl Hlen. unfold getDestinationGuide. cbv zeta.
  cbn [withGuideAI guideDestRows guideRows attractionRows restaurantRows
       guideAI].
  set (sections := orList (guide_sections input)
                          ["OVERVIEW"; "THINGS_TO_DO"; "DINING"]).
  rewrite Hd. cbn [bind].
  destruct (guideRows env) as [guides|]; cbn [bind]; [|reflexivity].
  destruct (includes sections "THINGS_TO_DO");
    [destruct (attractionRows env) as [pois|]; cbn [bind]; [|reflexivity]|];
    cbn [bind];
    (destruct (includes sections "DINING");
     [destruct (restaurantRows env) as [rs|]; cbn [bind]; [|reflexivity]|];
     cbn [bind]);
    (destruct (includes sections "OVERVIEW"); [|reflexivity]);
    rewrite (long_introduction d (findGuide guides "OVERVIEW") s Hl Hlen);
    reflexivity.
Qed.

Lemma long_description_skips_enrichment_witness :
  getDestinationGuide
    (withGuideAI barcelonaGuideEnv unconfigured)
    {| guide_destination := "Barcelona"; guide_sections := Some ["OVERVIEW"];
       guide_traveler_type := None; guide_duration_days := None |}
  = getDestinationGuide barcelonaGuideEnv
    {| guide_destination := "Barcelona"; guide_sections := Some ["OVERVIEW"];
       guide_traveler_type := None; guide_duration_days := None |}.
Proof.
  eapply (long_description_skips_enrichment barcelonaGuideEnv unconfigured _
            barcelona []).
  - reflexivity.
  - reflexivity.
  - vm_compute. repeat constructor.
Defined.

(** X16: the attraction query is made only for a request that includes
    THINGS_TO_DO and the restaurant query only for one that includes DINING:
    for any other request the answer is the same whatever those queries would
    return, a failure included. *)
Theorem unrequested_sections_not_queried (env : GuideEnv)
    (input : GetDestinationGuideInput) :
  (includes (guideSectionsOf input) "THINGS_TO_DO" = false ->
   forall o, getDestinationGuide (withAttractionRows env o) input
             = getDestinationGuide env input) /\
  (includes (guideSectionsOf input) "DINING" = false ->
   forall o, getDestinationGuide (withRestaurantRows env o) input
             = getDestinationGuide env input).
Proof.
  unfold guideSectionsOf, getDestinationGuide. cbv zeta.
  split; intros H o;
    cbn [withAttractionRows withRestaurantRows guideDestRows guideRows
         attractionRows restaurantRows guideAI];
    rewrite H; reflexivity.
Qed.

Lemma unrequested_sections_not_queried_witness :
  includes (guideSectionsOf thingsOnly) "DINING" = false /\
  getDestinationGuide
    (withRestaurantRows barcelonaGuideEnv (Threw "connection terminated"))
    thingsOnly
  = getDestinationGuide barcelonaGuideEnv thingsOnly.
Proof.
  split; [reflexivity|].
  apply (proj2 (unrequested_sections_not_queried barcelonaGuideEnv thingsOnly)).
  reflexivity.
Defined.

(** ** recommend-destinations: ranks, reasons and themes *)

(** What a returned recommendation response is made of. *)
Lemma recommend_returned (env : RecommendEnv)
    (input : RecommendDestinationsInput) (resp : RecommendationsResponse) :
  recommendDestinations env input = Returned resp ->
  exists rows shown,
    candidateQuery env (requestContext input) (requestedCount input)
    = Returned rows /\
    recommendations resp
    = mapi (formatRecommendation (requestContext input)) 0 shown /\
    inspiration_themes resp = slice0 3 (themesOf rows).
Proof.
  unfold recommendDestinations, requestedCount, requestContext, themesOf.
  cbv zeta.
  set (count := match recommendation_count input with
                | Some n => n
                | None => 5%Z
                end).
  set (ctx := match context input with
              | Some c => c
              | None => emptyContext
              end).
  destruct (truthyStr (passenger_id input));
    [destruct (prefRows env) as [prefs|]; cbn [bind]; [|discriminate]|];
    cbn [bind];
    (destruct (candidateQuery env ctx count) as [[|c0 rows]|]; cbn [bind];
     [intros H; injection H as <-; exists [], []; repeat split; reflexivity
     | |discriminate]);
    match goal with
    | |- context [formatAnswered ?c ?a] =>
        destruct (formatAnswered c a) as [recs|] eqn:Ef
    end; cbn [bind]; try discriminate;
    destruct (formatAnswered_returned _ _ _ Ef) as [shown [_ ->]];
    try (destruct (logInsert env); cbn [bind tryCatch]);
    intros H; injection H as <-; exists (c0 :: rows), shown;
    (split; [reflexivity|]); split; reflexivity.
Qed.

Lemma map_rank_mapi (ctx : RecommendContext) (i : nat) (l : list Scored) :
  map rank (mapi (formatRecommendation ctx) i l)
  = map (fun k => (Z.of_nat k + 1)%Z) (seq i (length l)).
Proof.
  revert i. induction l as [|x r IH]; intros i; simpl; [reflexivity|].
  rewrite IH. reflexivity.
Qed.

(** X17: the recommendations of a response are ranked 1, 2, 3, ... in the
    order they are returned, whatever the enrichment client answered. *)
Theorem ranks_are_consecutive (env : RecommendEnv)
    (input : RecommendDestinationsInput) (resp : RecommendationsResponse) :
  recommendDestinations env input = Returned resp ->
  map rank (recommendations resp)
  = map (fun k => (Z.of_nat k + 1)%Z)
        (seq 0 (length (recommendations resp))).
Proof.
  intros Hr.
  destruct (recommend_returned env input resp Hr) as [rows [shown [_ [-> _]]]].
  rewrite map_rank_mapi, length_mapi. reflexivity.
Qed.

Lemma ranks_are_consecutive_witness :
  exists resp,
    recommendDestinations talkativeEnv beachInput = Returned resp /\
    map rank (recommendations resp) = [1%Z; 2%Z; 3%Z].
Proof.
  eexists. split; [reflexivity|].
  apply (ranks_are_consecutive talkativeEnv beachInput). reflexivity.
Defined.

Lemma matchReasonsOf_nonempty (ctx : RecommendContext) (d : Destination) :
  matchReasonsOf ctx d <> [].
Proof.
  unfold matchReasonsOf. cbv zeta.
  match goal with
  | |- match ?l with [] => _ | _ => _ end <> [] => destruct l; discriminate
  end.
Qed.

(** X18: every recommendation of a response carries at least one and at most
    three match reasons, whatever the enrichment client answered. *)
Theorem every_recommendation_has_reasons (env : RecommendEnv)
    (input : RecommendDestinationsInput) (resp : RecommendationsResponse) :
  recommendDestinations env input = Returned resp ->
  Forall (fun r => (1 <= length (match_reasons r) <= 3)%nat)
         (recommendations resp).
Proof.
  intros Hr.
  destruct (recommend_returned env input resp Hr) as [rows [shown [_ [-> _]]]].
  apply Forall_mapi. intros j x. split; [|apply match_reasons_at_most_3].
  unfold formatRecommendation. cbn [match_reasons].
  rewrite slice0_firstn by lia.
  pose proof (matchReasonsOf_nonempty (requestContext input) (dest (row x))).
  destruct (matchReasonsOf (requestContext input) (dest (row x)));
    [contradiction|simpl; lia].
Qed.

Lemma every_recommendation_has_reasons_witness :
  exists resp,
    recommendDestinations talkativeEnv beachInput = Returned resp /\
    Forall (fun r => (1 <= length (match_reasons r) <= 3)%nat)
           (recommendations resp).
Proof.
  eexists. split; [reflexivity|].
  apply (every_recommendation_has_reasons talkativeEnv beachInput).
  reflexivity.
Defined.






Lemma firstn_In {A : Type} (n : nat) (l : list A) (x : A) :
  In x (firstn n l) -> In x l.
Proof.
  revert n. induction l as [|y r IH]; intros [|n]; simpl; try tauto.
  intros [H|H]; [left; exact H|right; eapply IH; exact H].
Qed.



(** X20: an anonymous request that names neither interests nor a travel
    month scores every candidate at 50 plus the popularity and infrastructure
    terms, hence between 50 and 70 for a rating within [0,5]: nothing but
    personalisation and season can lift a score above 70. *)
Theorem anonymous_score_at_most_70 (ctx : RecommendContext) (c : Candidate) :
  ctx_interests ctx = None ->
  travel_month ctx = None ->
  ratingInRange c ->
  finalScore None ctx c == 50 + popularityBonus c + infrastructureBonus c /\
  50 <= finalScore None ctx c /\ finalScore None ctx c <= 70.
Proof.
  intros Hi Hm Hr. unfold finalScore, scoreCandidate. cbn [match_score].
  assert (E : rawMatchScore None ctx c
              == 50 + popularityBonus c + infrastructureBonus c).
  { rewrite rawMatchScore_sum.
    unfold profileMatchCount, budgetBonus, bucketBonus, contextMatchCount,
      seasonBonus. rewrite Hi, Hm. unfold numOfNat. simpl. ring. }
  pose proof (popularityBonus_bounds c) as [P1 P2].
  assert (I : 0 <= infrastructureBonus c /\ infrastructureBonus c <= 10).
  { unfold infrastructureBonus, ratingInRange in *.
    destruct (tourist_infrastructure_rating (dest c)); [|split; lra].
    destruct Hr. split; lra. }
  destruct I as [I1 I2].
  destruct (Q.min_spec (rawMatchScore None ctx c) 100) as [[L M]|[L M]];
    rewrite M; repeat split; lra.
Qed.

Lemma anonymous_score_at_most_70_witness :
  let c := {| dest := dubai; popularity_score := 9 |} in
  finalScore None emptyContext c
  == 50 + popularityBonus c + infrastructureBonus c /\
  50 <= finalScore None emptyContext c /\ finalScore None emptyContext c <= 70.
Proof.
  apply (anonymous_score_at_most_70 emptyContext
           {| dest := dubai; popularity_score := 9 |}).
  - reflexivity.
  - reflexivity.
  - vm_compute. split; discriminate.
Defined.

(** ** The three ways the request's interests are compared with the tags *)

Lemma lower_lower_ascii (c : ascii) : lowerAscii (lowerAscii c) = lowerAscii c.
Proof. destruct c as [[] [] [] [] [] [] [] []]; reflexivity. Qed.

Lemma toLowerCase_idempotent (s : string) :
  toLowerCase (toLowerCase s) = toLowerCase s.
Proof.
  unfold toLowerCase.
  induction s as [|c r IH]; cbn [mapString]; [reflexivity|].
  rewrite lower_lower_ascii. f_equal. exact IH.
Qed.

Lemma filter_none {A : Type} (f : A -> bool) (l : list A) :
  (forall x, In x l -> f x = false) -> filter f l = [].
Proof.
  induction l as [|x r IH]; intros H; simpl; [reflexivity|].
  rewrite (H x (or_introl eq_refl)). apply IH.
  intros y Hy. apply H. right. exact Hy.
Qed.

(** The rows the candidate query returns satisfy its [WHERE] clause. *)
Lemma candidateQuery_selects (env : RecommendEnv) (ctx : RecommendContext)
    (count : Z) (rows : list Candidate) (c : Candidate) :
  candidateQuery env ctx count = Returned rows ->
  In c rows ->
  isCandidate ctx c = true /\
  exists all, candidateRows env = Returned all /\ In c all.
Proof.
  unfold candidateQuery.
  destruct (candidateRows env) as [all|]; cbn [bind]; [|discriminate].
  destruct (count * 2 <? 0)%Z; [discriminate|].
  intros H Hin. injection H as <-.
  apply firstn_In in Hin. apply filter_In in Hin. destruct Hin as [Hin Hsel].
  split; [exact Hsel|]. exists all. split; [reflexivity|exact Hin].
Qed.

(** X21: the query matches the request's interests against the tags letter
    for letter, the score upper-cases the interest, and the reason lower-cases
    the tag and looks for it among the interests.  So for interests written
    in ASCII capitals, as the tags are seeded, every candidate the query returns
    earns the request-interest bonus for at least one tag, and none is given
    the reason 'Matches your interest in ...'. *)
Theorem capital_interests_score_without_reason (env : RecommendEnv)
    (input : RecommendDestinationsInput) (rows : list Candidate)
    (ints : list string) (c : Candidate) :
  candidateQuery env (requestContext input) (requestedCount input)
  = Returned rows ->
  ctx_interests (requestContext input) = Some ints ->
  ints <> [] ->
  Forall inCapitals ints ->
  In c rows ->
  (0 < contextMatchCount (requestContext input) c)%nat /\
  Forall (fun r => isInterestReason r = false)
         (matchReasonsOf (requestContext input) (dest c)).
Proof.
  intros Hq Hi Hne Hcap Hin.
  destruct (candidateQuery_selects env _ _ rows c Hq Hin) as [Hsel _].
  set (ctx := requestContext input) in *.
  unfold isCandidate in Hsel. cbv zeta in Hsel. rewrite Hi in Hsel.
  destruct ints as [|i0 others]; [contradiction|].
  apply andb_true_iff in Hsel. destruct Hsel as [Hsel _].
  apply andb_true_iff in Hsel. destruct Hsel as [_ Hov].
  destruct (destination_type (dest c)) as [types|] eqn:Et; [|discriminate].
  unfold overlaps in Hov. apply existsb_exists in Hov.
  destruct Hov as [t [Ht Hinc]]. apply includes_In in Hinc.
  rewrite Forall_forall in Hcap.
  split.
  - unfold contextMatchCount, destTypesOf. rewrite Hi, Et. cbn [orList].
    unfold contextMatch.
    assert (Hf : In t (filter
                         (fun type =>
                            existsb (fun interest =>
                                       String.eqb (toUpperCase interest) type)
                                    (i0 :: others)) types)).
    { apply filter_In. split; [exact Ht|]. apply existsb_exists.
      exists t. split; [exact Hinc|].
      destruct (Hcap t Hinc) as [_ [-> _]]. apply String.eqb_refl. }
    destruct (filter _ types); [contradiction|simpl; lia].
  - unfold matchReasonsOf. cbv zeta. rewrite Hi, Et.
    assert (E : filter (fun type => includes (i0 :: others) (toLowerCase type))
                       types = []).
    { apply filter_none. intros type _.
      destruct (includes (i0 :: others) (toLowerCase type)) eqn:F;
        [|reflexivity].
      apply includes_In in F. destruct (Hcap _ F) as [_ [_ Hl]].
      exfalso. apply Hl. apply toLowerCase_idempotent. }
    rewrite E.
    destruct (travel_month ctx) as [m|];
      [destruct (negb (m =? "")%string
                 && match bestMonths (dest c) with
                    | Some ms => includes ms m
                    | None => false
                    end)|];
      destruct (atLeast (safety_rating (dest c)) 4);
      destruct (geNum (tourist_infrastructure_rating (dest c)) 4.5);
      unfold push; cbn [app]; repeat constructor.
Qed.

Lemma capital_interests_score_without_reason_witness :
  let c := {| dest := barcelona; popularity_score := 0 |} in
  candidateQuery (recommendEnv seedCandidates unconfigured)
                 (requestContext beachInput) (requestedCount beachInput)
  = Returned [ {| dest := dubai; popularity_score := 0 |}; c;
               {| dest := panamaCity; popularity_score := 0 |};
               {| dest := cartagena; popularity_score := 0 |} ] /\
  matchReasonsOf (requestContext beachInput) (dest c)
  = ["High safety rating"; "Excellent tourist infrastructure"] /\
  (0 < contextMatchCount (requestContext beachInput) c)%nat /\
  Forall (fun r => isInterestReason r = false)
         (matchReasonsOf (requestContext beachInput) (dest c)).
Proof.
  cbv zeta. split; [reflexivity|]. split; [reflexivity|].
  eapply (capital_interests_score_without_reason
            (recommendEnv seedCandidates unconfigured) beachInput _ ["BEACH"]).
  - reflexivity.
  - reflexivity.
  - discriminate.
  - repeat constructor. discriminate.
  - right. left. reflexivity.
Defined.

(** An interest in small letters is what the reason expects; the query then
    finds no row with the seeded tags. *)
Example small_letter_interest_finds_nothing :
  candidatesOf
    {| passenger_id := None;
       context := Some {| travel_month := None; budget_range := None;
                          ctx_interests := Some ["beach"];
                          previous_destinations := None |};
       recommendation_count := None |} seedCandidates = [].
Proof. reflexivity. Qed.

(** ** generate-travel-inspiration: images and reading time *)

(** What a returned inspiration piece is made of. *)
Lemma inspiration_returned (env : InspirationEnv)
    (input : GenerateInspirationInput) (resp : InspirationResponse) :
  generateTravelInspiration env input = Returned resp ->
  exists aiContent found,
    generateInspirationContent (inspirationAI env) = Returned aiContent /\
    content_title (content resp) = title aiContent /\
    meta_title (seo_metadata resp) = title aiContent /\
    images (content resp)
    = slice0 5 (filter (fun s => negb (String.eqb s "")) found) /\
    (truthyStr (target_destination input) = false -> found = []) /\
    estimated_read_time (content resp)
    = readTime (match word_count input with Some w => w | None => 500%Z end).
Proof.
  unfold generateTravelInspiration. cbv zeta.
  destruct (generateInspirationContent (inspirationAI env)) as [ai|];
    cbn [bind]; [|discriminate].
  destruct (truthyStr (target_destination input)).
  - destruct (imageRows env) as [[|d rest]|]; cbn [bind]; [| |discriminate].
    + destruct (contentInsert env); cbn [bind tryCatch];
        intros H; injection H as <-; exists ai, [];
        repeat split; try reflexivity; discriminate.
    + destruct (contentInsert env); cbn [bind tryCatch];
        intros H; injection H as <-;
        exists ai, (app (orList (gallery_images d) [])
                        (match hero_image_url d with
                         | Some h => [h]
                         | None => []
                         end));
        repeat split; try reflexivity; discriminate.
  - cbn [bind]. destruct (contentInsert env); cbn [bind tryCatch];
      intros H; injection H as <-; exists ai, [];
      repeat split; reflexivity.
Qed.

(** X22: an inspiration piece carries at most 5 images, none of them an
    empty string, and none at all when no target destination is named. *)
Theorem inspiration_images_capped (env : InspirationEnv)
    (input : GenerateInspirationInput) (resp : InspirationResponse) :
  generateTravelInspiration env input = Returned resp ->
  (length (images (content resp)) <= 5)%nat /\
  Forall (fun s => s <> "") (images (content resp)) /\
  (truthyStr (target_destination input) = false ->
   images (content resp) = []).
Proof.
  intros Hr.
  destruct (inspiration_returned env input resp Hr)
    as [ai [found [_ [_ [_ [-> [Hnone _]]]]]]].
  split; [apply (length_slice0 5); lia|]. split.
  - rewrite slice0_firstn by lia. apply Forall_forall. intros s Hs.
    apply firstn_In in Hs. apply filter_In in Hs. destruct Hs as [_ Hs].
    apply negb_true_iff in Hs. apply String.eqb_neq. exact Hs.
  - intros Ht. rewrite (Hnone Ht). reflexivity.
Qed.

(** X23: the estimated reading time is the word count (500 when absent)
    divided by 200 and rounded up: the least number of minutes that covers
    the text at 200 words a minute. *)
Theorem read_time_is_ceiling (env : InspirationEnv)
    (input : GenerateInspirationInput) (resp : InspirationResponse) :
  generateTravelInspiration env input = Returned resp ->
  let words := match word_count input with Some w => w | None => 500%Z end in
  let minutes := estimated_read_time (content resp) in
  (200 * (minutes - 1) < words <= 200 * minutes)%Z.
Proof.
  intros Hr words minutes. unfold minutes, words.
  destruct (inspiration_returned env input resp Hr)
    as [ai [found [_ [_ [_ [_ [_ ->]]]]]]].
  unfold readTime. Z.to_euclidean_division_equations. lia.
Qed.

Lemma inspiration_images_capped_witness :
  exists resp,
    generateTravelInspiration writingEnv inspirationRequest = Returned resp /\
    images (content resp)
    = ["https://images.unsplash.com/photo-1583422409516-2895a77efded"] /\
    (length (images (content resp)) <= 5)%nat /\
    Forall (fun s => s <> "") (images (content resp)) /\
    (truthyStr (target_destination inspirationRequest) = false ->
     images (content resp) = []).
Proof.
  eexists. split; [reflexivity|]. split; [reflexivity|].
  apply (inspiration_images_capped writingEnv inspirationRequest).
  reflexivity.
Defined.

Lemma read_time_is_ceiling_witness :
  exists resp,
    generateTravelInspiration writingEnv inspirationRequest = Returned resp /\
    estimated_read_time (content resp) = 3%Z /\
    (200 * (estimated_read_time (content resp) - 1) < 500
     <= 200 * estimated_read_time (content resp))%Z.
Proof.
  eexists. split; [reflexivity|]. split; [reflexivity|].
  apply (read_time_is_ceiling writingEnv inspirationRequest).
  reflexivity.
Defined.

(** ** get-things-to-do *)

(** What a returned list of things to do is made of. *)
Lemma things_returned (env : ThingsEnv) (input : GetThingsToDoInput)
    (resp : ThingsToDoResponse) :
  getThingsToDo env input = Returned resp ->
  exists d rest table,
    thingsDestRows env = Returned (d :: rest) /\
    poiTable env = Returned table /\
    things_recommendations resp
    = mapi (activityOf env (things_destination input)) 0
           (poiRowsFor d input table) /\
    curated_collections resp
    = curate (things_traveler_type input) (things_recommendations resp).
Proof.
  unfold getThingsToDo, poiRowsFor. cbv zeta.
  destruct (thingsDestRows env) as [[|d rest]|]; cbn [bind]; try discriminate.
  destruct (poiTable env) as [table|]; cbn [bind]; [|discriminate].
  intros H. injection H as <-. exists d, rest, table.
  repeat split; reflexivity.
Qed.

Lemma priceOf_checked (level : option string) :
  checkedPriceLevel level ->
  priceOf level = 15 \/ priceOf level = 35 \/ priceOf level = 75 \/
  priceOf level = 150.
Proof.
  unfold checkedPriceLevel. destruct level as [p|]; [|right; left; reflexivity].
  intros [<-|[<-|[<-|[<-|[<-|[]]]]]]; vm_compute; tauto.
Qed.

Lemma Forall_mapi_rows {A B : Type} (P : A -> Prop) (Q : B -> Prop)
    (f : nat -> A -> B) (i : nat) (l : list A) :
  (forall j x, P x -> Q (f j x)) -> Forall P l -> Forall Q (mapi f i l).
Proof.
  intros H Hl. revert i. induction Hl as [|x r Hx Hr IH]; intros i; simpl;
    constructor; auto.
Qed.

Lemma Forall_firstn_filter {A : Type} (P : A -> Prop) (f : A -> bool)
    (n : nat) (l : list A) :
  (forall x, In x l -> f x = true -> P x) -> Forall P (firstn n (filter f l)).
Proof.
  intros H. apply Forall_forall. intros x Hx.
  apply firstn_In in Hx. apply filter_In in Hx. destruct Hx. auto.
Qed.

(** X24: with the price levels of the table within the column's CHECK (or
    NULL), every activity returned is priced 15, 35, 75 or 150 per person,
    never 0: a POI without a price level counts as '$$' (35), and a FREE POI,
    whose table price 0 is taken for missing, is priced 35 as well. *)
Theorem activity_price_never_zero (env : ThingsEnv) (input : GetThingsToDoInput)
    (resp : ThingsToDoResponse) (table : list PoiRow) :
  getThingsToDo env input = Returned resp ->
  poiTable env = Returned table ->
  Forall (fun r => checkedPriceLevel (poi_price_level (poi r))) table ->
  Forall (fun a => price_per_person a = 15 \/ price_per_person a = 35 \/
                   price_per_person a = 75 \/ price_per_person a = 150)
         (things_recommendations resp) /\
  priceOf (Some "FREE") = 35 /\ priceOf None = 35.
Proof.
  intros Hr Ht Hc.
  destruct (things_returned env input resp Hr)
    as [d [rest [table' [_ [Ht' [-> _]]]]]].
  rewrite Ht in Ht'. injection Ht' as <-.
  split; [|split; reflexivity].
  apply (Forall_mapi_rows
           (fun r => checkedPriceLevel (poi_price_level (poi r)))).
  - intros j r Hr'. cbn [activityOf price_per_person].
    apply priceOf_checked. exact Hr'.
  - unfold poiRowsFor. apply Forall_firstn_filter.
    intros r Hin _. rewrite Forall_forall in Hc. apply Hc. exact Hin.
Qed.

Lemma activity_price_never_zero_witness :
  exists resp,
    getThingsToDo thingsEnv coupleOnBudget = Returned resp /\
    map activity_name (things_recommendations resp)
    = ["Sagrada Familia"; "Barceloneta Beach"; "La Boqueria"] /\
    Forall (fun a => price_per_person a = 15 \/ price_per_person a = 35 \/
                     price_per_person a = 75 \/ price_per_person a = 150)
           (things_recommendations resp) /\
    priceOf (Some "FREE") = 35 /\ priceOf None = 35.
Proof.
  eexists. split; [reflexivity|]. split; [reflexivity|].
  apply (activity_price_never_zero thingsEnv coupleOnBudget _ barcelonaPois).
  - reflexivity.
  - reflexivity.
  - unfold barcelonaPois. repeat constructor; simpl; tauto.
Defined.








(** X27: as long as the random source yields numbers in [0,1), every
    activity is reported with between 5 and 24 slots remaining. *)
Theorem slots_between_5_and_24 (env : ThingsEnv) (input : GetThingsToDoInput)
    (resp : ThingsToDoResponse) :
  getThingsToDo env input = Returned resp ->
  (forall i, 0 <= random env i /\ random env i < 1) ->
  Forall (fun a => (5 <= slots_remaining (availability a) <= 24)%Z)
         (things_recommendations resp).
Proof.
  intros Hr Hrand.
  destruct (things_returned env input resp Hr)
    as [d [rest [table [_ [_ [-> _]]]]]].
  apply Forall_mapi. intros j r.
  cbn [activityOf availability slots_remaining].
  destruct (Hrand j) as [H0 H1].
  assert (L : (0 <= Qfloor (random env j * 20))%Z).
  { rewrite <- (Qfloor_Z 0). apply Qfloor_resp_le.
    change (inject_Z 0) with 0. lra. }
  assert (U : (Qfloor (random env j * 20) < 20)%Z).
  { rewrite Zlt_Qlt. eapply Qle_lt_trans; [apply Qfloor_le|].
    change (inject_Z 20) with 20. lra. }
  lia.
Qed.

Lemma slots_between_5_and_24_witness :
  exists resp,
    getThingsToDo
      {| thingsDestRows := Returned [barcelona];
         poiTable := Returned barcelonaPois;
         tomorrow := "2026-01-02";
         random := fun i => 19 # 20 |} coupleOnBudget = Returned resp /\
    map (fun a => slots_remaining (availability a))
        (things_recommendations resp) = [24%Z; 24%Z; 24%Z] /\
    Forall (fun a => (5 <= slots_remaining (availability a) <= 24)%Z)
           (things_recommendations resp).
Proof.
  eexists. split; [reflexivity|]. split; [reflexivity|].
  apply (slots_between_5_and_24
           {| thingsDestRows := Returned [barcelona];
              poiTable := Returned barcelonaPois;
              tomorrow := "2026-01-02";
              random := fun i => 19 # 20 |} coupleOnBudget).
  - reflexivity.
  - intros i. simpl. split; [discriminate|reflexivity].
Defined.

Lemma pushCollection_good (names : list string) (collections : list Collection)
    (always : bool) (name : string) (picked : list Activity) :
  Forall (goodCollection names) collections ->
  (length picked <= 10)%nat ->
  incl (map activity_name picked) names ->
  (always = true -> name = "Perfect for Families") ->
  Forall (goodCollection names) (pushCollection collections always name picked)
  /\ (length (pushCollection collections always name picked)
      <= S (length collections))%nat.
Proof.
  intros Hc Hlen Hincl Hname. unfold pushCollection, push.
  destruct picked as [|a picked'].
  - destruct always.
    + split; [|rewrite length_app; simpl; lia].
      apply Forall_app. split; [exact Hc|]. constructor; [|constructor].
      unfold goodCollection. cbn [activities collection_name].
      split; [simpl; lia|]. split; [intros x []|]. intros _. auto.
    + split; [exact Hc|lia].
  - split; [|rewrite length_app; simpl; lia].
    apply Forall_app. split; [exact Hc|]. constructor; [|constructor].
    unfold goodCollection. cbn [activities collection_name].
    split; [rewrite length_map; exact Hlen|]. split; [exact Hincl|].
    discriminate.
Qed.

Lemma picked_good {A : Type} (f : A -> bool) (g : A -> string) (n : Z)
    (l : list A) :
  (0 <= n <= 10)%Z ->
  (length (slice0 n (filter f l)) <= 10)%nat /\
  incl (map g (slice0 n (filter f l))) (map g l).
Proof.
  intros Hn. split.
  - pose proof (length_slice0 n (filter f l)). lia.
  - rewrite slice0_firstn by lia. intros x Hx.
    apply in_map_iff in Hx. destruct Hx as [a [<- Ha]].
    apply firstn_In in Ha. apply filter_In in Ha. apply in_map. tauto.
Qed.

(** X28: get-things-to-do returns at most 5 curated collections; each lists
    at most 10 activity names, all of them names of activities in the same
    response, and none is empty except, possibly, 'Perfect for Families',
    which a family request always gets. *)
Theorem collections_drawn_from_activities (env : ThingsEnv)
    (input : GetThingsToDoInput) (resp : ThingsToDoResponse) :
  getThingsToDo env input = Returned resp ->
  (length (curated_collections resp) <= 5)%nat /\
  Forall (goodCollection (map activity_name (things_recommendations resp)))
         (curated_collections resp) /\
  (isOneOf (things_traveler_type input) "FAMILY" "FAMILIES" = true ->
   exists c, In c (curated_collections resp) /\
             collection_name c = "Perfect for Families").
Proof.
  intros Hr.
  destruct (things_returned env input resp Hr)
    as [d [rest [table [_ [_ [_ ->]]]]]].
  set (recs := things_recommendations resp).
  set (names := map activity_name recs).
  unfold curate. cbv zeta.
  set (c0 := @nil Collection).
  assert (G0 : Forall (goodCollection names) c0) by constructor.
  assert (N0 : (length c0 <= 0)%nat) by (simpl; lia).
  set (p1 := slice0 10 (filter (fun a => strIncludes (why_recommended a)
                                            "Must-see") recs)).
  destruct (picked_good (fun a => strIncludes (why_recommended a) "Must-see")
              activity_name 10 recs ltac:(lia)) as [L1 I1].
  destruct (pushCollection_good names c0 false "Top 10 Must-Do Experiences" p1
              G0 L1 I1 ltac:(discriminate)) as [G1 N1].
  set (c1 := pushCollection c0 false "Top 10 Must-Do Experiences" p1) in *.
  set (p2 := slice0 8 (filter (fun a => Qle_bool (price_per_person a) 20)
                              recs)).
  destruct (picked_good (fun a => Qle_bool (price_per_person a) 20)
              activity_name 8 recs ltac:(lia)) as [L2 I2].
  destruct (pushCollection_good names c1 false "Budget-Friendly Activities" p2
              G1 L2 I2 ltac:(discriminate)) as [G2 N2].
  set (c2 := pushCollection c1 false "Budget-Friendly Activities" p2) in *.
  set (p3 := slice0 8 (filter (fun a => negb (String.eqb (activity_category a)
                                                         "NIGHTLIFE")) recs)).
  destruct (picked_good (fun a => negb (String.eqb (activity_category a)
                                                   "NIGHTLIFE"))
              activity_name 8 recs ltac:(lia)) as [L3 I3].
  destruct (pushCollection_good names c2 true "Perfect for Families" p3
              G2 L3 I3 ltac:(reflexivity)) as [G3 N3].
  set (p4 := slice0 6 (filter (fun a => existsb romanticHighlight
                                                (highlights a)) recs)).
  destruct (picked_good (fun a => existsb romanticHighlight (highlights a))
              activity_name 6 recs ltac:(lia)) as [L4 I4].
  set (p5 := slice0 8 (filter (fun a => String.eqb (activity_category a)
                                                   "RESTAURANT") recs)).
  destruct (picked_good (fun a => String.eqb (activity_category a) "RESTAURANT")
              activity_name 8 recs ltac:(lia)) as [L5 I5].
  assert (Hfam : forall cs, In {| collection_name := "Perfect for Families";
                                  activities := map activity_name p3 |}
                               (pushCollection cs true "Perfect for Families"
                                               p3)).
  { intros cs. unfold pushCollection, push.
    destruct p3; apply in_or_app; right; left; reflexivity. }
  assert (Hkeep : forall cs always name picked c,
             In c cs -> In c (pushCollection cs always name picked)).
  { intros cs always name picked c Hin. unfold pushCollection, push.
    destruct picked; [destruct always|]; try exact Hin;
      apply in_or_app; left; exact Hin. }
  destruct (isOneOf (things_traveler_type input) "FAMILY" "FAMILIES").
  - set (c3 := pushCollection c2 true "Perfect for Families" p3) in *.
    destruct (isOneOf (things_traveler_type input) "COUPLE" "COUPLES").
    + destruct (pushCollection_good names c3 false "Romantic Experiences" p4
                  G3 L4 I4 ltac:(discriminate)) as [G4 N4].
      destruct (pushCollection_good names _ false
                  "Food & Culinary Experiences" p5 G4 L5 I5
                  ltac:(discriminate)) as [G5 N5].
      split; [lia|]. split; [exact G5|]. intros _.
      eexists. split; [apply Hkeep, Hkeep, Hfam|reflexivity].
    + destruct (pushCollection_good names c3 false
                  "Food & Culinary Experiences" p5 G3 L5 I5
                  ltac:(discriminate)) as [G5 N5].
      split; [lia|]. split; [exact G5|]. intros _.
      eexists. split; [apply Hkeep, Hfam|reflexivity].
  - destruct (isOneOf (things_traveler_type input) "COUPLE" "COUPLES").
    + destruct (pushCollection_good names c2 false "Romantic Experiences" p4
                  G2 L4 I4 ltac:(discriminate)) as [G4 N4].
      destruct (pushCollection_good names _ false
                  "Food & Culinary Experiences" p5 G4 L5 I5
                  ltac:(discriminate)) as [G5 N5].
      split; [lia|]. split; [exact G5|]. discriminate.
    + destruct (pushCollection_good names c2 false
                  "Food & Culinary Experiences" p5 G2 L5 I5
                  ltac:(discriminate)) as [G5 N5].
      split; [lia|]. split; [exact G5|]. discriminate.
Qed.

Lemma collections_drawn_from_activities_witness :
  exists resp,
    getThingsToDo thingsEnv coupleOnBudget = Returned resp /\
    map collection_name (curated_collections resp)
    = ["Top 10 Must-Do Experiences"; "Budget-Friendly Activities";
       "Romantic Experiences"] /\
    (length (curated_collections resp) <= 5)%nat /\
    Forall (goodCollection (map activity_name (things_recommendations resp)))
           (curated_collections resp) /\
    (isOneOf (things_traveler_type coupleOnBudget) "FAMILY" "FAMILIES" = true ->
     exists c, In c (curated_collections resp) /\
               collection_name c = "Perfect for Families").
Proof.
  eexists. split; [reflexivity|]. split; [reflexivity|].
  apply (collections_drawn_from_activities thingsEnv coupleOnBudget).
  reflexivity.
Defined.

(** ** get-dining-recommendations *)

(** What a returned list of dining recommendations is made of. *)
Lemma dining_returned (env : DiningEnv) (input : GetDiningRecommendationsInput)
    (resp : DiningRecommendationsResponse) :
  getDiningRecommendations env input = Returned resp ->
  exists d rest table,
    diningDestRows env = Returned (d :: rest) /\
    restaurantTable env = Returned table /\
    dining_recommendations resp
    = map (restaurantRecommendationOf d (dining_destination input)
             (occasion input))
          (restaurantRowsFor d input table) /\
    local_specialties resp = orList (local_cuisine_highlights d) [] /\
    length (food_experiences resp) = 3%nat.
Proof.
  unfold getDiningRecommendations, restaurantRowsFor. cbv zeta.
  destruct (diningDestRows env) as [[|d rest]|]; cbn [bind]; try discriminate.
  destruct (restaurantTable env) as [table|]; cbn [bind]; [|discriminate].
  intros H. injection H as <-. exists d, rest, table.
  repeat split; reflexivity.
Qed.



Lemma restaurant_signals_agree (d : Destination) (destination : string)
    (occasion : option string) (r : PoiRow) :
  let rec := restaurantRecommendationOf d destination occasion r in
  (reservation_required rec = true <-> dress_code rec <> "Casual") /\
  (dress_code rec = "Smart casual or formal"
   <-> dining_atmosphere rec = "Upscale and elegant") /\
  (dining_atmosphere rec = "Upscale and elegant"
   -> dining_price_level rec = "$$$$").
Proof.
  cbn [restaurantRecommendationOf reservation_required dress_code
       dining_atmosphere dining_price_level].
  unfold dressCodeOf, atmosphereOf, priceIs, optStrEq.
  destruct (poi_price_level (poi r)) as [p|].
  - destruct (String.eqb_spec p "$$$$") as [->|N4];
      [cbn; repeat split; try reflexivity; try discriminate; auto|].
    destruct (String.eqb_spec p "$$$") as [->|N3].
    + cbn. repeat split; try reflexivity; try discriminate; auto.
    + cbn [orb].
      destruct (match poi_tags (poi r) with
                | Some tags => includes tags "TRADITIONAL"
                | None => false
                end);
        repeat split; try discriminate; try congruence; auto.
  - cbn [orb].
    destruct (match poi_tags (poi r) with
              | Some tags => includes tags "TRADITIONAL"
              | None => false
              end);
      repeat split; try discriminate; try congruence; auto.
Qed.

(** X30: in every dining recommendation the price signals agree: a
    reservation is required exactly when the dress code is not 'Casual', the
    dress code is 'Smart casual or formal' exactly when the atmosphere is
    'Upscale and elegant', and that only for a restaurant of price level
    '$$$$'. *)
Theorem dining_signals_agree (env : DiningEnv)
    (input : GetDiningRecommendationsInput)
    (resp : DiningRecommendationsResponse) :
  getDiningRecommendations env input = Returned resp ->
  Forall (fun rec =>
            (reservation_required rec = true <-> dress_code rec <> "Casual") /\
            (dress_code rec = "Smart casual or formal"
             <-> dining_atmosphere rec = "Upscale and elegant") /\
            (dining_atmosphere rec = "Upscale and elegant"
             -> dining_price_level rec = "$$$$"))
         (dining_recommendations resp).
Proof.
  intros Hr.
  destruct (dining_returned env input resp Hr)
    as [d [rest [table [_ [_ [-> _]]]]]].
  apply Forall_map. apply Forall_forall. intros r _.
  apply (restaurant_signals_agree d (dining_destination input)
           (occasion input) r).
Qed.

Lemma dining_signals_agree_witness :
  exists resp,
    getDiningRecommendations diningEnv upscaleDinner = Returned resp /\
    map dress_code (dining_recommendations resp) = ["Smart casual"] /\
    Forall (fun rec =>
              (reservation_required rec = true
               <-> dress_code rec <> "Casual") /\
              (dress_code rec = "Smart casual or formal"
               <-> dining_atmosphere rec = "Upscale and elegant") /\
              (dining_atmosphere rec = "Upscale and elegant"
               -> dining_price_level rec = "$$$$"))
           (dining_recommendations resp).
Proof.
  eexists. split; [reflexivity|]. split; [reflexivity|].
  apply (dining_signals_agree diningEnv upscaleDinner). reflexivity.
Defined.
